(** * Personal Growth Diary: the request handlers over the relational store

    A shallow embedding of the Express route handlers (journal, goals and
    milestones, todos, the heatmap and the streak of the stats router,
    the auth status, the quotes and fallback tips of the ai router) and of
    the notification poller, over the SQLite schema of
    [database/schema.sql].

    Conventions of the embedding:
    - a timestamp is the number of milliseconds since the epoch (what
      [new Date()] holds); a calendar date is its day number, so that
      [toISOString().split('T')[0]] and SQLite's [date(..)] are [dateOf],
      and [setDate(getDate() - 1)] is [- 1] (the server clock is read in
      UTC);
    - a table is the list of its rows in insertion order, an
      AUTOINCREMENT key comes from the table's sequence counter;
    - the 0/1 INTEGER columns [is_completed], [reminder_enabled] and
      [motivation_enabled] are booleans;
    - JavaScript numbers that are not integers ([Math.random()], the
      milestone ratio) are rationals;
    - a handler is a computation over a world that holds the database,
      the state of the database driver (which may throw on a statement),
      the coming values of [Math.random()] and the notifications sent;
    - the fields of a request body are already parsed: a date field is a
      day or a string that is no date, an integer field an integer or
      some other string. *)

From Stdlib Require Import ZArith QArith Qround List String Ascii Bool Lia Permutation DecimalString.
From stdpp Require Import gmap.
Import ListNotations.

Local Open Scope string_scope.
Local Open Scope Z_scope.

(** ** Time *)

Module Clock.

Definition ms_per_day : Z := 24 * 60 * 60 * 1000.

(** [new Date(ts).toISOString().split('T')[0]], [date(ts)] and
    [date('now')]: the day of a timestamp. *)
Definition dateOf (ts : Z) : Z := ts / ms_per_day.

(** SQLite's [CURRENT_TIMESTAMP] has a resolution of one second. *)
Definition CURRENT_TIMESTAMP (now : Z) : Z := now / 1000 * 1000.

(** [new Date().getHours()]. *)
Definition getHours (now : Z) : Z := (now / (60 * 60 * 1000)) mod 24.

(** [strftime('%Y', d)] and [getFullYear()], by the usual civil calendar
    computation from a day number (days since 1970-01-01). *)
Definition yearOf (d : Z) : Z :=
  let z := d + 719468 in
  let era := z / 146097 in
  let doe := z - era * 146097 in
  let yoe := (doe - doe / 1460 + doe / 36524 - doe / 146096) / 365 in
  let doy := doe - (365 * yoe + yoe / 4 - yoe / 100) in
  let mp := (5 * doy + 2) / 153 in
  let m := if mp <? 10 then mp + 3 else mp - 9 in
  yoe + era * 400 + (if m <=? 2 then 1 else 0).

End Clock.
Import Clock.

(** ** The relational schema *)

Inductive activity_type := journal | todo_completed | goal_progress | login.

Record user_row := {
  u_id : Z; u_username : string; u_password_hash : string }.

Record journal_entry := {
  je_id : Z; je_user_id : Z;
  je_title : option string; je_content : string;
  je_mood : option string; je_mood_note : option string;
  je_entry_date : option Z;
  je_created_at : Z; je_updated_at : Z }.

Record journal_image := {
  ji_id : Z; ji_journal_id : Z; ji_filename : string; ji_original_name : string }.

Record goal := {
  g_id : Z; g_user_id : Z;
  g_title : string; g_description : option string;
  g_goal_type : string; g_target_date : option Z;
  g_progress : Z; g_status : string;
  g_created_at : Z; g_updated_at : Z; g_completed_at : option Z }.

Record goal_milestone := {
  gm_id : Z; gm_goal_id : Z; gm_title : string;
  gm_is_completed : bool; gm_completed_at : option Z; gm_created_at : Z }.

Record todo := {
  t_id : Z; t_user_id : Z;
  t_title : string; t_description : option string;
  t_priority : string; t_scheduled_date : Z;
  t_is_completed : bool; t_completed_at : option Z;
  t_created_at : Z; t_updated_at : Z }.

Record notification_setting := {
  ns_user_id : Z; ns_reminder_enabled : bool;
  ns_motivation_enabled : bool; ns_pending_threshold : Z }.

Record activity := {
  a_id : Z; a_user_id : Z; a_activity_type : activity_type;
  a_activity_date : Z; a_details : string; a_created_at : Z }.

Record DB := {
  users : list user_row;
  journal_entries : list journal_entry;
  journal_images : list journal_image;
  goals : list goal;
  goal_milestones : list goal_milestone;
  todos : list todo;
  notification_settings : list notification_setting;
  activity_log : list activity;
  seq_journal_entries : Z;
  seq_journal_images : Z;
  seq_goals : Z;
  seq_goal_milestones : Z;
  seq_todos : Z;
  seq_activity_log : Z }.

Definition with_journal_entries (l : list journal_entry) (s : Z) (d : DB) : DB :=
  {| users := users d; journal_entries := l; journal_images := journal_images d;
     goals := goals d; goal_milestones := goal_milestones d; todos := todos d;
     notification_settings := notification_settings d; activity_log := activity_log d;
     seq_journal_entries := s; seq_journal_images := seq_journal_images d;
     seq_goals := seq_goals d; seq_goal_milestones := seq_goal_milestones d;
     seq_todos := seq_todos d; seq_activity_log := seq_activity_log d |}.

Definition with_journal_images (l : list journal_image) (s : Z) (d : DB) : DB :=
  {| users := users d; journal_entries := journal_entries d; journal_images := l;
     goals := goals d; goal_milestones := goal_milestones d; todos := todos d;
     notification_settings := notification_settings d; activity_log := activity_log d;
     seq_journal_entries := seq_journal_entries d; seq_journal_images := s;
     seq_goals := seq_goals d; seq_goal_milestones := seq_goal_milestones d;
     seq_todos := seq_todos d; seq_activity_log := seq_activity_log d |}.

Definition with_goals (l : list goal) (s : Z) (d : DB) : DB :=
  {| users := users d; journal_entries := journal_entries d; journal_images := journal_images d;
     goals := l; goal_milestones := goal_milestones d; todos := todos d;
     notification_settings := notification_settings d; activity_log := activity_log d;
     seq_journal_entries := seq_journal_entries d; seq_journal_images := seq_journal_images d;
     seq_goals := s; seq_goal_milestones := seq_goal_milestones d;
     seq_todos := seq_todos d; seq_activity_log := seq_activity_log d |}.

Definition with_goal_milestones (l : list goal_milestone) (s : Z) (d : DB) : DB :=
  {| users := users d; journal_entries := journal_entries d; journal_images := journal_images d;
     goals := goals d; goal_milestones := l; todos := todos d;
     notification_settings := notification_settings d; activity_log := activity_log d;
     seq_journal_entries := seq_journal_entries d; seq_journal_images := seq_journal_images d;
     seq_goals := seq_goals d; seq_goal_milestones := s;
     seq_todos := seq_todos d; seq_activity_log := seq_activity_log d |}.

Definition with_todos (l : list todo) (s : Z) (d : DB) : DB :=
  {| users := users d; journal_entries := journal_entries d; journal_images := journal_images d;
     goals := goals d; goal_milestones := goal_milestones d; todos := l;
     notification_settings := notification_settings d; activity_log := activity_log d;
     seq_journal_entries := seq_journal_entries d; seq_journal_images := seq_journal_images d;
     seq_goals := seq_goals d; seq_goal_milestones := seq_goal_milestones d;
     seq_todos := s; seq_activity_log := seq_activity_log d |}.

Definition with_activity_log (l : list activity) (s : Z) (d : DB) : DB :=
  {| users := users d; journal_entries := journal_entries d; journal_images := journal_images d;
     goals := goals d; goal_milestones := goal_milestones d; todos := todos d;
     notification_settings := notification_settings d; activity_log := l;
     seq_journal_entries := seq_journal_entries d; seq_journal_images := seq_journal_images d;
     seq_goals := seq_goals d; seq_goal_milestones := seq_goal_milestones d;
     seq_todos := seq_todos d; seq_activity_log := s |}.

(** ** SQL building blocks *)

Module Sql.

(** [SELECT ... WHERE p]: the rows that satisfy [p], in table order. *)
Definition where_ {A} (p : A -> bool) (t : list A) : list A := List.filter p t.

(** [.get(..)]: the first row of a result, [undefined] when there is none. *)
Definition get {A} (rows : list A) : option A := hd_error rows.

(** [UPDATE ... SET .. WHERE p]: every matching row is rewritten. *)
Definition update {A} (p : A -> bool) (f : A -> A) (t : list A) : list A :=
  List.map (fun r => if p r then f r else r) t.

(** [DELETE ... WHERE p]; the second component is [result.changes]. *)
Definition delete_where {A} (p : A -> bool) (t : list A) : list A * Z :=
  (List.filter (fun r => negb (p r)) t, Z.of_nat (List.length (List.filter p t))).

(** The key an AUTOINCREMENT column gives to the next row: one more than
    the largest key the table has ever held. *)
Definition next_id (seq : Z) (ids : list Z) : Z := 1 + fold_right Z.max seq ids.

(** [a UNION b]: the rows of both, without duplicates. *)
Definition union (a b : list Z) : list Z := nodup Z.eq_dec (a ++ b).

(** [x = ?] on a nullable column: a NULL compares equal to nothing. *)
Definition eq_null (x : option Z) (v : Z) : bool :=
  match x with Some y => y =? v | None => false end.

(** [COUNT( * )]. *)
Definition count {A} (rows : list A) : Z := Z.of_nat (List.length rows).

End Sql.

(** ** The world a handler runs in *)

Record notification := { n_title : string; n_message : string; n_type : string }.

(** The database driver as a handler meets it: it works, or it is
    going to throw on the statement after the next [k] ones, or it has
    thrown (and goes on throwing). *)
Inductive driver :=
  | Healthy
  | FailsAfter (k : nat)
  | Failed.

(** [w_rand] holds the values the coming calls of [Math.random()]
    return (0 once it is exhausted); [w_sent] the desktop notifications
    sent so far. *)
Record World := {
  w_db : DB;
  w_fault : driver;
  w_rand : list Q;
  w_sent : list notification }.

Definition set_db (d : DB) (w : World) : World :=
  {| w_db := d; w_fault := w_fault w; w_rand := w_rand w; w_sent := w_sent w |}.
Definition set_fault (f : driver) (w : World) : World :=
  {| w_db := w_db w; w_fault := f; w_rand := w_rand w; w_sent := w_sent w |}.
Definition set_rand (r : list Q) (w : World) : World :=
  {| w_db := w_db w; w_fault := w_fault w; w_rand := r; w_sent := w_sent w |}.
Definition set_sent (s : list notification) (w : World) : World :=
  {| w_db := w_db w; w_fault := w_fault w; w_rand := w_rand w; w_sent := s |}.

(** The outcome of a computation: a value, a thrown exception, or a loop
    that is still running when the fuel of the model is spent. *)
Inductive outcome (A : Type) :=
  | Ok (a : A)
  | Throw
  | Spin.
Arguments Ok {A} a.
Arguments Throw {A}.
Arguments Spin {A}.

Definition M (A : Type) : Type := World -> outcome A * World.

Definition ret {A} (a : A) : M A := fun w => (Ok a, w).

Definition bind {A B} (m : M A) (k : A -> M B) : M B :=
  fun w => match m w with
           | (Ok a, w') => k a w'
           | (Throw, w') => (Throw, w')
           | (Spin, w') => (Spin, w')
           end.

Notation "x <- c1 ;; c2" := (bind c1 (fun x => c2))
  (at level 100, c1 at next level, right associativity).
Notation "c1 ;;; c2" := (bind c1 (fun _ => c2))
  (at level 100, right associativity).

Definition spin {A} : M A := fun w => (Spin, w).

(** One statement reaches the driver. *)
Definition tick (w : World) : option World :=
  match w_fault w with
  | Healthy => Some w
  | FailsAfter (S k) => Some (set_fault (FailsAfter k) w)
  | FailsAfter O | Failed => None
  end.

(** A [SELECT]: reads the database. *)
Definition query {A} (q : DB -> A) : M A :=
  fun w => match tick w with
           | Some w' => (Ok (q (w_db w')), w')
           | None => (Throw, set_fault Failed w)
           end.

(** An [INSERT], [UPDATE] or [DELETE]: [.run(..)]. *)
Definition run {A} (f : DB -> A * DB) : M A :=
  fun w => match tick w with
           | Some w' => let (a, d) := f (w_db w') in (Ok a, set_db d w')
           | None => (Throw, set_fault Failed w)
           end.

(** [Math.random()]. *)
Definition random : M Q :=
  fun w => match w_rand w with
           | r :: rs => (Ok r, set_rand rs w)
           | [] => (Ok 0%Q, w)
           end.

(** [try { m } catch (error) { h }]. *)
Definition try_catch {A} (m : M A) (h : M A) : M A :=
  fun w => match m w with
           | (Throw, w') => h w'
           | r => r
           end.

(** [list.forEach(f)]. *)
Fixpoint forEach {A} (f : A -> M unit) (l : list A) : M unit :=
  match l with
  | [] => ret tt
  | x :: l' => f x ;;; forEach f l'
  end.

(** ** Strings *)

Module Str.

Definition is_space (c : ascii) : bool :=
  let n := N_of_ascii c in ((9 <=? n) && (n <=? 13) || (n =? 32))%N.

Fixpoint ltrim (s : list ascii) : list ascii :=
  match s with
  | c :: s' => if is_space c then ltrim s' else s
  | [] => []
  end.

(** [s.trim()]. *)
Definition trim (s : string) : string :=
  string_of_list_ascii
    (List.rev (ltrim (List.rev (ltrim (list_ascii_of_string s))))).

Definition lower (c : ascii) : ascii :=
  let n := N_of_ascii c in
  if ((65 <=? n) && (n <=? 90))%N then ascii_of_N (n + 32) else c.

(** [s.toLowerCase()], on the letters A to Z. *)
Fixpoint toLowerCase (s : string) : string :=
  match s with
  | EmptyString => EmptyString
  | String c s' => String (lower c) (toLowerCase s')
  end.

(** [s.includes(sub)]. *)
Fixpoint includes (s sub : string) : bool :=
  String.prefix sub s ||
  match s with
  | EmptyString => false
  | String _ s' => includes s' sub
  end.

(** SQLite's [s LIKE p]: [%] stands for any run of characters, [_] for
    one character, letters match without regard to case. *)
Fixpoint like_chars (p s : list ascii) : bool :=
  match p with
  | [] => match s with [] => true | _ => false end
  | c :: p' =>
      if Ascii.eqb c "%" then
        (fix any (s : list ascii) : bool :=
           like_chars p' s || match s with [] => false | _ :: s' => any s' end) s
      else
        match s with
        | [] => false
        | d :: s' =>
            (Ascii.eqb c "_" || Ascii.eqb (lower c) (lower d)) && like_chars p' s'
        end
  end.

Definition like (s p : string) : bool :=
  like_chars (list_ascii_of_string p) (list_ascii_of_string s).

(** [a || b] on strings: the empty string is falsy. *)
Definition or_else (a : option string) (b : string) : string :=
  match a with
  | Some EmptyString | None => b
  | Some s => s
  end.

(** [a || null]. *)
Definition or_null (a : option string) : option string :=
  match a with
  | Some EmptyString | None => None
  | Some s => Some s
  end.

Definition in_list (s : string) (l : list string) : bool :=
  existsb (String.eqb s) l.

End Str.

(** ** Requests, validation and responses *)

(** A date field of a request body: a string [isDate()] accepts, read as
    its day, or any other string. *)
Inductive date_input :=
  | DateOk (d : Z)
  | DateBad (raw : string).

(** An integer field of a request body. *)
Inductive int_input :=
  | IntOk (n : Z)
  | IntBad (raw : string).

(** The [milestones] field: an array of objects with an optional
    [title], or a value that is not an array. *)
Inductive milestones_input :=
  | MsArray (titles : list (option string))
  | MsOther.

(** One entry of [errors.array()]. *)
Record verror := { ve_path : string; ve_msg : string }.

Module Validator.

Definition invalid : string := "Invalid value".

(** [.notEmpty()]: an absent field counts as the empty string. *)
Definition notEmpty (v : option string) : bool :=
  match v with
  | Some EmptyString | None => false
  | Some _ => true
  end.

Definition isLength_max (n : nat) (s : string) : bool :=
  (String.length s <=? n)%nat.

Definition isDate (v : date_input) : bool :=
  match v with DateOk _ => true | DateBad _ => false end.

Definition isInt (lo hi : Z) (v : int_input) : bool :=
  match v with IntOk n => (lo <=? n) && (n <=? hi) | IntBad _ => false end.

Definition isArray (v : milestones_input) : bool :=
  match v with MsArray _ => true | MsOther => false end.

(** One validation chain: the message of the failed check, if any.
    [.optional()] skips the checks of a field that is absent. *)
Definition check (path msg : string) (ok : bool) : list verror :=
  if ok then [] else [ {| ve_path := path; ve_msg := msg |} ].

Definition optional {A} (path msg : string) (p : A -> bool) (v : option A) : list verror :=
  match v with
  | Some x => check path msg (p x)
  | None => []
  end.

End Validator.

Record quote := { q_text : string; q_author : string }.

Inductive payload :=
  | PError (error : string)
  | PErrors (errors : list verror)
  | PMessage (message : string)
  | PCreated (message : string) (id : Z)
  | PToggled (message : string) (is_completed : bool)
  | PGoal (g : goal) (milestones : list goal_milestone)
  | PJournal (e : journal_entry) (images : list journal_image)
  | PJournalList (entries : list (journal_entry * list string))
  | PHeatmap (heatmapData : gmap Z Z)
  | PAuthStatus (authenticated : bool) (userId : option Z)
  | PTips (tips : string) (source : string)
  | PQuote (q : option quote).

Record response := { status : Z; body : payload }.

(** [res.json(p)] and [res.status(c).json(p)]. *)
Definition json (p : payload) : response := {| status := 200; body := p |}.
Definition status_json (c : Z) (p : payload) : response := {| status := c; body := p |}.

(** ** Helpers shared by the route modules *)

(** [ORDER BY]: [before a b] holds when [a] may come before [b]. *)
Fixpoint insert_sorted {A} (before : A -> A -> bool) (x : A) (l : list A) : list A :=
  match l with
  | [] => [x]
  | y :: l' => if before x y then x :: l else y :: insert_sorted before x l'
  end.

Definition order_by {A} (before : A -> A -> bool) (l : list A) : list A :=
  fold_right (insert_sorted before) [] l.

(** Ordering of a nullable column: NULL is smaller than every value. *)
Definition null_ltb (x y : option Z) : bool :=
  match x, y with
  | None, Some _ => true
  | Some a, Some b => a <? b
  | _, None => false
  end.

Definition null_eqb (x y : option Z) : bool :=
  match x, y with
  | None, None => true
  | Some a, Some b => a =? b
  | _, _ => false
  end.

(** [INSERT INTO activity_log (user_id, activity_type, details)]:
    [activity_date] and [created_at] take their defaults. *)
Definition insert_activity (userId : Z) (ty : activity_type) (details : string)
    (now : Z) (d : DB) : Z * DB :=
  let id := Sql.next_id (seq_activity_log d) (List.map a_id (activity_log d)) in
  (id, with_activity_log
         (activity_log d ++
            [ {| a_id := id; a_user_id := userId; a_activity_type := ty;
                 a_activity_date := dateOf now; a_details := details;
                 a_created_at := CURRENT_TIMESTAMP now |} ])
         id d).

(** [Math.round(x)]: the nearest integer, halves upward. *)
Definition Math_round (x : Q) : Z := Qfloor (x + (1 # 2))%Q.

(** [Math.floor(x)]. *)
Definition Math_floor (x : Q) : Z := Qfloor x.

(** ** routes/journal.js *)

Module Journal.

Record body := {
  title : option string;
  content : option string;
  mood : option string;
  mood_note : option string;
  entry_date : option date_input;
  files : list (string * string) }.

Record filter := {
  startDate : option Z;
  endDate : option Z;
  f_mood : option string;
  search : option string }.

Definition moods : list string := ["amazing"; "good"; "neutral"; "bad"; "terrible"].

(** The validation chains of [POST /]. *)
Definition validate_create (b : body) : list verror :=
  Validator.optional "title" Validator.invalid
    (fun s => Validator.isLength_max 200 (Str.trim s)) (title b)
  ++ Validator.check "content" "Content is required" (Validator.notEmpty (content b))
  ++ Validator.optional "mood" Validator.invalid (fun s => Str.in_list s moods) (mood b)
  ++ Validator.optional "entry_date" Validator.invalid Validator.isDate (entry_date b).

Definition images_of (db : DB) (journalId : Z) : list journal_image :=
  Sql.where_ (fun i => ji_journal_id i =? journalId) (journal_images db).

Definition opt_like (s : option string) (p : string) : bool :=
  match s with Some x => Str.like x p | None => false end.

Definition matches (userId : Z) (f : filter) (j : journal_entry) : bool :=
  (je_user_id j =? userId)
  && match startDate f with
     | Some d => match je_entry_date j with Some e => d <=? e | None => false end
     | None => true
     end
  && match endDate f with
     | Some d => match je_entry_date j with Some e => e <=? d | None => false end
     | None => true
     end
  && match f_mood f with
     | Some EmptyString | None => true
     | Some m => match je_mood j with Some x => String.eqb x m | None => false end
     end
  && match search f with
     | Some EmptyString | None => true
     | Some s =>
         let p := String.append "%" (String.append s "%") in
         opt_like (je_title j) p || Str.like (je_content j) p
     end.

(** [ORDER BY j.entry_date DESC, j.created_at DESC]. *)
Definition newest_first (a b : journal_entry) : bool :=
  null_ltb (je_entry_date b) (je_entry_date a)
  || (null_eqb (je_entry_date a) (je_entry_date b) && (je_created_at b <=? je_created_at a)).

(** [GET /]; [images] holds the file names that [GROUP_CONCAT] joins
    and [split(',')] separates again. *)
Definition list_entries (userId : Z) (f : filter) : M response :=
  try_catch
    (entries <- query (fun db =>
        List.map (fun j => (j, List.map ji_filename (images_of db (je_id j))))
          (order_by newest_first (Sql.where_ (matches userId f) (journal_entries db)))) ;;
     ret (json (PJournalList entries)))
    (ret (status_json 500 (PError "Failed to fetch journal entries"))).

Definition select_owned (userId id : Z) (db : DB) : option journal_entry :=
  Sql.get (Sql.where_ (fun j => (je_id j =? id) && (je_user_id j =? userId))
             (journal_entries db)).

(** [GET /:id]. *)
Definition get_entry (userId id : Z) : M response :=
  try_catch
    (entry <- query (select_owned userId id) ;;
     match entry with
     | None => ret (status_json 404 (PError "Entry not found"))
     | Some e =>
         images <- query (fun db => images_of db (je_id e)) ;;
         ret (json (PJournal e images))
     end)
    (ret (status_json 500 (PError "Failed to fetch journal entry"))).

Definition insert_entry (userId : Z) (b : body) (now : Z) (d : DB) : Z * DB :=
  let id := Sql.next_id (seq_journal_entries d) (List.map je_id (journal_entries d)) in
  (id, with_journal_entries
         (journal_entries d ++
            [ {| je_id := id; je_user_id := userId;
                 je_title := Str.or_null (option_map Str.trim (title b));
                 je_content := match content b with Some c => c | None => EmptyString end;
                 je_mood := Str.or_null (mood b);
                 je_mood_note := Str.or_null (mood_note b);
                 je_entry_date :=
                   Some (match entry_date b with
                         | Some (DateOk day) => day
                         | _ => dateOf now
                         end);
                 je_created_at := CURRENT_TIMESTAMP now;
                 je_updated_at := CURRENT_TIMESTAMP now |} ])
         id d).

Definition insert_image (journalId : Z) (file : string * string) (d : DB) : unit * DB :=
  let id := Sql.next_id (seq_journal_images d) (List.map ji_id (journal_images d)) in
  (tt, with_journal_images
         (journal_images d ++
            [ {| ji_id := id; ji_journal_id := journalId;
                 ji_filename := fst file; ji_original_name := snd file |} ])
         id d).

(** [POST /]. *)
Definition create (userId now : Z) (b : body) : M response :=
  match validate_create b with
  | (_ :: _) as errors => ret (status_json 400 (PErrors errors))
  | [] =>
      try_catch
        (journalId <- run (insert_entry userId b now) ;;
         forEach (fun file => run (insert_image journalId file)) (files b) ;;;
         run (insert_activity userId journal
                (String.append "Created journal entry: "
                   (Str.or_else (option_map Str.trim (title b)) "Untitled")) now) ;;;
         ret (status_json 201 (PCreated "Journal entry created" journalId)))
        (ret (status_json 500 (PError "Failed to create journal entry")))
  end.

(** [DELETE FROM journal_entries WHERE id = ? AND user_id = ?]; the
    images of a deleted entry go with it ([ON DELETE CASCADE]). *)
Definition delete_entry (userId id : Z) (d : DB) : Z * DB :=
  let hit := fun j => (je_id j =? id) && (je_user_id j =? userId) in
  let (rest, changes) := Sql.delete_where hit (journal_entries d) in
  (changes,
   if changes =? 0 then d
   else with_journal_images
          (List.filter (fun i => negb (ji_journal_id i =? id)) (journal_images d))
          (seq_journal_images d)
          (with_journal_entries rest (seq_journal_entries d) d)).

(** [DELETE /:id]. *)
Definition delete (userId id : Z) : M response :=
  try_catch
    (images <- query (fun db =>
        List.map ji_filename
          (Sql.where_ (fun i => (ji_journal_id i =? id)
                                && existsb (fun j => (je_id j =? id) && (je_user_id j =? userId))
                                     (journal_entries db))
             (journal_images db))) ;;
     changes <- run (delete_entry userId id) ;;
     if changes =? 0 then ret (status_json 404 (PError "Entry not found"))
     else ret (json (PMessage "Journal entry deleted")))
    (ret (status_json 500 (PError "Failed to delete journal entry"))).

End Journal.

(** ** routes/goals.js *)

Module Goals.

Record body := {
  title : option string;
  description : option string;
  goal_type : option string;
  target_date : option date_input;
  milestones : option milestones_input }.

Record update_body := {
  u_title : option string;
  u_description : option string;
  u_target_date : option (option Z);
  u_progress : option int_input;
  u_status : option string }.

Definition goal_types : list string := ["short-term"; "long-term"].
Definition statuses : list string := ["active"; "completed"; "paused"; "cancelled"].

Definition validate_create (b : body) : list verror :=
  Validator.check "title" "Title is required" (Validator.notEmpty (title b))
  ++ Validator.check "goal_type" "Invalid goal type"
       (Str.in_list (Str.or_else (goal_type b) EmptyString) goal_types)
  ++ Validator.optional "target_date" Validator.invalid Validator.isDate (target_date b)
  ++ Validator.optional "milestones" Validator.invalid Validator.isArray (milestones b).

Definition validate_update (b : update_body) : list verror :=
  Validator.optional "title" Validator.invalid
    (fun s => Validator.notEmpty (Some (Str.trim s))) (u_title b)
  ++ Validator.optional "progress" Validator.invalid (Validator.isInt 0 100) (u_progress b)
  ++ Validator.optional "status" Validator.invalid (fun s => Str.in_list s statuses) (u_status b).

Definition validate_milestone (title : option string) : list verror :=
  Validator.check "title" "Milestone title is required" (Validator.notEmpty title).

Definition select_owned (userId id : Z) (db : DB) : option goal :=
  Sql.get (Sql.where_ (fun g => (g_id g =? id) && (g_user_id g =? userId)) (goals db)).

(** [SELECT * FROM goal_milestones WHERE goal_id = ? ORDER BY created_at]. *)
Definition milestones_of (goalId : Z) (db : DB) : list goal_milestone :=
  order_by (fun a b => gm_created_at a <=? gm_created_at b)
    (Sql.where_ (fun m => gm_goal_id m =? goalId) (goal_milestones db)).

(** [GET /:id]. *)
Definition get_goal (userId id : Z) : M response :=
  try_catch
    (g <- query (select_owned userId id) ;;
     match g with
     | None => ret (status_json 404 (PError "Goal not found"))
     | Some g =>
         ms <- query (milestones_of (g_id g)) ;;
         ret (json (PGoal g ms))
     end)
    (ret (status_json 500 (PError "Failed to fetch goal"))).

Definition insert_goal (userId : Z) (b : body) (now : Z) (d : DB) : Z * DB :=
  let id := Sql.next_id (seq_goals d) (List.map g_id (goals d)) in
  (id, with_goals
         (goals d ++
            [ {| g_id := id; g_user_id := userId;
                 g_title := Str.trim (Str.or_else (title b) EmptyString);
                 g_description := Str.or_null (description b);
                 g_goal_type := Str.or_else (goal_type b) EmptyString;
                 g_target_date :=
                   match target_date b with Some (DateOk day) => Some day | _ => None end;
                 g_progress := 0; g_status := "active";
                 g_created_at := CURRENT_TIMESTAMP now;
                 g_updated_at := CURRENT_TIMESTAMP now;
                 g_completed_at := None |} ])
         id d).

Definition insert_milestone (goalId : Z) (title : string) (now : Z) (d : DB) : Z * DB :=
  let id := Sql.next_id (seq_goal_milestones d) (List.map gm_id (goal_milestones d)) in
  (id, with_goal_milestones
         (goal_milestones d ++
            [ {| gm_id := id; gm_goal_id := goalId; gm_title := title;
                 gm_is_completed := false; gm_completed_at := None;
                 gm_created_at := CURRENT_TIMESTAMP now |} ])
         id d).

(** [POST /]. *)
Definition create (userId now : Z) (b : body) : M response :=
  match validate_create b with
  | (_ :: _) as errors => ret (status_json 400 (PErrors errors))
  | [] =>
      try_catch
        (goalId <- run (insert_goal userId b now) ;;
         match milestones b with
         | Some (MsArray ms) =>
             forEach (fun m =>
               match m with
               | Some t =>
                   if negb (String.eqb t EmptyString)
                      && negb (String.eqb (Str.trim t) EmptyString)
                   then run (insert_milestone goalId (Str.trim t) now) ;;; ret tt
                   else ret tt
               | None => ret tt
               end) ms
         | _ => ret tt
         end ;;;
         ret (status_json 201 (PCreated "Goal created" goalId)))
        (ret (status_json 500 (PError "Failed to create goal")))
  end.

Definition string_of_Z (n : Z) : string := NilZero.string_of_int (Z.to_int n).

Definition dquote : string := String (ascii_of_nat 34) EmptyString.

(** The [SET] list that [PUT /:id] builds from the fields present. *)
Definition apply_update (b : update_body) (now : Z) (g : goal) : goal :=
  {| g_id := g_id g; g_user_id := g_user_id g;
     g_title := match u_title b with Some t => Str.trim t | None => g_title g end;
     g_description :=
       match u_description b with Some x => Some x | None => g_description g end;
     g_goal_type := g_goal_type g;
     g_target_date := match u_target_date b with Some x => x | None => g_target_date g end;
     g_progress := match u_progress b with Some (IntOk n) => n | _ => g_progress g end;
     g_status := match u_status b with Some s => s | None => g_status g end;
     g_created_at := g_created_at g;
     g_updated_at := CURRENT_TIMESTAMP now;
     g_completed_at :=
       match u_status b with
       | Some s => if String.eqb s "completed" then Some (CURRENT_TIMESTAMP now)
                   else g_completed_at g
       | None => g_completed_at g
       end |}.

(** [PUT /:id]. *)
Definition update (userId now id : Z) (b : update_body) : M response :=
  match validate_update b with
  | (_ :: _) as errors => ret (status_json 400 (PErrors errors))
  | [] =>
      try_catch
        (g <- query (select_owned userId id) ;;
         match g with
         | None => ret (status_json 404 (PError "Goal not found"))
         | Some g =>
             match u_progress b with
             | Some (IntOk n) =>
                 run (insert_activity userId goal_progress
                        (String.append "Goal "
                           (String.append dquote
                              (String.append (g_title g)
                                 (String.append dquote
                                    (String.append " progress: "
                                       (String.append (string_of_Z n) "%")))))) now) ;;;
                 ret tt
             | _ => ret tt
             end ;;;
             run (fun d => (tt, with_goals
                                  (Sql.update (fun r => g_id r =? id) (apply_update b now) (goals d))
                                  (seq_goals d) d)) ;;;
             ret (json (PMessage "Goal updated"))
         end)
        (ret (status_json 500 (PError "Failed to update goal")))
  end.

(** [DELETE FROM goals WHERE id = ? AND user_id = ?]; the milestones of a
    deleted goal go with it ([ON DELETE CASCADE]). *)
Definition delete_goal (userId id : Z) (d : DB) : Z * DB :=
  let hit := fun g => (g_id g =? id) && (g_user_id g =? userId) in
  let (rest, changes) := Sql.delete_where hit (goals d) in
  (changes,
   if changes =? 0 then d
   else with_goal_milestones
          (List.filter (fun m => negb (gm_goal_id m =? id)) (goal_milestones d))
          (seq_goal_milestones d)
          (with_goals rest (seq_goals d) d)).

(** [DELETE /:id]. *)
Definition delete (userId id : Z) : M response :=
  try_catch
    (changes <- run (delete_goal userId id) ;;
     if changes =? 0 then ret (status_json 404 (PError "Goal not found"))
     else ret (json (PMessage "Goal deleted")))
    (ret (status_json 500 (PError "Failed to delete goal"))).

(** [POST /:id/milestones]. *)
Definition add_milestone (userId now id : Z) (title : option string) : M response :=
  match validate_milestone title with
  | (_ :: _) as errors => ret (status_json 400 (PErrors errors))
  | [] =>
      try_catch
        (g <- query (select_owned userId id) ;;
         match g with
         | None => ret (status_json 404 (PError "Goal not found"))
         | Some _ =>
             mid <- run (insert_milestone id (Str.trim (Str.or_else title EmptyString)) now) ;;
             ret (status_json 201 (PCreated "Milestone added" mid))
         end)
        (ret (status_json 500 (PError "Failed to add milestone")))
  end.

(** The ownership check of the milestone routes: the milestone joined
    with its goal, filtered by the goal's owner. *)
Definition owned_milestone (userId milestoneId : Z) (db : DB) (gm : goal_milestone) : bool :=
  (gm_id gm =? milestoneId)
  && existsb (fun g => (g_id g =? gm_goal_id gm) && (g_user_id g =? userId)) (goals db).

Definition select_owned_milestone (userId milestoneId : Z) (db : DB) : option goal_milestone :=
  Sql.get (Sql.where_ (owned_milestone userId milestoneId db) (goal_milestones db)).

Definition set_completed (newStatus : bool) (now : Z) (m : goal_milestone) : goal_milestone :=
  {| gm_id := gm_id m; gm_goal_id := gm_goal_id m; gm_title := gm_title m;
     gm_is_completed := newStatus;
     gm_completed_at := if newStatus then Some now else None;
     gm_created_at := gm_created_at m |}.

(** [SELECT COUNT( * ) as total, SUM(is_completed) as completed
     FROM goal_milestones WHERE goal_id = ?]; without rows [completed] is
    NULL, which the handler does not read ([total] is 0 then). *)
Definition milestone_stats (goalId : Z) (db : DB) : Z * Z :=
  let rows := Sql.where_ (fun m => gm_goal_id m =? goalId) (goal_milestones db) in
  (Sql.count rows, fold_right Z.add 0 (List.map (fun m => Z.b2z (gm_is_completed m)) rows)).

(** [Math.round((stats.completed / stats.total) * 100)]. *)
Definition progress_of (completed total : Z) : Z :=
  Math_round ((inject_Z completed / inject_Z total) * 100)%Q.

Definition set_progress (progress now : Z) (g : goal) : goal :=
  {| g_id := g_id g; g_user_id := g_user_id g; g_title := g_title g;
     g_description := g_description g; g_goal_type := g_goal_type g;
     g_target_date := g_target_date g; g_progress := progress;
     g_status := g_status g; g_created_at := g_created_at g;
     g_updated_at := CURRENT_TIMESTAMP now; g_completed_at := g_completed_at g |}.

(** [PATCH /:goalId/milestones/:milestoneId/toggle]. *)
Definition toggle_milestone (userId now goalId milestoneId : Z) : M response :=
  try_catch
    (milestone <- query (select_owned_milestone userId milestoneId) ;;
     match milestone with
     | None => ret (status_json 404 (PError "Milestone not found"))
     | Some m =>
         let newStatus := negb (gm_is_completed m) in
         run (fun d => (tt, with_goal_milestones
                              (Sql.update (fun r => gm_id r =? milestoneId)
                                 (set_completed newStatus now) (goal_milestones d))
                              (seq_goal_milestones d) d)) ;;;
         stats <- query (milestone_stats goalId) ;;
         (if fst stats >? 0 then
            let progress := progress_of (snd stats) (fst stats) in
            run (fun d => (tt, with_goals
                                 (Sql.update (fun g => g_id g =? goalId)
                                    (set_progress progress now) (goals d))
                                 (seq_goals d) d))
          else ret tt) ;;;
         ret (json (PToggled "Milestone updated" newStatus))
     end)
    (ret (status_json 500 (PError "Failed to update milestone"))).

(** [DELETE FROM goal_milestones WHERE id = ? AND goal_id IN
     (SELECT id FROM goals WHERE user_id = ?)]. *)
Definition delete_milestone_row (userId milestoneId : Z) (d : DB) : Z * DB :=
  let hit := fun m =>
    (gm_id m =? milestoneId)
    && existsb (fun g => (g_id g =? gm_goal_id m) && (g_user_id g =? userId)) (goals d) in
  let (rest, changes) := Sql.delete_where hit (goal_milestones d) in
  (changes, with_goal_milestones rest (seq_goal_milestones d) d).

(** [DELETE /:goalId/milestones/:milestoneId]. *)
Definition delete_milestone (userId goalId milestoneId : Z) : M response :=
  try_catch
    (changes <- run (delete_milestone_row userId milestoneId) ;;
     if changes =? 0 then ret (status_json 404 (PError "Milestone not found"))
     else ret (json (PMessage "Milestone deleted")))
    (ret (status_json 500 (PError "Failed to delete milestone"))).

End Goals.

(** ** routes/todos.js *)

Module Todos.

Record body := {
  title : option string;
  description : option string;
  priority : option string;
  scheduled_date : option date_input }.

Definition priorities : list string := ["low"; "medium"; "high"; "urgent"].

Definition validate_create (b : body) : list verror :=
  Validator.check "title" "Title is required" (Validator.notEmpty (title b))
  ++ Validator.check "scheduled_date" "Valid date is required"
       (match scheduled_date b with Some v => Validator.isDate v | None => false end)
  ++ Validator.optional "priority" Validator.invalid
       (fun s => Str.in_list s priorities) (priority b).

Definition insert_todo (userId : Z) (b : body) (now : Z) (d : DB) : Z * DB :=
  let id := Sql.next_id (seq_todos d) (List.map t_id (todos d)) in
  (id, with_todos
         (todos d ++
            [ {| t_id := id; t_user_id := userId;
                 t_title := Str.trim (Str.or_else (title b) EmptyString);
                 t_description := Str.or_null (description b);
                 t_priority := Str.or_else (priority b) "medium";
                 t_scheduled_date :=
                   match scheduled_date b with Some (DateOk day) => day | _ => dateOf now end;
                 t_is_completed := false; t_completed_at := None;
                 t_created_at := CURRENT_TIMESTAMP now;
                 t_updated_at := CURRENT_TIMESTAMP now |} ])
         id d).

(** [POST /]. *)
Definition create (userId now : Z) (b : body) : M response :=
  match validate_create b with
  | (_ :: _) as errors => ret (status_json 400 (PErrors errors))
  | [] =>
      try_catch
        (id <- run (insert_todo userId b now) ;;
         ret (status_json 201 (PCreated "Todo created" id)))
        (ret (status_json 500 (PError "Failed to create todo")))
  end.

Definition select_owned (userId id : Z) (db : DB) : option todo :=
  Sql.get (Sql.where_ (fun t => (t_id t =? id) && (t_user_id t =? userId)) (todos db)).

Record update_body := {
  u_title : option string;
  u_description : option string;
  u_priority : option string;
  u_scheduled_date : option date_input }.

Definition validate_update (b : update_body) : list verror :=
  Validator.optional "title" Validator.invalid
    (fun s => Validator.notEmpty (Some (Str.trim s))) (u_title b)
  ++ Validator.optional "priority" Validator.invalid
       (fun s => Str.in_list s priorities) (u_priority b)
  ++ Validator.optional "scheduled_date" Validator.invalid Validator.isDate
       (u_scheduled_date b).

(** The [SET] list that [PUT /:id] builds from the fields present. *)
Definition apply_update (b : update_body) (now : Z) (t : todo) : todo :=
  {| t_id := t_id t; t_user_id := t_user_id t;
     t_title := match u_title b with Some x => Str.trim x | None => t_title t end;
     t_description :=
       match u_description b with Some x => Some x | None => t_description t end;
     t_priority := match u_priority b with Some x => x | None => t_priority t end;
     t_scheduled_date :=
       match u_scheduled_date b with Some (DateOk day) => day | _ => t_scheduled_date t end;
     t_is_completed := t_is_completed t; t_completed_at := t_completed_at t;
     t_created_at := t_created_at t;
     t_updated_at := CURRENT_TIMESTAMP now |}.

(** [PUT /:id]. *)
Definition update (userId now id : Z) (b : update_body) : M response :=
  match validate_update b with
  | (_ :: _) as errors => ret (status_json 400 (PErrors errors))
  | [] =>
      try_catch
        (found <- query (select_owned userId id) ;;
         match found with
         | None => ret (status_json 404 (PError "Todo not found"))
         | Some _ =>
             run (fun d => (tt, with_todos
                                  (Sql.update (fun r => t_id r =? id) (apply_update b now)
                                     (todos d))
                                  (seq_todos d) d)) ;;;
             ret (json (PMessage "Todo updated"))
         end)
        (ret (status_json 500 (PError "Failed to update todo")))
  end.

(** [SET is_completed = ?, completed_at = ?, updated_at = CURRENT_TIMESTAMP]. *)
Definition set_completed (newStatus : bool) (now : Z) (t : todo) : todo :=
  {| t_id := t_id t; t_user_id := t_user_id t; t_title := t_title t;
     t_description := t_description t; t_priority := t_priority t;
     t_scheduled_date := t_scheduled_date t;
     t_is_completed := newStatus;
     t_completed_at := if newStatus then Some now else None;
     t_created_at := t_created_at t;
     t_updated_at := CURRENT_TIMESTAMP now |}.

(** [PATCH /:id/toggle]. *)
Definition toggle (userId now id : Z) : M response :=
  try_catch
    (found <- query (select_owned userId id) ;;
     match found with
     | None => ret (status_json 404 (PError "Todo not found"))
     | Some t =>
         let newStatus := negb (t_is_completed t) in
         run (fun d => (tt, with_todos
                              (Sql.update (fun r => t_id r =? id)
                                 (set_completed newStatus now) (todos d))
                              (seq_todos d) d)) ;;;
         (if newStatus then
            run (insert_activity userId todo_completed
                   (String.append "Completed: " (t_title t)) now) ;;; ret tt
          else ret tt) ;;;
         ret (json (PToggled "Todo updated" newStatus))
     end)
    (ret (status_json 500 (PError "Failed to update todo"))).

Definition delete_todo (userId id : Z) (d : DB) : Z * DB :=
  let (rest, changes) :=
    Sql.delete_where (fun t => (t_id t =? id) && (t_user_id t =? userId)) (todos d) in
  (changes, with_todos rest (seq_todos d) d).

(** [DELETE /:id]. *)
Definition delete (userId id : Z) : M response :=
  try_catch
    (changes <- run (delete_todo userId id) ;;
     if changes =? 0 then ret (status_json 404 (PError "Todo not found"))
     else ret (json (PMessage "Todo deleted")))
    (ret (status_json 500 (PError "Failed to delete todo"))).

End Todos.

(** ** routes/stats.js *)

Module Stats.

(** [SELECT d, COUNT( * ) ... GROUP BY d]: one row per distinct date. *)
Definition group_count (dates : list Z) : list (Z * Z) :=
  List.map (fun d => (d, Z.of_nat (count_occ Z.eq_dec dates d))) (nodup Z.eq_dec dates).

Definition activity_dates (userId targetYear : Z) (db : DB) : list Z :=
  List.map a_activity_date
    (Sql.where_ (fun a => (a_user_id a =? userId) && (yearOf (a_activity_date a) =? targetYear))
       (activity_log db)).

Definition completed_todo_dates (userId targetYear : Z) (db : DB) : list Z :=
  flat_map (fun t =>
    match t_completed_at t with
    | Some at_ =>
        if (t_user_id t =? userId) && t_is_completed t && (yearOf (dateOf at_) =? targetYear)
        then [dateOf at_] else []
    | None => []
    end) (todos db).

Definition journal_dates (userId targetYear : Z) (db : DB) : list Z :=
  flat_map (fun j =>
    match je_entry_date j with
    | Some e => if (je_user_id j =? userId) && (yearOf e =? targetYear) then [e] else []
    | None => []
    end) (journal_entries db).

(** The [forEach] that merges the three results into [heatmapData];
    every row of the three results has a date, so that the guard
    [if (item.activity_date)] lets all of them through. *)
Definition merge (items : list (Z * Z)) : gmap Z Z :=
  fold_left (fun (heatmapData : gmap Z Z) item =>
               <[fst item := default 0 (heatmapData !! fst item) + snd item]> heatmapData)
    items ∅.

(** [GET /heatmap]. *)
Definition heatmap (userId now : Z) (year : option Z) : M response :=
  let targetYear := match year with Some y => y | None => yearOf (dateOf now) end in
  try_catch
    (activities <- query (fun db => group_count (activity_dates userId targetYear db)) ;;
     completedTodos <- query (fun db => group_count (completed_todo_dates userId targetYear db)) ;;
     journalEntries <- query (fun db => group_count (journal_dates userId targetYear db)) ;;
     ret (json (PHeatmap (merge (activities ++ completedTodos ++ journalEntries)))))
    (ret (status_json 500 (PError "Failed to fetch heatmap data"))).

(** The query of [calculateStreak]: the dates of the three sources that
    equal [dateStr], united. *)
Definition streak_dates (userId dateStr : Z) (db : DB) : list Z :=
  Sql.union
    (Sql.union
       (flat_map (fun j =>
          match je_entry_date j with
          | Some e => if (je_user_id j =? userId) && (e =? dateStr) then [e] else []
          | None => []
          end) (journal_entries db))
       (flat_map (fun t =>
          match t_completed_at t with
          | Some at_ =>
              if (t_user_id t =? userId) && t_is_completed t && (dateOf at_ =? dateStr)
              then [dateOf at_] else []
          | None => []
          end) (todos db)))
    (List.map a_activity_date
       (Sql.where_ (fun a => (a_user_id a =? userId) && (a_activity_date a =? dateStr))
          (activity_log db))).

(** The [while (true)] loop of [calculateStreak]; [currentDate] is the
    day the loop looks at, [today] the day of the call. *)
Fixpoint streak_loop (fuel : nat) (userId today currentDate streak : Z) : M Z :=
  match fuel with
  | O => spin
  | S fuel' =>
      let dateStr := currentDate in
      activity <- query (fun db => Sql.get (streak_dates userId dateStr db)) ;;
      match activity with
      | Some _ => streak_loop fuel' userId today (currentDate - 1) (streak + 1)
      | None =>
          if dateStr =? today
          then streak_loop fuel' userId today (currentDate - 1) streak
          else ret streak
      end
  end.

Definition calculateStreak (fuel : nat) (userId now : Z) : M Z :=
  streak_loop fuel userId (dateOf now) (dateOf now) 0.

End Stats.

(** ** utils/quotes.js and the fallback tips of routes/ai.js *)

Module Quotes.

Definition quotes : list quote := [
  {| q_text := "The secret of getting ahead is getting started.";
     q_author := "Mark Twain" |};
  {| q_text := "It does not matter how slowly you go as long as you do not stop.";
     q_author := "Confucius" |};
  {| q_text := "Success is not final, failure is not fatal: it is the courage to continue that counts.";
     q_author := "Winston Churchill" |};
  {| q_text := "The only way to do great work is to love what you do.";
     q_author := "Steve Jobs" |};
  {| q_text := "Believe you can and you're halfway there.";
     q_author := "Theodore Roosevelt" |};
  {| q_text := "The future belongs to those who believe in the beauty of their dreams.";
     q_author := "Eleanor Roosevelt" |};
  {| q_text := "Don't watch the clock; do what it does. Keep going.";
     q_author := "Sam Levenson" |};
  {| q_text := "Everything you've ever wanted is on the other side of fear.";
     q_author := "George Addair" |};
  {| q_text := "The only impossible journey is the one you never begin.";
     q_author := "Tony Robbins" |};
  {| q_text := "Start where you are. Use what you have. Do what you can.";
     q_author := "Arthur Ashe" |};
  {| q_text := "Your limitation—it's only your imagination.";
     q_author := "Unknown" |};
  {| q_text := "Push yourself, because no one else is going to do it for you.";
     q_author := "Unknown" |};
  {| q_text := "Great things never come from comfort zones.";
     q_author := "Unknown" |};
  {| q_text := "Dream it. Wish it. Do it.";
     q_author := "Unknown" |};
  {| q_text := "Success doesn't just find you. You have to go out and get it.";
     q_author := "Unknown" |};
  {| q_text := "The harder you work for something, the greater you'll feel when you achieve it.";
     q_author := "Unknown" |};
  {| q_text := "Don't stop when you're tired. Stop when you're done.";
     q_author := "Unknown" |};
  {| q_text := "Wake up with determination. Go to bed with satisfaction.";
     q_author := "Unknown" |};
  {| q_text := "Do something today that your future self will thank you for.";
     q_author := "Sean Patrick Flanery" |};
  {| q_text := "Little things make big days.";
     q_author := "Unknown" |};
  {| q_text := "It's going to be hard, but hard does not mean impossible.";
     q_author := "Unknown" |};
  {| q_text := "Don't wait for opportunity. Create it.";
     q_author := "Unknown" |};
  {| q_text := "Sometimes we're tested not to show our weaknesses, but to discover our strengths.";
     q_author := "Unknown" |};
  {| q_text := "The key to success is to focus on goals, not obstacles.";
     q_author := "Unknown" |};
  {| q_text := "Dream bigger. Do bigger.";
     q_author := "Unknown" |};
  {| q_text := "You don't have to be great to start, but you have to start to be great.";
     q_author := "Zig Ziglar" |};
  {| q_text := "The way to get started is to quit talking and begin doing.";
     q_author := "Walt Disney" |};
  {| q_text := "Don't be afraid to give up the good to go for the great.";
     q_author := "John D. Rockefeller" |};
  {| q_text := "I find that the harder I work, the more luck I seem to have.";
     q_author := "Thomas Jefferson" |};
  {| q_text := "Success usually comes to those who are too busy to be looking for it.";
     q_author := "Henry David Thoreau" |};
  {| q_text := "If you are not willing to risk the usual, you will have to settle for the ordinary.";
     q_author := "Jim Rohn" |};
  {| q_text := "Take up one idea. Make that one idea your life.";
     q_author := "Swami Vivekananda" |};
  {| q_text := "All progress takes place outside the comfort zone.";
     q_author := "Michael John Bobak" |};
  {| q_text := "You miss 100% of the shots you don't take.";
     q_author := "Wayne Gretzky" |};
  {| q_text := "Whether you think you can or think you can't, you're right.";
     q_author := "Henry Ford" |};
  {| q_text := "The only person you are destined to become is the person you decide to be.";
     q_author := "Ralph Waldo Emerson" |};
  {| q_text := "I attribute my success to this: I never gave or took any excuse.";
     q_author := "Florence Nightingale" |};
  {| q_text := "If you really look closely, most overnight successes took a long time.";
     q_author := "Steve Jobs" |};
  {| q_text := "The successful warrior is the average man, with laser-like focus.";
     q_author := "Bruce Lee" |};
  {| q_text := "There are no secrets to success. It is the result of preparation, hard work, and learning from failure.";
     q_author := "Colin Powell" |};
  {| q_text := "Action is the foundational key to all success.";
     q_author := "Pablo Picasso" |};
  {| q_text := "Things work out best for those who make the best of how things work out.";
     q_author := "John Wooden" |};
  {| q_text := "A year from now you may wish you had started today.";
     q_author := "Karen Lamb" |};
  {| q_text := "Small daily improvements over time lead to stunning results.";
     q_author := "Robin Sharma" |};
  {| q_text := "Discipline is the bridge between goals and accomplishment.";
     q_author := "Jim Rohn" |};
  {| q_text := "What you do today can improve all your tomorrows.";
     q_author := "Ralph Marston" |};
  {| q_text := "The difference between ordinary and extraordinary is that little extra.";
     q_author := "Jimmy Johnson" |};
  {| q_text := "Your time is limited, don't waste it living someone else's life.";
     q_author := "Steve Jobs" |};
  {| q_text := "Be so good they can't ignore you.";
     q_author := "Steve Martin" |};
  {| q_text := "The best time to plant a tree was 20 years ago. The second best time is now.";
     q_author := "Chinese Proverb" |} ].

Definition mentions (words : list string) (q : quote) : bool :=
  existsb (fun w => Str.includes (Str.toLowerCase (q_text q)) w) words.

(** [getMotivationalQuote()]; [None] is [undefined], an index outside
    the pool. *)
Definition getMotivationalQuote (now : Z) : M (option quote) :=
  let hour := getHours now in
  let category :=
    if hour <? 12 then List.filter (mentions ["start"; "begin"; "today"]) quotes
    else if hour <? 17 then List.filter (mentions ["keep"; "continu"; "work"]) quotes
    else List.filter (mentions ["success"; "great"; "achieve"]) quotes in
  let pool := if (0 <? Z.of_nat (List.length category)) then category else quotes in
  r <- random ;;
  let i := Math_floor (r * inject_Z (Z.of_nat (List.length pool)))%Q in
  ret (if i <? 0 then None else nth_error pool (Z.to_nat i)).

End Quotes.

Module Ai.

(** [array.sort(comparefn)]: each element is inserted into the sorted
    prefix from its right end, [comparefn a b > 0] putting [a] after [b].
    The prefix is kept reversed while the array is scanned. *)
Fixpoint sort_insert {A} (comparefn : A -> A -> M Q) (x : A) (rev_prefix : list A)
    : M (list A) :=
  match rev_prefix with
  | [] => ret [x]
  | y :: rest =>
      c <- comparefn y x ;;
      if negb (Qle_bool c 0)
      then r <- sort_insert comparefn x rest ;; ret (y :: r)
      else ret (x :: rev_prefix)
  end.

Fixpoint sort_from {A} (comparefn : A -> A -> M Q) (rev_prefix l : list A) : M (list A) :=
  match l with
  | [] => ret (List.rev rev_prefix)
  | x :: l' => p <- sort_insert comparefn x rev_prefix ;; sort_from comparefn p l'
  end.

Definition array_sort {A} (comparefn : A -> A -> M Q) (l : list A) : M (list A) :=
  sort_from comparefn [] l.

(** [() => 0.5 - Math.random()]. *)
Definition coin {A} (_ _ : A) : M Q := r <- random ;; ret ((1 # 2) - r)%Q.

Definition newline : string := String (ascii_of_nat 10) EmptyString.

(** [array.join(sep)]. *)
Fixpoint join (sep : string) (l : list string) : string :=
  match l with
  | [] => EmptyString
  | [x] => x
  | x :: l' => String.append x (String.append sep (join sep l'))
  end.

Definition todoTips : list string := [
  "ðŸŽ¯ Start with the most important task first - tackling it early gives you momentum for the rest of the day.";
  "â±ï¸ Try the Pomodoro technique: 25 minutes of focused work, then a 5-minute break.";
  "âœ‚ï¸ If a task feels overwhelming, break it into smaller, manageable steps.";
  "ðŸš« Turn off notifications and find a quiet space to minimize distractions.";
  "ðŸŽ Reward yourself after completing difficult tasks to build positive habits." ].

Definition goalTips : list string := [
  "ðŸ“… Schedule dedicated time blocks for your goals - treat them like important meetings.";
  "ðŸªœ Focus on progress, not perfection. Small steps forward are still steps forward.";
  "ðŸ“Š Review your goals weekly to stay aligned and adjust your approach if needed.";
  "ðŸ‘¥ Share your goals with someone who can hold you accountable.";
  "ðŸŽ¯ Visualize achieving your goal - imagine how it will feel when you succeed." ].

Definition motivationTips : list string := [
  "ðŸ’ª Remember: you don't have to feel motivated to take action. Action often creates motivation.";
  "ðŸŒ± Start with just 2 minutes. Often, getting started is the hardest part.";
  "ðŸ“ Write down one thing you're grateful for - it shifts your mindset positively.";
  "ðŸ”„ Progress isn't always linear. Bad days are part of the journey.";
  "â­ You've overcome challenges before. You have the strength to do it again." ].

(** [getFallbackTips(context, items)]. *)
Definition getFallbackTips (context : string) : M string :=
  tips <- (if String.eqb context "todos" then array_sort coin todoTips
           else if String.eqb context "goals" then array_sort coin goalTips
           else array_sort coin motivationTips) ;;
  ret (join (String.append newline newline) (firstn 3 tips)).

(** [POST /tips] when [OPENAI_API_KEY] is not configured. *)
Definition tips_without_key (context : string) : M response :=
  tips <- getFallbackTips context ;;
  ret (json (PTips tips "curated")).

(** [GET /quote]. *)
Definition get_quote (now : Z) : M response :=
  q <- Quotes.getMotivationalQuote now ;;
  ret (json (PQuote q)).

End Ai.

(** ** utils/notifications.js *)

Module Notifications.

Definition sendNotification (title message type : string) : M unit :=
  fun w => (Ok tt, set_sent (w_sent w ++ [ {| n_title := title; n_message := message;
                                              n_type := type |} ]) w).

Definition string_of_Z (n : Z) : string := NilZero.string_of_int (Z.to_int n).

(** [users u JOIN notification_settings ns ON u.id = ns.user_id WHERE p ns]. *)
Definition users_with (p : notification_setting -> bool) (db : DB)
    : list (user_row * notification_setting) :=
  flat_map (fun u =>
    List.map (fun ns => (u, ns))
      (Sql.where_ (fun ns => (ns_user_id ns =? u_id u) && p ns) (notification_settings db)))
    (users db).

Definition pending_count (userId today : Z) (db : DB) : Z :=
  Sql.count (Sql.where_ (fun t => (t_user_id t =? userId) && (t_scheduled_date t =? today)
                                  && negb (t_is_completed t)) (todos db)).

Definition overdue_count (userId today : Z) (db : DB) : Z :=
  Sql.count (Sql.where_ (fun t => (t_user_id t =? userId) && (t_scheduled_date t <? today)
                                  && negb (t_is_completed t)) (todos db)).

Definition checkAndNotify (now : Z) : M unit :=
  try_catch
    (users <- query (users_with ns_reminder_enabled) ;;
     let today := dateOf now in
     forEach (fun user =>
       pendingTodos <- query (pending_count (u_id (fst user)) today) ;;
       (if ns_pending_threshold (snd user) <=? pendingTodos then
          sendNotification "📋 Tasks Reminder"
            (String.append "You have "
               (String.append (string_of_Z pendingTodos)
                  " tasks left for today. Keep going!"))
            "todo-reminder"
        else ret tt) ;;;
       overdueTodos <- query (overdue_count (u_id (fst user)) today) ;;
       if overdueTodos >? 0 then
         sendNotification "⚠️ Overdue Tasks"
           (String.append "You have "
              (String.append (string_of_Z overdueTodos)
                 " overdue tasks. Consider rescheduling them."))
           "overdue-reminder"
       else ret tt) users)
    (ret tt).

Definition sendMotivationalNotification (now : Z) : M unit :=
  try_catch
    (users <- query (users_with ns_motivation_enabled) ;;
     if (0 <? Z.of_nat (List.length users)) then
       q <- Quotes.getMotivationalQuote now ;;
       match q with
       | Some q =>
           sendNotification "✨ Daily Inspiration"
             (String.append Goals.dquote
                (String.append (q_text q)
                   (String.append Goals.dquote
                      (String.append " - " (q_author q)))))
             "motivation"
       | None => fun w => (Throw, w)
       end
     else ret tt)
    (ret tt).

(** One firing of each job of the scheduler. *)
Definition poll (now : Z) : M unit :=
  checkAndNotify now ;;; sendMotivationalNotification now.

End Notifications.

(** ** server.js: the session gate and the routes *)

Inductive route :=
  | AuthStatus
  | JournalList (f : Journal.filter)
  | JournalGet (id : Z)
  | JournalCreate (b : Journal.body)
  | JournalDelete (id : Z)
  | GoalGet (id : Z)
  | GoalCreate (b : Goals.body)
  | GoalUpdate (id : Z) (b : Goals.update_body)
  | GoalDelete (id : Z)
  | MilestoneAdd (id : Z) (title : option string)
  | MilestoneToggle (goalId milestoneId : Z)
  | MilestoneDelete (goalId milestoneId : Z)
  | TodoCreate (b : Todos.body)
  | TodoUpdate (id : Z) (b : Todos.update_body)
  | TodoToggle (id : Z)
  | TodoDelete (id : Z)
  | StatsHeatmap (year : option Z)
  | AiQuote.

Record request := {
  session : option Z;
  now : Z;
  target : route }.

(** [req.session && req.session.userId]: the user id when it is truthy. *)
Definition session_user (r : request) : option Z :=
  match session r with
  | Some uid => if uid =? 0 then None else Some uid
  | None => None
  end.

(** [GET /api/auth/status], mounted without [requireAuth]; of the
    [user] of the answer the id is kept. *)
Definition auth_status (r : request) : M response :=
  match session_user r with
  | Some uid => ret (json (PAuthStatus true (Some uid)))
  | None => ret (json (PAuthStatus false None))
  end.

Definition dispatch (userId : Z) (r : request) : M response :=
  match target r with
  | AuthStatus => auth_status r
  | JournalList f => Journal.list_entries userId f
  | JournalGet id => Journal.get_entry userId id
  | JournalCreate b => Journal.create userId (now r) b
  | JournalDelete id => Journal.delete userId id
  | GoalGet id => Goals.get_goal userId id
  | GoalCreate b => Goals.create userId (now r) b
  | GoalUpdate id b => Goals.update userId (now r) id b
  | GoalDelete id => Goals.delete userId id
  | MilestoneAdd id title => Goals.add_milestone userId (now r) id title
  | MilestoneToggle goalId milestoneId => Goals.toggle_milestone userId (now r) goalId milestoneId
  | MilestoneDelete goalId milestoneId => Goals.delete_milestone userId goalId milestoneId
  | TodoCreate b => Todos.create userId (now r) b
  | TodoUpdate id b => Todos.update userId (now r) id b
  | TodoToggle id => Todos.toggle userId (now r) id
  | TodoDelete id => Todos.delete userId id
  | StatsHeatmap year => Stats.heatmap userId (now r) year
  | AiQuote => Ai.get_quote (now r)
  end.

(** The auth middleware of the API routes. *)
Definition requireAuth (r : request) (next : Z -> M response) : M response :=
  match session_user r with
  | Some userId => next userId
  | None => ret (status_json 401 (PError "Unauthorized"))
  end.

(** [app.use('/api/...', requireAuth, routes)]: every router but the
    auth one sits behind [requireAuth]. *)
Definition app (r : request) : M response :=
  match target r with
  | AuthStatus => auth_status r
  | _ => requireAuth r (fun userId => dispatch userId r)
  end.

(** ** More routes: the listings, the bulk operations, the streaks *)

(** The answers of the routes below. *)
Inductive listing :=
  | LError (error : string)
  | LTodos (rows : list todo)
  | LGoals (rows : list (goal * Z * Z * list goal_milestone))
  | LChanged (message : string) (count : option Z)
  | LStreaks (current longest : Z)
  | LExport (exportDate : Z) (journals : list journal_entry) (goals : list goal)
      (milestones : list goal_milestone) (todos : list todo)
  | LDashboard (todayTotal : Z) (todayCompleted : option Z) (overdueTodos : Z)
      (activeGoals : list (string * Z * Q)) (recentJournals : Z) (streak : Z)
  | LPending (pendingTodos overdueTodos : list todo) (upcomingGoals : list goal).

Record answer := { code : Z; content : listing }.

Definition send (l : listing) : answer := {| code := 200; content := l |}.
Definition send_status (c : Z) (l : listing) : answer := {| code := c; content := l |}.

Module TodoLists.

(** [CASE priority WHEN 'urgent' THEN 1 WHEN 'high' THEN 2
     WHEN 'medium' THEN 3 ELSE 4 END]. *)
Definition rank (priority : string) : Z :=
  if String.eqb priority "urgent" then 1
  else if String.eqb priority "high" then 2
  else if String.eqb priority "medium" then 3
  else 4.

(** [ORDER BY scheduled_date ASC, CASE priority .. END, created_at ASC]. *)
Definition by_date_rank_created (a b : todo) : bool :=
  (t_scheduled_date a <? t_scheduled_date b)
  || ((t_scheduled_date a =? t_scheduled_date b)
      && ((rank (t_priority a) <? rank (t_priority b))
          || ((rank (t_priority a) =? rank (t_priority b))
              && (t_created_at a <=? t_created_at b)))).

(** [ORDER BY CASE priority .. END, created_at ASC]. *)
Definition by_rank_created (a b : todo) : bool :=
  (rank (t_priority a) <? rank (t_priority b))
  || ((rank (t_priority a) =? rank (t_priority b))
      && (t_created_at a <=? t_created_at b)).

(** [ORDER BY scheduled_date ASC]. *)
Definition by_date (a b : todo) : bool := t_scheduled_date a <=? t_scheduled_date b.

(** [ORDER BY scheduled_date ASC, CASE priority .. END]. *)
Definition by_date_rank (a b : todo) : bool :=
  (t_scheduled_date a <? t_scheduled_date b)
  || ((t_scheduled_date a =? t_scheduled_date b)
      && (rank (t_priority a) <=? rank (t_priority b))).

(** The query string of [GET /]. *)
Record filter := {
  date : option Z;
  startDate : option Z;
  endDate : option Z;
  completed : option string;
  priority : option string }.

(** The [WHERE] clause that [GET /] builds from the parameters present. *)
Definition matches (userId : Z) (f : filter) (t : todo) : bool :=
  (t_user_id t =? userId)
  && match date f with Some d => t_scheduled_date t =? d | None => true end
  && match startDate f with Some d => d <=? t_scheduled_date t | None => true end
  && match endDate f with Some d => t_scheduled_date t <=? d | None => true end
  && match completed f with
     | Some c => Bool.eqb (t_is_completed t) (String.eqb c "true")
     | None => true
     end
  && match priority f with
     | Some EmptyString | None => true
     | Some p => String.eqb (t_priority t) p
     end.

(** [GET /]. *)
Definition list_todos (userId : Z) (f : filter) : M answer :=
  try_catch
    (rows <- query (fun db =>
        order_by by_date_rank_created (Sql.where_ (matches userId f) (todos db))) ;;
     ret (send (LTodos rows)))
    (ret (send_status 500 (LError "Failed to fetch todos"))).

(** [GET /today]. *)
Definition today (userId now : Z) : M answer :=
  let today := dateOf now in
  try_catch
    (rows <- query (fun db =>
        order_by by_rank_created
          (Sql.where_ (fun t => (t_user_id t =? userId) && (t_scheduled_date t =? today))
             (todos db))) ;;
     ret (send (LTodos rows)))
    (ret (send_status 500 (LError "Failed to fetch todos"))).

Definition is_overdue (userId today : Z) (t : todo) : bool :=
  (t_user_id t =? userId) && (t_scheduled_date t <? today) && negb (t_is_completed t).

(** [GET /overdue]. *)
Definition overdue (userId now : Z) : M answer :=
  let today := dateOf now in
  try_catch
    (rows <- query (fun db =>
        order_by by_date (Sql.where_ (is_overdue userId today) (todos db))) ;;
     ret (send (LTodos rows)))
    (ret (send_status 500 (LError "Failed to fetch overdue todos"))).

(** [GET /upcoming]: the open todos of the next seven days. *)
Definition upcoming (userId now : Z) : M answer :=
  let today := dateOf now in
  let nextWeek := dateOf (now + 7 * 24 * 60 * 60 * 1000) in
  try_catch
    (rows <- query (fun db =>
        order_by by_date_rank
          (Sql.where_ (fun t => (t_user_id t =? userId)
                                && (today <=? t_scheduled_date t)
                                && (t_scheduled_date t <=? nextWeek)
                                && negb (t_is_completed t))
             (todos db))) ;;
     ret (send (LTodos rows)))
    (ret (send_status 500 (LError "Failed to fetch upcoming todos"))).

(** [SET is_completed = 1, completed_at = CURRENT_TIMESTAMP,
     updated_at = CURRENT_TIMESTAMP]. *)
Definition complete (now : Z) (t : todo) : todo :=
  {| t_id := t_id t; t_user_id := t_user_id t; t_title := t_title t;
     t_description := t_description t; t_priority := t_priority t;
     t_scheduled_date := t_scheduled_date t;
     t_is_completed := true;
     t_completed_at := Some (CURRENT_TIMESTAMP now);
     t_created_at := t_created_at t;
     t_updated_at := CURRENT_TIMESTAMP now |}.

(** [POST /bulk-complete]; [ids] is [None] when the field is not an
    array, and the elements of an array are taken to be integers. *)
Definition bulk_complete (userId now : Z) (ids : option (list Z)) : M answer :=
  match ids with
  | None | Some [] => ret (send_status 400 (LError "Invalid todo IDs"))
  | Some ids =>
      try_catch
        (run (fun d => (tt, with_todos
                              (Sql.update
                                 (fun t => existsb (Z.eqb (t_id t)) ids && (t_user_id t =? userId))
                                 (complete now) (todos d))
                              (seq_todos d) d)) ;;;
         ret (send (LChanged "Todos completed" None)))
        (ret (send_status 500 (LError "Failed to complete todos")))
  end.

(** [SET scheduled_date = ?, updated_at = CURRENT_TIMESTAMP]. *)
Definition move (newDate now : Z) (t : todo) : todo :=
  {| t_id := t_id t; t_user_id := t_user_id t; t_title := t_title t;
     t_description := t_description t; t_priority := t_priority t;
     t_scheduled_date := newDate;
     t_is_completed := t_is_completed t; t_completed_at := t_completed_at t;
     t_created_at := t_created_at t;
     t_updated_at := CURRENT_TIMESTAMP now |}.

(** [POST /reschedule-overdue]; [newDate] is [None] when the field is
    absent or empty, and a value that is present is taken to be a
    calendar date (the route does not check it). *)
Definition reschedule_overdue (userId now : Z) (newDate : option Z) : M answer :=
  match newDate with
  | None => ret (send_status 400 (LError "New date is required"))
  | Some newDate =>
      let today := dateOf now in
      try_catch
        (changes <- run (fun d =>
            (Sql.count (Sql.where_ (is_overdue userId today) (todos d)),
             with_todos (Sql.update (is_overdue userId today) (move newDate now) (todos d))
               (seq_todos d) d)) ;;
         ret (send (LChanged "Overdue todos rescheduled" (Some changes))))
        (ret (send_status 500 (LError "Failed to reschedule todos")))
  end.

End TodoLists.

Module GoalLists.

(** [ORDER BY g.created_at DESC]. *)
Definition newest_first (a b : goal) : bool := g_created_at b <=? g_created_at a.

Definition matches (userId : Z) (type status : option string) (g : goal) : bool :=
  (g_user_id g =? userId)
  && match type with
     | Some EmptyString | None => true
     | Some t => String.eqb (g_goal_type g) t
     end
  && match status with
     | Some EmptyString | None => true
     | Some s => String.eqb (g_status g) s
     end.

(** [goals.forEach(goal => { goal.milestones = getMilestones.all(goal.id) })]. *)
Fixpoint with_milestones (l : list (goal * Z * Z))
    : M (list (goal * Z * Z * list goal_milestone)) :=
  match l with
  | [] => ret []
  | g :: l' =>
      ms <- query (Goals.milestones_of (g_id (fst (fst g)))) ;;
      rest <- with_milestones l' ;;
      ret ((g, ms) :: rest)
  end.

(** The goals of [GET /] with [total_milestones] and
    [completed_milestones]. *)
Definition counted_goals (userId : Z) (type status : option string) (db : DB)
    : list (goal * Z * Z) :=
  List.map (fun g =>
      (g,
       Sql.count (Sql.where_ (fun m => gm_goal_id m =? g_id g) (goal_milestones db)),
       Sql.count (Sql.where_ (fun m => (gm_goal_id m =? g_id g) && gm_is_completed m)
                    (goal_milestones db))))
    (order_by newest_first (Sql.where_ (matches userId type status) (goals db))).

(** [GET /]. *)
Definition list_goals (userId : Z) (type status : option string) : M answer :=
  try_catch
    (goalRows <- query (counted_goals userId type status) ;;
     rows <- with_milestones goalRows ;;
     ret (send (LGoals rows)))
    (ret (send_status 500 (LError "Failed to fetch goals"))).

End GoalLists.

Module StatsRoutes.

Definition null_dec (x y : option Z) : {x = y} + {x <> y}.
Proof. decide equality. apply Z.eq_dec. Defined.

(** [ORDER BY date ASC]: NULL comes first. *)
Definition null_leb (x y : option Z) : bool := null_ltb x y || null_eqb x y.

(** The query of [calculateLongestStreak]: the distinct dates of the
    three sources, in ascending order. *)
Definition distinct_dates (userId : Z) (db : DB) : list (option Z) :=
  order_by null_leb
    (nodup null_dec
       (List.map je_entry_date
          (Sql.where_ (fun j => je_user_id j =? userId) (journal_entries db))
        ++ flat_map (fun t =>
             match t_completed_at t with
             | Some at_ =>
                 if (t_user_id t =? userId) && t_is_completed t then [Some (dateOf at_)] else []
             | None => []
             end) (todos db)
        ++ List.map (fun a => Some (a_activity_date a))
             (Sql.where_ (fun a => a_user_id a =? userId) (activity_log db)))).

(** [new Date(date)] in milliseconds; [new Date(null)] is the epoch. *)
Definition toDate (date : option Z) : Z :=
  match date with Some d => d * ms_per_day | None => 0 end.

(** The [for] loop of [calculateLongestStreak], [prev] being
    [activities[i - 1].date]. *)
Fixpoint longest_loop (prev : option Z) (rest : list (option Z))
    (currentStreak longestStreak : Z) : Z :=
  match rest with
  | [] => longestStreak
  | curr :: rest' =>
      let diffDays :=
        Math_round (inject_Z (toDate curr - toDate prev) / inject_Z ms_per_day)%Q in
      if diffDays =? 1
      then longest_loop curr rest' (currentStreak + 1)
             (Z.max longestStreak (currentStreak + 1))
      else longest_loop curr rest' 1 longestStreak
  end.

Definition calculateLongestStreak (userId : Z) : M Z :=
  activities <- query (distinct_dates userId) ;;
  ret (match activities with
       | [] => 0
       | first :: rest => longest_loop first rest 1 1
       end).


(** [SELECT COUNT( * ) as total, SUM(CASE WHEN is_completed = 1 THEN 1
    ELSE 0 END) as completed FROM todos WHERE user_id = ? AND
    scheduled_date = ?]; the sum of no rows is NULL. *)
Definition today_todos (userId today : Z) (db : DB) : Z * option Z :=
  let rows := Sql.where_ (fun t => (t_user_id t =? userId) && (t_scheduled_date t =? today))
                (todos db) in
  (Sql.count rows,
   match rows with
   | [] => None
   | _ => Some (fold_right Z.add 0 (List.map (fun t => Z.b2z (t_is_completed t)) rows))
   end).

(** [SELECT goal_type, COUNT( * ) as count, AVG(progress) as avg_progress
    FROM goals WHERE user_id = ? AND status = 'active' GROUP BY
    goal_type]: one row for each type that an active goal of the user
    has. *)
Definition active_goals (userId : Z) (db : DB) : list (string * Z * Q) :=
  let rows := Sql.where_ (fun g => (g_user_id g =? userId) && String.eqb (g_status g) "active")
                (goals db) in
  List.map (fun ty =>
      let group := Sql.where_ (fun g => String.eqb (g_goal_type g) ty) rows in
      (ty, Sql.count group,
       Qdiv (inject_Z (fold_right Z.add 0 (List.map g_progress group)))
         (inject_Z (Sql.count group))))
    (nodup string_dec (List.map g_goal_type rows)).

(** [entry_date >= date('now', '-7 days')]; a NULL date compares to
    nothing. *)
Definition recent_journals (userId today : Z) (db : DB) : Z :=
  Sql.count (Sql.where_ (fun j => (je_user_id j =? userId)
                                  && match je_entry_date j with
                                     | Some e => today - 7 <=? e
                                     | None => false
                                     end)
               (journal_entries db)).

(** [GET /dashboard]. *)
Definition dashboard (fuel : nat) (userId now : Z) : M answer :=
  let today := dateOf now in
  try_catch
    (todayTodos <- query (today_todos userId today) ;;
     overdueTodos <- query (fun db =>
        Sql.count (Sql.where_ (TodoLists.is_overdue userId today) (todos db))) ;;
     activeGoals <- query (active_goals userId) ;;
     recentJournals <- query (recent_journals userId today) ;;
     streak <- Stats.calculateStreak fuel userId now ;;
     ret (send (LDashboard (fst todayTodos) (snd todayTodos) overdueTodos activeGoals
                  recentJournals streak)))
    (ret (send_status 500 (LError "Failed to fetch dashboard stats"))).

(** [ORDER BY CASE priority .. END]. *)
Definition by_rank (a b : todo) : bool :=
  TodoLists.rank (t_priority a) <=? TodoLists.rank (t_priority b).

(** [GET /pending] of the notifications router. *)
Definition pending (userId now : Z) : M answer :=
  let today := dateOf now in
  try_catch
    (pendingTodos <- query (fun db =>
        order_by by_rank
          (Sql.where_ (fun t => (t_user_id t =? userId) && (t_scheduled_date t =? today)
                                && negb (t_is_completed t))
             (todos db))) ;;
     overdueTodos <- query (fun db =>
        Sql.where_ (TodoLists.is_overdue userId today) (todos db)) ;;
     upcomingGoals <- query (fun db =>
        Sql.where_ (fun g => (g_user_id g =? userId) && String.eqb (g_status g) "active"
                             && match g_target_date g with
                                | Some d => (today <=? d) && (d <=? today + 7)
                                | None => false
                                end)
          (goals db)) ;;
     ret (send (LPending pendingTodos overdueTodos upcomingGoals)))
    (ret (send_status 500 (LError "Failed to fetch pending items"))).

(** [GET /export]. *)
Definition export (userId now : Z) : M answer :=
  try_catch
    (journalRows <- query (fun db =>
        Sql.where_ (fun j => je_user_id j =? userId) (journal_entries db)) ;;
     goalRows <- query (fun db => Sql.where_ (fun g => g_user_id g =? userId) (goals db)) ;;
     milestoneRows <- query (fun db =>
        flat_map (fun gm =>
            List.map (fun _ => gm)
              (Sql.where_ (fun g => (g_id g =? gm_goal_id gm) && (g_user_id g =? userId))
                 (goals db)))
          (goal_milestones db)) ;;
     todoRows <- query (fun db => Sql.where_ (fun t => t_user_id t =? userId) (todos db)) ;;
     ret (send (LExport now journalRows goalRows milestoneRows todoRows)))
    (ret (send_status 500 (LError "Failed to export data"))).

End StatsRoutes.

(** ** Vocabulary of the specification *)

(** A day with at least one recorded activity of the user: a journal
    entry dated that day, a completed todo completed that day, or an
    activity_log row of that day. *)
Definition active_on (db : DB) (userId day : Z) : Prop :=
  (exists j, In j (journal_entries db)
             /\ je_user_id j = userId /\ je_entry_date j = Some day)
  \/ (exists t, In t (todos db)
                /\ t_user_id t = userId /\ t_is_completed t = true
                /\ option_map dateOf (t_completed_at t) = Some day)
  \/ (exists a, In a (activity_log db)
                /\ a_user_id a = userId /\ a_activity_date a = day).

(** [n] consecutive active days end on day [last], and the day before
    them is not active. *)
Definition streak_ending (db : DB) (userId last n : Z) : Prop :=
  0 <= n
  /\ (forall i, 0 <= i < n -> active_on db userId (last - i))
  /\ ~ active_on db userId (last - n).

(** Every date the three activity sources hold. *)
Definition recorded_dates (db : DB) : list Z :=
  flat_map (fun j => match je_entry_date j with Some e => [e] | None => [] end)
    (journal_entries db)
  ++ flat_map (fun t => match t_completed_at t with Some c => [dateOf c] | None => [] end)
       (todos db)
  ++ List.map a_activity_date (activity_log db).

(** A day before [today] and before every recorded date. *)
Definition before_all (today : Z) (l : list Z) : Z := fold_right Z.min today l - 1.

(** Iterations that let [calculateStreak] return on [db] at [today]. *)
Definition streak_fuel (db : DB) (today : Z) : nat :=
  Z.to_nat (today - before_all today (recorded_dates db)) + 2.

(** The primary key of a table identifies its rows. *)
Definition unique_key {A} (key : A -> Z) (table : list A) : Prop :=
  List.NoDup (List.map key table).

(** What a successful [PATCH /api/todos/:id/toggle] leaves in the
    database when the ownership query found [t]. *)
Definition toggled_db (userId now id : Z) (t : todo) (d : DB) : DB :=
  let newStatus := negb (t_is_completed t) in
  let d1 := with_todos
              (Sql.update (fun r => t_id r =? id) (Todos.set_completed newStatus now) (todos d))
              (seq_todos d) d in
  if newStatus
  then snd (insert_activity userId todo_completed
              (String.append "Completed: " (t_title t)) now d1)
  else d1.

(** The row [activity_log] gains when a todo is completed. *)
Definition completion_row (db : DB) (userId now : Z) (t : todo) : activity :=
  {| a_id := Sql.next_id (seq_activity_log db) (List.map a_id (activity_log db));
     a_user_id := userId; a_activity_type := todo_completed;
     a_activity_date := dateOf now;
     a_details := String.append "Completed: " (t_title t);
     a_created_at := CURRENT_TIMESTAMP now |}.

(** Two toggles of the same todo in a row, at [now1] and [now2]. *)
Definition toggle_twice (userId now1 now2 id : Z) (w : World) : World :=
  snd (Todos.toggle userId now2 id (snd (Todos.toggle userId now1 id w))).

(** ** Concrete runs of the server *)

Module Scenario.

Definition empty : DB :=
  {| users := []; journal_entries := []; journal_images := []; goals := [];
     goal_milestones := []; todos := []; notification_settings := [];
     activity_log := [];
     seq_journal_entries := 0; seq_journal_images := 0; seq_goals := 0;
     seq_goal_milestones := 0; seq_todos := 0; seq_activity_log := 0 |}.

(** A fresh installation, a driver that never throws. *)
Definition fresh : World :=
  {| w_db := empty; w_fault := Healthy; w_rand := []; w_sent := [] |}.

(** The requests are served one after the other. *)
Definition replay (rs : list request) (w : World) : World :=
  fold_left (fun w r => snd (app r w)) rs w.

Definition alice : Z := 1.
Definition bob : Z := 2.

(** Day 20000 is 2024-10-04. *)
Definition D : Z := 20000.
Definition noon (day : Z) : Z := day * ms_per_day + 12 * 60 * 60 * 1000.

Definition as_user (userId at_ : Z) (t : route) : request :=
  {| session := Some userId; now := at_; target := t |}.


Definition entry (text : string) (date : option date_input) : Journal.body :=
  {| Journal.title := None; Journal.content := Some text; Journal.mood := None;
     Journal.mood_note := None; Journal.entry_date := date; Journal.files := [] |}.

Definition task (name : string) (day : Z) : Todos.body :=
  {| Todos.title := Some name; Todos.description := None; Todos.priority := None;
     Todos.scheduled_date := Some (DateOk day) |}.

Definition project (name : string) (steps : list string) : Goals.body :=
  {| Goals.title := Some name; Goals.description := None;
     Goals.goal_type := Some "short-term"; Goals.target_date := None;
     Goals.milestones := Some (MsArray (List.map Some steps)) |}.

(** Alice writes in her journal on D-2, completes a todo on D-1 and
    writes again on D. *)
Definition three_days : World :=
  replay [ as_user alice (noon (D - 2)) (JournalCreate (entry "Monday" None));
           as_user alice (noon (D - 1)) (TodoCreate (task "Water the plants" (D - 1)));
           as_user alice (noon (D - 1) + 1000) (TodoToggle 1);
           as_user alice (noon D) (JournalCreate (entry "Wednesday" None)) ]
    fresh.

(** Alice has one open todo, created on D - 1. *)
Definition one_todo : World :=
  replay [ as_user alice (noon (D - 1)) (TodoCreate (task "Water the plants" D)) ] fresh.



(** Alice has a goal with two milestones and has ticked the first:
    its progress is 50. *)
Definition half_done : World :=
  replay [ as_user alice (noon D) (GoalCreate (project "Run 10k" ["Buy shoes"; "Train"]));
           as_user alice (noon D + 1000) (MilestoneToggle 1 1) ]
    fresh.

Definition set_progress_to (n : Z) : Goals.update_body :=
  {| Goals.u_title := None; Goals.u_description := None; Goals.u_target_date := None;
     Goals.u_progress := Some (IntOk n); Goals.u_status := None |}.

(** Alice has goal 1 with milestone 1; Bob has goal 2 with milestone 2
    and has put its progress to 75. *)
Definition two_users : World :=
  replay [ as_user alice (noon D) (GoalCreate (project "Run 10k" ["Buy shoes"]));
           as_user bob (noon D + 1000) (GoalCreate (project "Write a book" ["Draft"]));
           as_user bob (noon D + 2000) (GoalUpdate 2 (set_progress_to 75)) ]
    fresh.

(** What registering an account stores: the user row and its default
    notification settings. *)
Definition registered (userId : Z) (name hash : string) (d : DB) : DB :=
  {| users := users d ++ [ {| u_id := userId; u_username := name; u_password_hash := hash |} ];
     journal_entries := journal_entries d; journal_images := journal_images d;
     goals := goals d; goal_milestones := goal_milestones d; todos := todos d;
     notification_settings :=
       notification_settings d
       ++ [ {| ns_user_id := userId; ns_reminder_enabled := true;
               ns_motivation_enabled := true; ns_pending_threshold := 3 |} ];
     activity_log := activity_log d;
     seq_journal_entries := seq_journal_entries d; seq_journal_images := seq_journal_images d;
     seq_goals := seq_goals d; seq_goal_milestones := seq_goal_milestones d;
     seq_todos := seq_todos d; seq_activity_log := seq_activity_log d |}.

(** Alice is registered and her todo for D is still open on D + 1. *)
Definition overdue : World :=
  set_db (registered alice "alice" "$2b$12$hash" (w_db one_todo)) one_todo.

(** Two installations that differ in nothing but the values
    [Math.random()] is about to return. *)
Definition lucky : World := set_rand [9 # 10; 9 # 10; 9 # 10; 9 # 10]%Q fresh.
Definition unlucky : World := set_rand [1 # 10; 1 # 10; 1 # 10; 1 # 10]%Q fresh.

End Scenario.

(** The stored progress of the goals with key [goalId]. *)
Definition stored_progress (goalId : Z) (db : DB) : list Z :=
  List.map g_progress (Sql.where_ (fun g => g_id g =? goalId) (goals db)).

(** The goals of a user. *)
Definition goals_of (userId : Z) (db : DB) : list goal :=
  Sql.where_ (fun g => g_user_id g =? userId) (goals db).

(** A computation that leaves every table as it finds it, whatever its
    outcome. *)
Definition read_only {A} (m : M A) : Prop :=
  forall w, w_db (snd (m w)) = w_db w.

(** The rows of a day: the activity_log rows, the completed todos
    completed that day and the journal entries dated that day, of one
    user. *)
Definition log_rows_on (db : DB) (userId day : Z) : Z :=
  Sql.count (List.filter (fun a => (a_user_id a =? userId) && (a_activity_date a =? day))
               (activity_log db)).

Definition completions_on (db : DB) (userId day : Z) : Z :=
  Sql.count (List.filter (fun t => (t_user_id t =? userId) && t_is_completed t
                                   && Sql.eq_null (option_map dateOf (t_completed_at t)) day)
               (todos db)).

Definition entries_on (db : DB) (userId day : Z) : Z :=
  Sql.count (List.filter (fun j => (je_user_id j =? userId)
                                   && Sql.eq_null (je_entry_date j) day)
               (journal_entries db)).

Definition day_rows (db : DB) (userId day : Z) : Z :=
  log_rows_on db userId day + completions_on db userId day + entries_on db userId day.



(** The day a new journal entry is dated: the [entry_date] of the
    request, today without one. *)
Definition entry_day (b : Journal.body) (now : Z) : Z :=
  match Journal.entry_date b with
  | Some (DateOk day) => day
  | _ => dateOf now
  end.


(** The row [journal_entries] gains on a successful [POST /api/journal]. *)
Definition created_entry (userId now : Z) (b : Journal.body) (d : DB) : journal_entry :=
  {| je_id := fst (Journal.insert_entry userId b now d); je_user_id := userId;
     je_title := Str.or_null (option_map Str.trim (Journal.title b));
     je_content := match Journal.content b with Some c => c | None => EmptyString end;
     je_mood := Str.or_null (Journal.mood b);
     je_mood_note := Str.or_null (Journal.mood_note b);
     je_entry_date := Some (entry_day b now);
     je_created_at := CURRENT_TIMESTAMP now;
     je_updated_at := CURRENT_TIMESTAMP now |}.

(** [GET /api/journal] without query parameters. *)
Definition no_filter : Journal.filter :=
  {| Journal.startDate := None; Journal.endDate := None;
     Journal.f_mood := None; Journal.search := None |}.

(** A check on a field that may be absent. *)
Definition optional_ok {A} (p : A -> bool) (v : option A) : bool :=
  match v with Some x => p x | None => true end.


(** ** The four error answers *)

(** What the validation chains of a route report for a request. *)
Definition validation_errors (t : route) : list verror :=
  match t with
  | JournalCreate b => Journal.validate_create b
  | GoalCreate b => Goals.validate_create b
  | GoalUpdate _ b => Goals.validate_update b
  | MilestoneAdd _ title => Goals.validate_milestone title
  | TodoCreate b => Todos.validate_create b
  | TodoUpdate _ b => Todos.validate_update b
  | _ => []
  end.

(** The route names a row and the user has no such row: the ownership
    or existence check of the route fails. *)
Definition missing_target (userId : Z) (t : route) (db : DB) : bool :=
  match t with
  | JournalGet id | JournalDelete id =>
      match Journal.select_owned userId id db with None => true | Some _ => false end
  | GoalGet id | GoalUpdate id _ | GoalDelete id | MilestoneAdd id _ =>
      match Goals.select_owned userId id db with None => true | Some _ => false end
  | MilestoneToggle _ milestoneId | MilestoneDelete _ milestoneId =>
      match Goals.select_owned_milestone userId milestoneId db with
      | None => true
      | Some _ => false
      end
  | TodoUpdate id _ | TodoToggle id | TodoDelete id =>
      match Todos.select_owned userId id db with None => true | Some _ => false end
  | _ => false
  end.




(** A computation that always ends with a value. *)
Definition answers {A} (m : M A) : Prop :=
  forall w, exists a w', m w = (Ok a, w').

(** ** The local fallback of the AI routes *)

(** A computation whose value depends on the world through the coming
    values of [Math.random()] only. *)
Definition random_only {A} (m : M A) : Prop :=
  forall w1 w2, w_rand w1 = w_rand w2 ->
    fst (m w1) = fst (m w2) /\ w_rand (snd (m w1)) = w_rand (snd (m w2)).

(** The curated tips of a context. *)
Definition tips_for (context : string) : list string :=
  if String.eqb context "todos" then Ai.todoTips
  else if String.eqb context "goals" then Ai.goalTips
  else Ai.motivationTips.

(** [Math.random()] returns values from 0 (included) to 1 (excluded). *)
Definition unit_draws (w : World) : Prop :=
  forall x, In x (w_rand w) -> (0 <= x /\ x < 1)%Q.



(** ** Vocabulary for the listings and the invariants *)

(** Every element may come before all the later ones. *)
Fixpoint sorted_by {A} (before : A -> A -> bool) (l : list A) : Prop :=
  match l with
  | [] => True
  | x :: l' => (forall y, In y l' -> before x y = true) /\ sorted_by before l'
  end.

(** An order that compares any two rows, and does so consistently. *)
Definition total_order {A} (before : A -> A -> bool) : Prop :=
  (forall a b, before a b = false -> before b a = true)
  /\ (forall a b c, before a b = true -> before b c = true -> before a c = true).

(** A property of the database that a computation keeps, whatever its
    outcome. *)
Definition keeps {A} (P : DB -> Prop) (m : M A) : Prop :=
  forall w, P (w_db w) -> P (w_db (snd (m w))).

(** The keys of a table are distinct and none is above the sequence
    counter of the table. *)
Definition keys_below {A} (key : A -> Z) (seq : Z) (table : list A) : Prop :=
  unique_key key table /\ forall row, In row table -> key row <= seq.

Definition keys_ok (db : DB) : Prop :=
  keys_below je_id (seq_journal_entries db) (journal_entries db)
  /\ keys_below ji_id (seq_journal_images db) (journal_images db)
  /\ keys_below g_id (seq_goals db) (goals db)
  /\ keys_below gm_id (seq_goal_milestones db) (goal_milestones db)
  /\ keys_below t_id (seq_todos db) (todos db)
  /\ keys_below a_id (seq_activity_log db) (activity_log db).

(** [CHECK(progress >= 0 AND progress <= 100)]. *)
Definition progress_ok (db : DB) : Prop :=
  forall g, In g (goals db) -> 0 <= g_progress g <= 100.

(** A todo is completed exactly when it has a completion time. *)
Definition completion_ok (db : DB) : Prop :=
  forall t, In t (todos db) ->
    t_is_completed t = match t_completed_at t with Some _ => true | None => false end.


(** [n] consecutive days from [first] on are all active. *)
Definition active_run (db : DB) (userId first n : Z) : Prop :=
  forall i, 0 <= i < n -> active_on db userId (first + i).

(** The rows an answer carries. *)
Definition todos_of (a : answer) : list todo :=
  match content a with
  | LTodos rows => rows
  | LExport _ _ _ _ rows => rows
  | _ => []
  end.

Definition goals_of_answer (a : answer) : list goal :=
  match content a with
  | LGoals rows => List.map (fun r => fst (fst (fst r))) rows
  | LExport _ _ rows _ _ => rows
  | _ => []
  end.

Definition milestones_of_answer (a : answer) : list goal_milestone :=
  match content a with
  | LGoals rows => flat_map snd rows
  | LExport _ _ _ rows _ => rows
  | _ => []
  end.

Definition journals_of_answer (a : answer) : list journal_entry :=
  match content a with
  | LExport _ rows _ _ _ => rows
  | _ => []
  end.

Definition entries_of (r : response) : list journal_entry :=
  match body r with
  | PJournalList entries => List.map fst entries
  | PJournal e _ => [e]
  | _ => []
  end.

(** The milestone hangs on a goal of the user. *)
Definition milestone_of_user (db : DB) (userId : Z) (m : goal_milestone) : Prop :=
  exists g, In g (goals db) /\ g_id g = gm_goal_id m /\ g_user_id g = userId.

(** The route names, by its key, a row that is stored and is not the
    user's: an entry, a goal or a todo of another user, or a milestone
    that hangs on no goal of the user (whatever goal the path names). *)
Definition names_foreign_row (userId : Z) (t : route) (db : DB) : Prop :=
  match t with
  | JournalGet id | JournalDelete id =>
      exists j, In j (journal_entries db) /\ je_id j = id /\ je_user_id j <> userId
  | GoalGet id | GoalUpdate id _ | GoalDelete id | MilestoneAdd id _ =>
      exists g, In g (goals db) /\ g_id g = id /\ g_user_id g <> userId
  | MilestoneToggle _ milestoneId | MilestoneDelete _ milestoneId =>
      exists m, In m (goal_milestones db) /\ gm_id m = milestoneId
                /\ ~ milestone_of_user db userId m
  | TodoUpdate id _ | TodoToggle id | TodoDelete id =>
      exists t, In t (todos db) /\ t_id t = id /\ t_user_id t <> userId
  | _ => False
  end.

(** The words [getMotivationalQuote] looks for at an hour of the day. *)
Definition words_of_hour (hour : Z) : list string :=
  if hour <? 12 then ["start"; "begin"; "today"]
  else if hour <? 17 then ["keep"; "continu"; "work"]
  else ["success"; "great"; "achieve"].



(** The titles of the milestones that [POST /api/goals] stores: those
    of the body that are not blank, trimmed. *)
Definition kept_titles (b : Goals.body) : list string :=
  match Goals.milestones b with
  | Some (MsArray ms) =>
      flat_map (fun m =>
          match m with
          | Some t => if String.eqb (Str.trim t) EmptyString then [] else [Str.trim t]
          | None => []
          end) ms
  | _ => []
  end.


Module Busy.

Definition task (name prio : string) (day : Z) : Todos.body :=
  {| Todos.title := Some name; Todos.description := None; Todos.priority := Some prio;
     Todos.scheduled_date := Some (DateOk day) |}.

(** Alice plans four todos, two of them for D - 1; Bob plans one. *)
Definition week : World :=
  Scenario.replay
    [ Scenario.as_user Scenario.alice (Scenario.noon (Scenario.D - 2))
        (TodoCreate (task "Tidy desk" "low" Scenario.D));
      Scenario.as_user Scenario.alice (Scenario.noon (Scenario.D - 2) + 1000)
        (TodoCreate (task "Call bank" "high" (Scenario.D - 1)));
      Scenario.as_user Scenario.bob (Scenario.noon (Scenario.D - 2) + 2000)
        (TodoCreate (task "Buy milk" "urgent" (Scenario.D - 1)));
      Scenario.as_user Scenario.alice (Scenario.noon (Scenario.D - 2) + 3000)
        (TodoCreate (task "File taxes" "urgent" (Scenario.D - 1)));
      Scenario.as_user Scenario.alice (Scenario.noon (Scenario.D - 2) + 4000)
        (TodoCreate (task "Read mail" "medium" (Scenario.D + 3))) ]
    Scenario.fresh.

(** A journal entry with two uploaded files, each a stored file name
    and the name it was uploaded under. *)
Definition photo_entry : Journal.body :=
  {| Journal.title := Some "Trip"; Journal.content := Some "We went hiking";
     Journal.mood := Some "good"; Journal.mood_note := None;
     Journal.entry_date := None;
     Journal.files := [("a1.jpg", "summit.jpg"); ("a2.jpg", "lake.jpg")] |}.

Definition desk_entry : Journal.body :=
  {| Journal.title := None; Journal.content := Some "A quiet day";
     Journal.mood := None; Journal.mood_note := None;
     Journal.entry_date := None;
     Journal.files := [("b1.png", "desk.png")] |}.

(** Alice and Bob each write an entry with pictures. *)
Definition album : World :=
  Scenario.replay
    [ Scenario.as_user Scenario.alice (Scenario.noon Scenario.D) (JournalCreate photo_entry);
      Scenario.as_user Scenario.bob (Scenario.noon Scenario.D + 1000)
        (JournalCreate desk_entry) ]
    Scenario.fresh.


(** [GET /api/journal?startDate=day]. *)
Definition since (day : Z) : Journal.filter :=
  {| Journal.startDate := Some day; Journal.endDate := None;
     Journal.f_mood := None; Journal.search := None |}.

Definition everything : TodoLists.filter :=
  {| TodoLists.date := None; TodoLists.startDate := None; TodoLists.endDate := None;
     TodoLists.completed := None; TodoLists.priority := None |}.

End Busy.

(** The answer a computation ends with, an empty one when it does not. *)
Definition shown (o : outcome answer * World) : answer :=
  match fst o with Ok a => a | _ => send (LTodos []) end.

Definition shown_response (o : outcome response * World) : response :=
  match fst o with Ok r => r | _ => status_json 500 (PError EmptyString) end.

(** No sequence counter of [d] is below the one of [s]. *)
Definition counters_from (s d : DB) : Prop :=
  seq_journal_entries s <= seq_journal_entries d
  /\ seq_journal_images s <= seq_journal_images d
  /\ seq_goals s <= seq_goals d
  /\ seq_goal_milestones s <= seq_goal_milestones d
  /\ seq_todos s <= seq_todos d
  /\ seq_activity_log s <= seq_activity_log d.

(** * Properties *)

(** ** The monad *)

Lemma tick_no_fault w : w_fault w = Healthy -> tick w = Some w.
Proof. unfold tick. intros ->. reflexivity. Qed.

Lemma query_no_fault {A} (q : DB -> A) w :
  w_fault w = Healthy -> query q w = (Ok (q (w_db w)), w).
Proof. intros H. unfold query. rewrite (tick_no_fault _ H). reflexivity. Qed.

Lemma run_no_fault {A} (f : DB -> A * DB) w :
  w_fault w = Healthy ->
  run f w = (Ok (fst (f (w_db w))), set_db (snd (f (w_db w))) w).
Proof.
  intros H. unfold run. rewrite (tick_no_fault _ H).
  destruct (f (w_db w)); reflexivity.
Qed.

(** ** The building blocks at work *)

Example yearOf_days :
  yearOf 0 = 1970 /\ yearOf 11016 = 2000 /\ yearOf 19722 = 2023 /\ yearOf 19723 = 2024
  /\ yearOf (-1) = 1969 /\ yearOf Scenario.D = 2024.
Proof. vm_compute. repeat split. Qed.

Example trim_spaces :
  Str.trim "  Write tests  " = "Write tests" /\ Str.trim "   " = EmptyString.
Proof. vm_compute. repeat split. Qed.

Example like_patterns :
  Str.like "Monday Morning" "%day m%" = true
  /\ Str.like "Monday" "%days%" = false
  /\ Str.like "Monday" "M_nday" = true.
Proof. vm_compute. repeat split. Qed.

Example includes_lower :
  Str.includes (Str.toLowerCase "The Secret of Getting Started") "start" = true
  /\ Str.includes (Str.toLowerCase "Dream it.") "start" = false.
Proof. vm_compute. repeat split. Qed.

Example round_halves_up :
  Math_round (5 # 2) = 3 /\ Math_round (-5 # 2) = -2 /\ Goals.progress_of 1 3 = 33
  /\ Goals.progress_of 2 3 = 67 /\ Goals.progress_of 1 8 = 13.
Proof. vm_compute. repeat split. Qed.

Example next_id_after_delete : Sql.next_id 7 [1; 2; 3] = 8 /\ Sql.next_id 0 [] = 1.
Proof. vm_compute. repeat split. Qed.

(** ** calculateStreak *)

Section Streak.

Variables (db : DB) (userId : Z).

Lemma hd_error_None_iff {A} (l : list A) : hd_error l = None <-> l = [].
Proof. destruct l; simpl; split; congruence. Qed.

Lemma streak_dates_In d x :
  In x (Stats.streak_dates userId d db) <-> x = d /\ active_on db userId d.
Proof.
  unfold Stats.streak_dates, Sql.union, Sql.where_, active_on.
  rewrite !nodup_In, !in_app_iff, nodup_In, in_app_iff, !in_flat_map, in_map_iff.
  split.
  - intros [[(j & Hj & Hx) | (t & Ht & Hx)] | (a & Ha & Hx)].
    + destruct (je_entry_date j) as [e|] eqn:He; [|destruct Hx].
      destruct ((je_user_id j =? userId) && (e =? d)) eqn:Hc; [|destruct Hx].
      apply andb_true_iff in Hc as [Hu Hd].
      apply Z.eqb_eq in Hu, Hd. destruct Hx as [<-|[]]. subst e.
      split; [reflexivity|]. left. exists j. auto.
    + destruct (t_completed_at t) as [c|] eqn:Hc'; [|destruct Hx].
      destruct ((t_user_id t =? userId) && t_is_completed t && (dateOf c =? d)) eqn:Hc;
        [|destruct Hx].
      apply andb_true_iff in Hc as [Hc Hd]. apply andb_true_iff in Hc as [Hu Hcomp].
      apply Z.eqb_eq in Hu, Hd. destruct Hx as [<-|[]].
      split; [assumption|]. right. left. exists t. rewrite Hc'. simpl.
      rewrite Hd. auto.
    + apply filter_In in Hx as [Hin Hc].
      apply andb_true_iff in Hc as [Hu Hd]. apply Z.eqb_eq in Hu, Hd.
      split; [congruence|]. right. right. exists a. subst x. auto.
  - intros [-> [(j & Hj & Hu & He) | [(t & Ht & Hu & Hcomp & Hd) | (a & Ha & Hu & Hd)]]].
    + left. left. exists j. split; [assumption|]. rewrite He, Hu, !Z.eqb_refl. simpl. auto.
    + left. right. exists t. split; [assumption|].
      destruct (t_completed_at t) as [c|]; [|discriminate].
      simpl in Hd. injection Hd as Hd.
      rewrite Hu, Hcomp, Hd, !Z.eqb_refl. simpl. auto.
    + right. exists a. split; [assumption|]. apply filter_In. split; [assumption|].
      rewrite Hu, Hd, !Z.eqb_refl. reflexivity.
Qed.

Lemma streak_query_Some d :
  active_on db userId d -> exists x, Sql.get (Stats.streak_dates userId d db) = Some x.
Proof.
  intros H. unfold Sql.get.
  destruct (Stats.streak_dates userId d db) as [|x l] eqn:E; [|eauto].
  assert (In d (Stats.streak_dates userId d db)) as Hin by (apply streak_dates_In; auto).
  rewrite E in Hin. destruct Hin.
Qed.

Lemma streak_query_None d :
  ~ active_on db userId d -> Sql.get (Stats.streak_dates userId d db) = None.
Proof.
  intros H. unfold Sql.get.
  destruct (Stats.streak_dates userId d db) as [|x l] eqn:E; [reflexivity|].
  exfalso. apply H.
  assert (In x (Stats.streak_dates userId d db)) as Hin by (rewrite E; left; reflexivity).
  apply streak_dates_In in Hin. tauto.
Qed.

Lemma active_on_dec d : active_on db userId d \/ ~ active_on db userId d.
Proof.
  destruct (Sql.get (Stats.streak_dates userId d db)) as [x|] eqn:E.
  - left. unfold Sql.get in E.
    destruct (Stats.streak_dates userId d db) as [|y l] eqn:E'; [discriminate|].
    assert (In y (Stats.streak_dates userId d db)) as Hin by (rewrite E'; left; reflexivity).
    apply streak_dates_In in Hin. tauto.
  - right. intros H. apply streak_query_Some in H as [x H]. congruence.
Qed.

Lemma before_all_lt today (l : list Z) x : In x l -> before_all today l < x.
Proof.
  unfold before_all. induction l as [|y l IH]; simpl; [tauto|].
  intros [->|H]; [lia|]. specialize (IH H). lia.
Qed.

Lemma active_on_recorded d : active_on db userId d -> In d (recorded_dates db).
Proof.
  unfold active_on, recorded_dates. rewrite !in_app_iff, !in_flat_map, in_map_iff.
  intros [(j & Hj & _ & He) | [(t & Ht & _ & _ & Hd) | (a & Ha & _ & Hd)]].
  - left. exists j. rewrite He. simpl. auto.
  - right. left. exists t. destruct (t_completed_at t); [|discriminate].
    simpl in Hd. injection Hd as Hd. simpl. auto.
  - right. right. exists a. auto.
Qed.

Lemma before_all_today today (l : list Z) : before_all today l < today.
Proof. unfold before_all. induction l as [|y l IH]; simpl; lia. Qed.

Lemma inactive_before today d :
  d <= before_all today (recorded_dates db) -> ~ active_on db userId d.
Proof.
  intros Hd H. apply active_on_recorded, (before_all_lt today) in H. lia.
Qed.

(** Below [today] the loop counts the run of active days that ends at
    [cur] and returns. *)
Lemma streak_loop_below (w : World) (today : Z) (k : nat) :
  w_db w = db -> w_fault w = Healthy ->
  forall cur streak,
    cur < today ->
    cur - Z.of_nat k <= before_all today (recorded_dates db) ->
    exists n, streak_ending db userId cur n
              /\ forall fuel, (k < fuel)%nat ->
                   Stats.streak_loop fuel userId today cur streak w = (Ok (streak + n), w).
Proof.
  intros Hdb Hf. induction k as [|k IH]; intros cur streak Hlt Hlo.
  - exists 0. split.
    + split; [lia|]. split; [intros; lia|].
      rewrite Z.sub_0_r. apply (inactive_before today). simpl in Hlo. lia.
    + intros fuel Hfuel. destruct fuel as [|fuel]; [lia|]. simpl.
      unfold bind. rewrite (query_no_fault _ _ Hf), Hdb.
      rewrite streak_query_None by (apply (inactive_before today); simpl in Hlo; lia).
      replace (cur =? today) with false by (symmetry; apply Z.eqb_neq; lia).
      unfold ret. f_equal. f_equal. lia.
  - destruct (active_on_dec cur) as [Hact | Hin].
    + destruct (IH (cur - 1) (streak + 1)) as (n & Hrun & Hloop); [lia | lia |].
      exists (n + 1). split.
      * destruct Hrun as (Hn & Hall & Hstop). split; [lia|]. split.
        -- intros i Hi. destruct (Z.eq_dec i 0) as [->|Hne].
           ++ rewrite Z.sub_0_r. assumption.
           ++ replace (cur - i) with (cur - 1 - (i - 1)) by lia. apply Hall. lia.
        -- replace (cur - (n + 1)) with (cur - 1 - n) by lia. assumption.
      * intros fuel Hfuel. destruct fuel as [|fuel]; [lia|]. simpl.
        unfold bind. rewrite (query_no_fault _ _ Hf), Hdb.
        destruct (streak_query_Some cur Hact) as [x ->].
        rewrite Hloop by lia. f_equal. f_equal. lia.
    + exists 0. split.
      * split; [lia|]. split; [intros; lia|]. rewrite Z.sub_0_r. assumption.
      * intros fuel Hfuel. destruct fuel as [|fuel]; [lia|]. simpl.
        unfold bind. rewrite (query_no_fault _ _ Hf), Hdb.
        rewrite (streak_query_None cur Hin).
        replace (cur =? today) with false by (symmetry; apply Z.eqb_neq; lia).
        unfold ret. f_equal. f_equal. lia.
Qed.

Lemma streak_ending_extend cur n :
  active_on db userId cur ->
  streak_ending db userId (cur - 1) n -> streak_ending db userId cur (n + 1).
Proof.
  intros Hact (Hn & Hall & Hstop). split; [lia|]. split.
  - intros i Hi. destruct (Z.eq_dec i 0) as [->|Hne].
    + rewrite Z.sub_0_r. assumption.
    + replace (cur - i) with (cur - 1 - (i - 1)) by lia. apply Hall. lia.
  - replace (cur - (n + 1)) with (cur - 1 - n) by lia. assumption.
Qed.


End Streak.


(** ** Toggling a todo *)

Section TodoToggle.

Variables (userId id : Z).

Lemma toggle_not_found now w :
  w_fault w = Healthy ->
  Todos.select_owned userId id (w_db w) = None ->
  Todos.toggle userId now id w = (Ok (status_json 404 (PError "Todo not found")), w).
Proof.
  intros Hf Hsel. unfold Todos.toggle, try_catch, bind.
  rewrite (query_no_fault _ _ Hf), Hsel. reflexivity.
Qed.

Lemma toggle_found now w t :
  w_fault w = Healthy ->
  Todos.select_owned userId id (w_db w) = Some t ->
  Todos.toggle userId now id w
  = (Ok (json (PToggled "Todo updated" (negb (t_is_completed t)))),
     set_db (toggled_db userId now id t (w_db w)) w).
Proof.
  intros Hf Hsel. unfold Todos.toggle, try_catch, bind.
  rewrite (query_no_fault _ _ Hf), Hsel.
  rewrite (run_no_fault _ _ Hf). cbn [fst snd].
  unfold toggled_db. destruct (negb (t_is_completed t)); [|reflexivity].
  rewrite run_no_fault by exact Hf. reflexivity.
Qed.

(** The ownership query looks at [id] and [user_id] only, which an
    update of the other columns keeps. *)
Lemma select_owned_update (f : todo -> todo) (p : todo -> bool) (d : DB) :
  (forall r, t_id (f r) = t_id r /\ t_user_id (f r) = t_user_id r) ->
  (forall r, t_id r = id -> p r = true) ->
  Sql.get (Sql.where_ (fun t => (t_id t =? id) && (t_user_id t =? userId))
             (Sql.update p f (todos d)))
  = option_map f (Todos.select_owned userId id d).
Proof.
  intros Hkeep Hp. unfold Todos.select_owned, Sql.get, Sql.where_, Sql.update.
  induction (todos d) as [|r l IH]; [reflexivity|]. simpl.
  destruct (t_id r =? id) eqn:Hid.
  - apply Z.eqb_eq in Hid. rewrite (Hp r Hid).
    destruct (Hkeep r) as [-> ->]. rewrite Hid, Z.eqb_refl. simpl.
    destruct (t_user_id r =? userId); [reflexivity | exact IH].
  - destruct (p r).
    + destruct (Hkeep r) as [-> ->]. rewrite Hid. simpl. exact IH.
    + rewrite Hid. simpl. exact IH.
Qed.

Lemma select_owned_In d t :
  Todos.select_owned userId id d = Some t ->
  In t (todos d) /\ t_id t = id /\ t_user_id t = userId.
Proof.
  unfold Todos.select_owned, Sql.get, Sql.where_. intros H.
  assert (In t (List.filter (fun t => (t_id t =? id) && (t_user_id t =? userId)) (todos d)))
    as Hin by (destruct (List.filter _ _); [discriminate | injection H as ->; left; reflexivity]).
  apply filter_In in Hin as [Hin Hc]. apply andb_true_iff in Hc as [H1 H2].
  apply Z.eqb_eq in H1, H2. auto.
Qed.

Lemma todos_toggled_db now t d :
  todos (toggled_db userId now id t d)
  = Sql.update (fun r => t_id r =? id)
      (Todos.set_completed (negb (t_is_completed t)) now) (todos d).
Proof. unfold toggled_db. destruct (negb (t_is_completed t)); reflexivity. Qed.

Lemma select_owned_toggled now t d :
  Todos.select_owned userId id d = Some t ->
  Todos.select_owned userId id (toggled_db userId now id t d)
  = Some (Todos.set_completed (negb (t_is_completed t)) now t).
Proof.
  intros Hsel. unfold Todos.select_owned at 1. rewrite todos_toggled_db.
  rewrite select_owned_update.
  - rewrite Hsel. reflexivity.
  - intros r. split; reflexivity.
  - intros r Hr. apply Z.eqb_eq. exact Hr.
Qed.

Lemma unique_key_same {A} (key : A -> Z) (l : list A) (a b : A) :
  unique_key key l -> In a l -> In b l -> key a = key b -> a = b.
Proof.
  unfold unique_key. induction l as [|x l IH]; simpl; [tauto|].
  intros Hnd Ha Hb Hk. apply NoDup_cons_iff in Hnd as [Hx Hnd].
  destruct Ha as [->|Ha], Hb as [->|Hb]; auto.
  - exfalso. apply Hx. rewrite Hk. apply in_map. exact Hb.
  - exfalso. apply Hx. rewrite <- Hk. apply in_map. exact Ha.
Qed.

(** After two toggles the rows of the table are the original ones, but
    for the toggled row, which is the original one written twice. *)
Lemma todos_toggle_twice now1 now2 w t :
  w_fault w = Healthy ->
  Todos.select_owned userId id (w_db w) = Some t ->
  todos (w_db (toggle_twice userId now1 now2 id w))
  = Sql.update (fun r => t_id r =? id)
      (fun r => Todos.set_completed (t_is_completed t) now2
                  (Todos.set_completed (negb (t_is_completed t)) now1 r))
      (todos (w_db w)).
Proof.
  intros Hf Hsel. unfold toggle_twice.
  rewrite (toggle_found now1 w t Hf Hsel). cbn [snd].
  rewrite (toggle_found now2 _ (Todos.set_completed (negb (t_is_completed t)) now1 t)).
  - cbn [snd w_db set_db]. rewrite !todos_toggled_db. cbn [Todos.set_completed t_is_completed].
    rewrite negb_involutive. unfold Sql.update. rewrite List.map_map.
    apply List.map_ext. intros r. destruct (t_id r =? id) eqn:E; [|rewrite E; reflexivity].
    cbn [Todos.set_completed t_id]. rewrite E. reflexivity.
  - exact Hf.
  - cbn [w_db set_db]. apply select_owned_toggled. exact Hsel.
Qed.

End TodoToggle.

(** C4.  With a driver that does not throw and [id] a key of the todos
    table, two toggles in a row (by any user, at any times) leave the
    completion flag of every todo as it was. *)
Theorem toggle_twice_restores_is_completed (w : World) (userId id now1 now2 : Z) :
  w_fault w = Healthy ->
  unique_key t_id (todos (w_db w)) ->
  List.map t_is_completed (todos (w_db (toggle_twice userId now1 now2 id w)))
  = List.map t_is_completed (todos (w_db w)).
Proof.
  intros Hf Hkey.
  destruct (Todos.select_owned userId id (w_db w)) as [t|] eqn:Hsel.
  - rewrite (todos_toggle_twice userId id now1 now2 w t Hf Hsel).
    destruct (select_owned_In userId id _ _ Hsel) as (Hin & Hid & _).
    unfold Sql.update. rewrite List.map_map.
    apply map_ext_in. intros r Hr.
    destruct (t_id r =? id) eqn:E; [|reflexivity].
    apply Z.eqb_eq in E. cbn [Todos.set_completed t_is_completed].
    f_equal. apply (unique_key_same t_id (todos (w_db w))); auto. congruence.
  - unfold toggle_twice.
    rewrite (toggle_not_found userId id now1 w Hf Hsel). cbn [snd].
    rewrite (toggle_not_found userId id now2 w Hf Hsel). reflexivity.
Qed.

Example three_days_streak :
  Stats.calculateStreak 5 Scenario.alice (Scenario.noon Scenario.D + 1) Scenario.three_days
  = (Ok 3, Scenario.three_days).
Proof. vm_compute. reflexivity. Qed.


Lemma toggle_twice_witness :
  w_fault Scenario.one_todo = Healthy
  /\ unique_key t_id (todos (w_db Scenario.one_todo))
  /\ List.map t_is_completed
       (todos (w_db (toggle_twice Scenario.alice (Scenario.noon Scenario.D)
                       (Scenario.noon Scenario.D + 5000) 1 Scenario.one_todo)))
     = List.map t_is_completed (todos (w_db Scenario.one_todo)).
Proof.
  assert (unique_key t_id (todos (w_db Scenario.one_todo))) as Hkey.
  { unfold unique_key. vm_compute.
    apply List.NoDup_cons; [simpl; tauto | apply List.NoDup_nil]. }
  split; [reflexivity|]. split; [exact Hkey|].
  apply (toggle_twice_restores_is_completed Scenario.one_todo Scenario.alice 1);
    [reflexivity | exact Hkey].
Defined.

(** ** The activity log across a toggle round trip *)

Lemma activity_log_toggled_db userId now id t d :
  activity_log (toggled_db userId now id t d)
  = if negb (t_is_completed t)
    then (activity_log d ++ [completion_row d userId now t])%list
    else activity_log d.
Proof. unfold toggled_db. destruct (negb (t_is_completed t)); reflexivity. Qed.

Lemma active_on_activity_row db userId day a :
  In a (activity_log db) -> a_user_id a = userId -> a_activity_date a = day ->
  active_on db userId day.
Proof. intros Hin Hu Hd. right. right. exists a. auto. Qed.

(** C9 as the claim has it fails on [updated_at]: in the run below the
    todo was last written on D - 1 at noon; after the two toggles on D
    its [updated_at] is the time of the second toggle. *)
Lemma toggle_round_trip_changes_updated_at :
  option_map t_updated_at (Todos.select_owned Scenario.alice 1 (w_db Scenario.one_todo))
  = Some (CURRENT_TIMESTAMP (Scenario.noon (Scenario.D - 1)))
  /\ option_map t_updated_at
       (Todos.select_owned Scenario.alice 1
          (w_db (toggle_twice Scenario.alice (Scenario.noon Scenario.D)
                   (Scenario.noon Scenario.D + 5000) 1 Scenario.one_todo)))
     = Some (CURRENT_TIMESTAMP (Scenario.noon Scenario.D + 5000))
  /\ todos (w_db (toggle_twice Scenario.alice (Scenario.noon Scenario.D)
                    (Scenario.noon Scenario.D + 5000) 1 Scenario.one_todo))
     <> todos (w_db Scenario.one_todo).
Proof.
  split; [vm_compute; reflexivity|]. split; [vm_compute; reflexivity|].
  vm_compute. intros H. discriminate H.
Qed.

(** C9, amended.  Toggling an incomplete todo of the user to completed
    appends a [todo_completed] row of that day to activity_log; toggling
    it back removes nothing from activity_log.  After the round trip the
    todo is incomplete again with [completed_at] NULL and every other
    column as before, except [updated_at], which holds the time of the
    second toggle; the day of the first toggle stays an active day of the
    user. *)
Theorem toggle_round_trip_keeps_activity_row
    (w : World) (userId id now1 now2 : Z) (t : todo) :
  w_fault w = Healthy ->
  Todos.select_owned userId id (w_db w) = Some t ->
  t_is_completed t = false ->
  activity_log (w_db (snd (Todos.toggle userId now1 id w)))
  = (activity_log (w_db w) ++ [completion_row (w_db w) userId now1 t])%list
  /\ a_activity_type (completion_row (w_db w) userId now1 t) = todo_completed
  /\ activity_log (w_db (toggle_twice userId now1 now2 id w))
     = (activity_log (w_db w) ++ [completion_row (w_db w) userId now1 t])%list
  /\ todos (w_db (toggle_twice userId now1 now2 id w))
     = Sql.update (fun r => t_id r =? id) (Todos.set_completed false now2) (todos (w_db w))
  /\ Todos.select_owned userId id (w_db (toggle_twice userId now1 now2 id w))
     = Some (Todos.set_completed false now2 t)
  /\ active_on (w_db (toggle_twice userId now1 now2 id w)) userId (dateOf now1).
Proof.
  intros Hf Hsel Hinc.
  pose proof (toggle_found userId id now1 w t Hf Hsel) as H1.
  pose proof (select_owned_toggled userId id now1 t (w_db w) Hsel) as Hsel1.
  assert (w_fault (set_db (toggled_db userId now1 id t (w_db w)) w) = Healthy) as Hf1 by exact Hf.
  pose proof (toggle_found userId id now2 _ _ Hf1 Hsel1) as H2.
  cbn [w_db set_db Todos.set_completed t_is_completed] in H2.
  assert (activity_log (w_db (toggle_twice userId now1 now2 id w))
          = (activity_log (w_db w) ++ [completion_row (w_db w) userId now1 t])%list) as Hlog.
  { unfold toggle_twice. rewrite H1. cbn [snd]. rewrite H2. cbn [snd w_db set_db].
    rewrite !activity_log_toggled_db. cbn [Todos.set_completed t_is_completed].
    rewrite Hinc. reflexivity. }
  assert (todos (w_db (toggle_twice userId now1 now2 id w))
          = Sql.update (fun r => t_id r =? id) (Todos.set_completed false now2)
              (todos (w_db w))) as Htodos.
  { rewrite (todos_toggle_twice userId id now1 now2 w t Hf Hsel), Hinc.
    unfold Sql.update. apply List.map_ext. intros r.
    destruct (t_id r =? id); reflexivity. }
  split; [|split; [|split; [|split; [|split]]]].
  - rewrite H1. cbn [snd w_db set_db]. rewrite activity_log_toggled_db, Hinc. reflexivity.
  - reflexivity.
  - exact Hlog.
  - exact Htodos.
  - unfold Todos.select_owned. rewrite Htodos.
    rewrite (select_owned_update userId id).
    + rewrite Hsel. reflexivity.
    + intros r. split; reflexivity.
    + intros r Hr. apply Z.eqb_eq. exact Hr.
  - apply (active_on_activity_row _ _ _ (completion_row (w_db w) userId now1 t)).
    + rewrite Hlog. apply in_or_app. right. left. reflexivity.
    + reflexivity.
    + reflexivity.
Qed.

Lemma toggle_round_trip_witness :
  w_fault Scenario.one_todo = Healthy
  /\ (exists t, Todos.select_owned Scenario.alice 1 (w_db Scenario.one_todo) = Some t
                /\ t_is_completed t = false
                /\ activity_log
                     (w_db (toggle_twice Scenario.alice (Scenario.noon Scenario.D)
                              (Scenario.noon Scenario.D + 5000) 1 Scenario.one_todo))
                   = (activity_log (w_db Scenario.one_todo)
                      ++ [completion_row (w_db Scenario.one_todo) Scenario.alice
                            (Scenario.noon Scenario.D) t])%list).
Proof.
  split; [reflexivity|].
  destruct (Todos.select_owned Scenario.alice 1 (w_db Scenario.one_todo)) as [t|] eqn:Hsel;
    [|vm_compute in Hsel; discriminate Hsel].
  assert (t_is_completed t = false) as Hinc
    by (vm_compute in Hsel; injection Hsel as <-; reflexivity).
  exists t. split; [reflexivity|]. split; [exact Hinc|].
  apply (toggle_round_trip_keeps_activity_row Scenario.one_todo Scenario.alice 1
           (Scenario.noon Scenario.D) (Scenario.noon Scenario.D + 5000) t
           eq_refl Hsel Hinc).
Defined.

(** ** The notification poller *)

Section ReadOnly.

Lemma read_only_ret {A} (a : A) : read_only (ret a).
Proof. intros w. reflexivity. Qed.

Lemma read_only_throw {A} : read_only (fun w => (@Throw A, w)).
Proof. intros w. reflexivity. Qed.

Lemma read_only_query {A} (q : DB -> A) : read_only (query q).
Proof.
  intros w. unfold query, tick.
  destruct (w_fault w) as [|[|k]|]; reflexivity.
Qed.

Lemma read_only_random : read_only random.
Proof. intros w. unfold random. destruct (w_rand w); reflexivity. Qed.

Lemma read_only_sendNotification title message type :
  read_only (Notifications.sendNotification title message type).
Proof. intros w. reflexivity. Qed.

Lemma read_only_bind {A B} (m : M A) (k : A -> M B) :
  read_only m -> (forall a, read_only (k a)) -> read_only (bind m k).
Proof.
  intros Hm Hk w. unfold bind. specialize (Hm w).
  destruct (m w) as [[a| |] w']; cbn [snd] in *; [|assumption..].
  rewrite (Hk a w'). assumption.
Qed.

Lemma read_only_try_catch {A} (m h : M A) :
  read_only m -> read_only h -> read_only (try_catch m h).
Proof.
  intros Hm Hh w. unfold try_catch. specialize (Hm w).
  destruct (m w) as [[a| |] w']; cbn [snd] in *; [assumption| |assumption].
  rewrite (Hh w'). assumption.
Qed.

Lemma read_only_forEach {A} (f : A -> M unit) (l : list A) :
  (forall x, read_only (f x)) -> read_only (forEach f l).
Proof.
  intros Hf. induction l as [|x l IH]; simpl.
  - apply read_only_ret.
  - apply read_only_bind; [apply Hf | intros _; exact IH].
Qed.

Lemma read_only_if {A} (b : bool) (m1 m2 : M A) :
  read_only m1 -> read_only m2 -> read_only (if b then m1 else m2).
Proof. destruct b; auto. Qed.

Lemma read_only_getMotivationalQuote now : read_only (Quotes.getMotivationalQuote now).
Proof.
  unfold Quotes.getMotivationalQuote.
  apply read_only_bind; [apply read_only_random | intros r; apply read_only_ret].
Qed.

Lemma read_only_checkAndNotify now : read_only (Notifications.checkAndNotify now).
Proof.
  unfold Notifications.checkAndNotify.
  apply read_only_try_catch; [|apply read_only_ret].
  apply read_only_bind; [apply read_only_query|]. intros users.
  apply read_only_forEach. intros user.
  apply read_only_bind; [apply read_only_query|]. intros pending.
  apply read_only_bind.
  - apply read_only_if; [apply read_only_sendNotification | apply read_only_ret].
  - intros _. apply read_only_bind; [apply read_only_query|]. intros overdue.
    apply read_only_if; [apply read_only_sendNotification | apply read_only_ret].
Qed.

Lemma read_only_sendMotivationalNotification now :
  read_only (Notifications.sendMotivationalNotification now).
Proof.
  unfold Notifications.sendMotivationalNotification.
  apply read_only_try_catch; [|apply read_only_ret].
  apply read_only_bind; [apply read_only_query|]. intros users.
  apply read_only_if; [|apply read_only_ret].
  apply read_only_bind; [apply read_only_getMotivationalQuote|].
  intros [q|]; [apply read_only_sendNotification | apply read_only_throw].
Qed.

End ReadOnly.

Example poll_overdue :
  List.map n_type
    (w_sent (snd (Notifications.poll (Scenario.noon (Scenario.D + 1)) Scenario.overdue)))
  = ["overdue-reminder"; "motivation"]
  /\ w_db (snd (Notifications.poll (Scenario.noon (Scenario.D + 1)) Scenario.overdue))
     = w_db Scenario.overdue.
Proof. vm_compute. repeat split. Qed.

(** C7.  One firing of the poller ([checkAndNotify], then
    [sendMotivationalNotification]) leaves every table and every sequence
    counter of the database as it was, in every world: whatever the
    rows, whether or not the driver throws, whatever [Math.random()]
    returns. *)
Theorem poller_is_read_only (now : Z) (w : World) :
  w_db (snd (Notifications.checkAndNotify now w)) = w_db w
  /\ w_db (snd (Notifications.sendMotivationalNotification now w)) = w_db w
  /\ w_db (snd (Notifications.poll now w)) = w_db w.
Proof.
  split; [apply read_only_checkAndNotify|].
  split; [apply read_only_sendMotivationalNotification|].
  unfold Notifications.poll.
  apply (read_only_bind (Notifications.checkAndNotify now)).
  - apply read_only_checkAndNotify.
  - intros _. apply read_only_sendMotivationalNotification.
Qed.

(** ** The heatmap *)

Section Heatmap.







Variables (db : DB) (userId targetYear : Z).





End Heatmap.


(** ** Creating a journal entry *)











Example three_days_heatmap :
  day_rows (w_db Scenario.three_days) Scenario.alice (Scenario.D - 2) = 2
  /\ day_rows (w_db Scenario.three_days) Scenario.alice (Scenario.D - 1) = 2
  /\ day_rows (w_db Scenario.three_days) Scenario.alice Scenario.D = 2
  /\ yearOf Scenario.D = 2024.
Proof. vm_compute. auto. Qed.

Section JournalCreate.


Lemma In_insert_sorted {A} (before : A -> A -> bool) (x y : A) (l : list A) :
  In x (insert_sorted before y l) <-> x = y \/ In x l.
Proof.
  induction l as [|z l IH]; simpl; [intuition|].
  destruct (before y z); simpl; rewrite ?IH; intuition.
Qed.

Lemma In_order_by {A} (before : A -> A -> bool) (x : A) (l : list A) :
  In x (order_by before l) <-> In x l.
Proof.
  unfold order_by. induction l as [|y l IH]; simpl; [tauto|].
  rewrite In_insert_sorted, IH. intuition.
Qed.



Lemma check_nil path msg ok : Validator.check path msg ok = [] <-> ok = true.
Proof. unfold Validator.check. destruct ok; split; congruence. Qed.

Lemma optional_nil {A} path msg (p : A -> bool) v :
  Validator.optional path msg p v = [] <-> optional_ok p v = true.
Proof.
  unfold Validator.optional, optional_ok. destruct v; [apply check_nil | tauto].
Qed.




End JournalCreate.




(** ** Milestones and the progress of their goal *)

Section MilestoneToggle.

Variables (userId now goalId milestoneId : Z).

Lemma select_owned_milestone_In db m :
  Goals.select_owned_milestone userId milestoneId db = Some m ->
  In m (goal_milestones db) /\ gm_id m = milestoneId.
Proof.
  unfold Goals.select_owned_milestone, Sql.get, Sql.where_. intros H.
  assert (In m (List.filter (Goals.owned_milestone userId milestoneId db) (goal_milestones db)))
    as Hin by (destruct (List.filter _ _); [discriminate | injection H as ->; left; reflexivity]).
  apply filter_In in Hin as [Hin Hc]. unfold Goals.owned_milestone in Hc.
  apply andb_true_iff in Hc as [H1 _]. apply Z.eqb_eq in H1. auto.
Qed.

Lemma count_pos_In {A} (p : A -> bool) (l : list A) (x : A) :
  In x l -> p x = true -> Sql.count (Sql.where_ p l) > 0.
Proof.
  intros Hin Hp. unfold Sql.count, Sql.where_.
  assert (In x (List.filter p l)) as H by (apply filter_In; auto).
  destruct (List.filter p l); [destruct H | simpl; lia].
Qed.

(** When the [:goalId] of the path is the goal of the milestone, the
    toggle stores [round(completed / total * 100)] in every goal row with
    that key, [total] and [completed] being counted after the toggle. *)
Lemma toggle_milestone_recomputes_progress (w : World) (m : goal_milestone) :
  w_fault w = Healthy ->
  Goals.select_owned_milestone userId milestoneId (w_db w) = Some m ->
  gm_goal_id m = goalId ->
  exists w',
    Goals.toggle_milestone userId now goalId milestoneId w
    = (Ok (json (PToggled "Milestone updated" (negb (gm_is_completed m)))), w')
    /\ fst (Goals.milestone_stats goalId (w_db w')) > 0
    /\ forall p, In p (stored_progress goalId (w_db w')) ->
         p = Goals.progress_of (snd (Goals.milestone_stats goalId (w_db w')))
               (fst (Goals.milestone_stats goalId (w_db w'))).
Proof.
  intros Hf Hsel Hgoal.
  destruct (select_owned_milestone_In _ _ Hsel) as [Hin Hid].
  unfold Goals.toggle_milestone, try_catch, bind.
  rewrite (query_no_fault _ _ Hf), Hsel.
  rewrite (run_no_fault _ _ Hf). cbn [fst snd].
  rewrite query_no_fault by exact Hf. cbn [w_db set_db].
  set (d1 := with_goal_milestones _ _ (w_db w)).
  assert (fst (Goals.milestone_stats goalId d1) > 0) as Hpos.
  { unfold Goals.milestone_stats. cbn [fst]. subst d1. cbn [goal_milestones with_goal_milestones].
    apply (count_pos_In _ _ (Goals.set_completed (negb (gm_is_completed m)) now m)).
    - unfold Sql.update. apply in_map_iff. exists m. split; [|exact Hin].
      rewrite Hid, Z.eqb_refl. reflexivity.
    - cbn [Goals.set_completed gm_goal_id]. apply Z.eqb_eq. exact Hgoal. }
  replace (fst (Goals.milestone_stats goalId d1) >? 0) with true
    by (symmetry; apply Z.gtb_lt; lia).
  rewrite run_no_fault by exact Hf. cbn [fst snd w_db set_db].
  eexists. split; [reflexivity|]. cbn [w_db set_db].
  split; [exact Hpos|].
  intros p Hp. unfold stored_progress, Sql.where_ in Hp. cbn [goals with_goals] in Hp.
  apply in_map_iff in Hp as (g & <- & Hg). apply filter_In in Hg as [Hg Hgid].
  unfold Sql.update in Hg. apply in_map_iff in Hg as (g0 & Hg0 & _).
  destruct (g_id g0 =? goalId) eqn:E.
  - subst g. reflexivity.
  - subst g. rewrite E in Hgid. discriminate Hgid.
Qed.

End MilestoneToggle.

(** C2: the goal of [Scenario.half_done] stores progress 50 with one of
    its two milestones completed.  Deleting the other milestone is
    answered 200 and leaves one milestone, completed, so that
    [round(completed / total * 100)] is 100, while the stored progress
    stays 50: the delete route does not recompute it. *)
Theorem delete_milestone_leaves_progress_stale :
  stored_progress 1 (w_db Scenario.half_done) = [50]
  /\ Goals.milestone_stats 1 (w_db Scenario.half_done) = (2, 1)
  /\ fst (app (Scenario.as_user Scenario.alice (Scenario.noon Scenario.D + 2000)
                 (MilestoneDelete 1 2)) Scenario.half_done)
     = Ok (json (PMessage "Milestone deleted"))
  /\ Goals.milestone_stats 1
       (w_db (snd (app (Scenario.as_user Scenario.alice (Scenario.noon Scenario.D + 2000)
                          (MilestoneDelete 1 2)) Scenario.half_done)))
     = (1, 1)
  /\ Goals.progress_of 1 1 = 100
  /\ stored_progress 1
       (w_db (snd (app (Scenario.as_user Scenario.alice (Scenario.noon Scenario.D + 2000)
                          (MilestoneDelete 1 2)) Scenario.half_done)))
     = [50].
Proof. repeat split; vm_compute; reflexivity. Qed.

(** Adding a milestone does not recompute the progress either. *)
Example add_milestone_leaves_progress_stale :
  Goals.milestone_stats 1
    (w_db (snd (app (Scenario.as_user Scenario.alice (Scenario.noon Scenario.D + 2000)
                       (MilestoneAdd 1 (Some "Race day"))) Scenario.half_done)))
  = (3, 1)
  /\ Goals.progress_of 1 3 = 33
  /\ stored_progress 1
       (w_db (snd (app (Scenario.as_user Scenario.alice (Scenario.noon Scenario.D + 2000)
                          (MilestoneAdd 1 (Some "Race day"))) Scenario.half_done)))
     = [50].
Proof. repeat split; vm_compute; reflexivity. Qed.

(** ** Rows of another user *)

Lemma foreign_row_not_selected {A} (key owner : A -> Z) (table : list A) (a : A)
    (userId id : Z) :
  unique_key key table -> In a table -> key a = id -> owner a <> userId ->
  Sql.get (Sql.where_ (fun r => (key r =? id) && (owner r =? userId)) table) = None.
Proof.
  intros Hkey Hin Hid Hown. unfold Sql.get, Sql.where_.
  destruct (List.filter _ table) as [|x l] eqn:E; [reflexivity|]. exfalso.
  assert (In x (List.filter (fun r => (key r =? id) && (owner r =? userId)) table)) as Hx
    by (rewrite E; left; reflexivity).
  apply filter_In in Hx as [Hx Hc]. apply andb_true_iff in Hc as [Hk Ho].
  apply Z.eqb_eq in Hk, Ho.
  assert (x = a) as -> by (apply (unique_key_same key table); auto; congruence).
  contradiction.
Qed.

(** The routes that name a journal entry, a goal or a todo by its key
    find nothing when the row belongs to another user: their ownership
    check fails, which is the case the routes answer with 404. *)
Lemma foreign_rows_are_missing (db : DB) (userId : Z) :
  unique_key je_id (journal_entries db) ->
  unique_key g_id (goals db) ->
  unique_key t_id (todos db) ->
  (forall j, In j (journal_entries db) -> je_user_id j <> userId ->
     missing_target userId (JournalGet (je_id j)) db = true
     /\ missing_target userId (JournalDelete (je_id j)) db = true)
  /\ (forall g, In g (goals db) -> g_user_id g <> userId ->
       missing_target userId (GoalGet (g_id g)) db = true
       /\ (forall b, missing_target userId (GoalUpdate (g_id g) b) db = true)
       /\ missing_target userId (GoalDelete (g_id g)) db = true
       /\ (forall title, missing_target userId (MilestoneAdd (g_id g) title) db = true))
  /\ (forall t, In t (todos db) -> t_user_id t <> userId ->
       (forall b, missing_target userId (TodoUpdate (t_id t) b) db = true)
       /\ missing_target userId (TodoToggle (t_id t)) db = true
       /\ missing_target userId (TodoDelete (t_id t)) db = true).
Proof.
  intros Hj Hg Ht. split; [|split].
  - intros j Hin Hown. cbn [missing_target]. unfold Journal.select_owned.
    rewrite (foreign_row_not_selected je_id je_user_id _ j userId (je_id j) Hj Hin eq_refl Hown).
    auto.
  - intros g Hin Hown. cbn [missing_target]. unfold Goals.select_owned.
    rewrite (foreign_row_not_selected g_id g_user_id _ g userId (g_id g) Hg Hin eq_refl Hown).
    auto.
  - intros t Hin Hown. cbn [missing_target]. unfold Todos.select_owned.
    rewrite (foreign_row_not_selected t_id t_user_id _ t userId (t_id t) Ht Hin eq_refl Hown).
    auto.
Qed.

(** C3: in [Scenario.two_users] Alice toggles her own milestone 1 under
    the path of Bob's goal 2.  The request is answered 200, Bob's goal
    loses the progress he stored (75 becomes 0) and gets a new
    [updated_at], and Alice's own goal is not recomputed. *)
Theorem toggle_under_foreign_goal_rewrites_it :
  List.map g_id (goals_of Scenario.bob (w_db Scenario.two_users)) = [2]
  /\ List.map gm_id (Goals.milestones_of 2 (w_db Scenario.two_users)) = [2]
  /\ Goals.select_owned Scenario.alice 2 (w_db Scenario.two_users) = None
  /\ stored_progress 2 (w_db Scenario.two_users) = [75]
  /\ fst (app (Scenario.as_user Scenario.alice (Scenario.noon Scenario.D + 3000)
                 (MilestoneToggle 2 1)) Scenario.two_users)
     = Ok (json (PToggled "Milestone updated" true))
  /\ stored_progress 2
       (w_db (snd (app (Scenario.as_user Scenario.alice (Scenario.noon Scenario.D + 3000)
                          (MilestoneToggle 2 1)) Scenario.two_users)))
     = [0]
  /\ goals_of Scenario.bob
       (w_db (snd (app (Scenario.as_user Scenario.alice (Scenario.noon Scenario.D + 3000)
                          (MilestoneToggle 2 1)) Scenario.two_users)))
     <> goals_of Scenario.bob (w_db Scenario.two_users)
  /\ stored_progress 1
       (w_db (snd (app (Scenario.as_user Scenario.alice (Scenario.noon Scenario.D + 3000)
                          (MilestoneToggle 2 1)) Scenario.two_users)))
     = [0].
Proof.
  repeat split; try (vm_compute; reflexivity).
  vm_compute. intros H. discriminate H.
Qed.

(** ** The error answers of the routes *)

Section Errors.











Lemma answers_bind {A B} (m : M A) (k : A -> M B) :
  answers m -> (forall a, answers (k a)) -> answers (bind m k).
Proof.
  intros Hm Hk w. unfold bind. destruct (Hm w) as (a & w' & ->). apply Hk.
Qed.

Lemma get_None_count {A} (p : A -> bool) (l : list A) :
  Sql.get (Sql.where_ p l) = None ->
  Sql.delete_where p l = (l, 0).
Proof.
  unfold Sql.get, Sql.where_, Sql.delete_where. intros H.
  assert (List.filter p l = []) as Hnil by (destruct (List.filter p l); [reflexivity|discriminate]).
  rewrite Hnil. f_equal.
  clear H. induction l as [|x l IH]; [reflexivity|]. simpl in *.
  destruct (p x); [discriminate|]. simpl. f_equal. apply IH. exact Hnil.
Qed.

Lemma with_todos_same d : with_todos (todos d) (seq_todos d) d = d.
Proof. destruct d; reflexivity. Qed.

Lemma with_goal_milestones_same d :
  with_goal_milestones (goal_milestones d) (seq_goal_milestones d) d = d.
Proof. destruct d; reflexivity. Qed.

End Errors.



Section AppErrors.

Variables (r : request) (w : World).





End AppErrors.

Section NotFound.

Variables (w : World) (userId : Z).
Hypothesis no_fault : w_fault w = Healthy.

Lemma journal_get_missing id :
  Journal.select_owned userId id (w_db w) = None ->
  Journal.get_entry userId id w = (Ok (status_json 404 (PError "Entry not found")), w).
Proof.
  intros H. unfold Journal.get_entry, try_catch, bind.
  rewrite (query_no_fault _ _ no_fault), H. reflexivity.
Qed.

Lemma journal_delete_missing id :
  Journal.select_owned userId id (w_db w) = None ->
  Journal.delete userId id w
  = (Ok (status_json 404 (PError "Entry not found")), set_db (w_db w) w).
Proof.
  intros H. unfold Journal.delete, try_catch, bind.
  rewrite (query_no_fault _ _ no_fault), (run_no_fault _ _ no_fault).
  unfold Journal.delete_entry. unfold Journal.select_owned in H.
  rewrite (get_None_count _ _ H). reflexivity.
Qed.

Lemma goal_get_missing id :
  Goals.select_owned userId id (w_db w) = None ->
  Goals.get_goal userId id w = (Ok (status_json 404 (PError "Goal not found")), w).
Proof.
  intros H. unfold Goals.get_goal, try_catch, bind.
  rewrite (query_no_fault _ _ no_fault), H. reflexivity.
Qed.

Lemma goal_update_missing now id b :
  Goals.validate_update b = [] ->
  Goals.select_owned userId id (w_db w) = None ->
  Goals.update userId now id b w = (Ok (status_json 404 (PError "Goal not found")), w).
Proof.
  intros Hv H. unfold Goals.update. rewrite Hv. unfold try_catch, bind.
  rewrite (query_no_fault _ _ no_fault), H. reflexivity.
Qed.

Lemma goal_delete_missing id :
  Goals.select_owned userId id (w_db w) = None ->
  Goals.delete userId id w
  = (Ok (status_json 404 (PError "Goal not found")), set_db (w_db w) w).
Proof.
  intros H. unfold Goals.delete, try_catch, bind.
  rewrite (run_no_fault _ _ no_fault).
  unfold Goals.delete_goal. unfold Goals.select_owned in H.
  rewrite (get_None_count _ _ H). reflexivity.
Qed.

Lemma milestone_add_missing now id title :
  Goals.validate_milestone title = [] ->
  Goals.select_owned userId id (w_db w) = None ->
  Goals.add_milestone userId now id title w
  = (Ok (status_json 404 (PError "Goal not found")), w).
Proof.
  intros Hv H. unfold Goals.add_milestone. rewrite Hv. unfold try_catch, bind.
  rewrite (query_no_fault _ _ no_fault), H. reflexivity.
Qed.

Lemma milestone_toggle_missing now goalId milestoneId :
  Goals.select_owned_milestone userId milestoneId (w_db w) = None ->
  Goals.toggle_milestone userId now goalId milestoneId w
  = (Ok (status_json 404 (PError "Milestone not found")), w).
Proof.
  intros H. unfold Goals.toggle_milestone, try_catch, bind.
  rewrite (query_no_fault _ _ no_fault), H. reflexivity.
Qed.

Lemma milestone_delete_missing goalId milestoneId :
  Goals.select_owned_milestone userId milestoneId (w_db w) = None ->
  Goals.delete_milestone userId goalId milestoneId w
  = (Ok (status_json 404 (PError "Milestone not found")), set_db (w_db w) w).
Proof.
  intros H. unfold Goals.delete_milestone, try_catch, bind.
  rewrite (run_no_fault _ _ no_fault).
  unfold Goals.delete_milestone_row.
  unfold Goals.select_owned_milestone, Goals.owned_milestone in H.
  rewrite (get_None_count _ _ H). cbn [fst snd].
  rewrite with_goal_milestones_same. reflexivity.
Qed.

Lemma todo_update_missing now id b :
  Todos.validate_update b = [] ->
  Todos.select_owned userId id (w_db w) = None ->
  Todos.update userId now id b w = (Ok (status_json 404 (PError "Todo not found")), w).
Proof.
  intros Hv H. unfold Todos.update. rewrite Hv. unfold try_catch, bind.
  rewrite (query_no_fault _ _ no_fault), H. reflexivity.
Qed.

Lemma todo_delete_missing id :
  Todos.select_owned userId id (w_db w) = None ->
  Todos.delete userId id w
  = (Ok (status_json 404 (PError "Todo not found")), set_db (w_db w) w).
Proof.
  intros H. unfold Todos.delete, try_catch, bind.
  rewrite (run_no_fault _ _ no_fault).
  unfold Todos.delete_todo. unfold Todos.select_owned in H.
  rewrite (get_None_count _ _ H). cbn [fst snd].
  rewrite with_todos_same. reflexivity.
Qed.

Lemma app_missing (r : request) :
  session_user r = Some userId -> validation_errors (target r) = [] ->
  missing_target userId (target r) (w_db w) = true ->
  exists msg w',
    app r w = (Ok (status_json 404 (PError msg)), w') /\ w_db w' = w_db w.
Proof.
  intros Hs Hv Hm. unfold app, requireAuth, dispatch. rewrite Hs.
  destruct (target r); cbn [validation_errors missing_target] in Hv, Hm;
    try discriminate Hm;
    match type of Hm with
    | (match ?s with _ => _ end) = true =>
        destruct s eqn:Hsel; [discriminate Hm|]
    end.
  - rewrite (journal_get_missing _ Hsel). eexists _, _. split; reflexivity.
  - rewrite (journal_delete_missing _ Hsel). eexists _, _. split; reflexivity.
  - rewrite (goal_get_missing _ Hsel). eexists _, _. split; reflexivity.
  - rewrite (goal_update_missing _ _ _ Hv Hsel). eexists _, _. split; reflexivity.
  - rewrite (goal_delete_missing _ Hsel). eexists _, _. split; reflexivity.
  - rewrite (milestone_add_missing _ _ _ Hv Hsel). eexists _, _. split; reflexivity.
  - rewrite (milestone_toggle_missing _ _ _ Hsel). eexists _, _. split; reflexivity.
  - rewrite (milestone_delete_missing _ _ Hsel). eexists _, _. split; reflexivity.
  - rewrite (todo_update_missing _ _ _ Hv Hsel). eexists _, _. split; reflexivity.
  - rewrite (toggle_not_found _ _ _ _ no_fault Hsel). eexists _, _. split; reflexivity.
  - rewrite (todo_delete_missing _ Hsel). eexists _, _. split; reflexivity.
Qed.

End NotFound.

Section DriverFailure.








End DriverFailure.







(** ** The fallback tips and quotes *)

Section Fallback.

Lemma random_only_ret {A} (a : A) : random_only (ret a).
Proof. intros w1 w2 H. split; [reflexivity | exact H]. Qed.

Lemma random_only_random : random_only random.
Proof.
  intros w1 w2 H. unfold random. rewrite H.
  destruct (w_rand w2) as [|x l] eqn:E; cbn [fst snd]; [|split; reflexivity].
  split; [reflexivity|]. congruence.
Qed.

Lemma random_only_bind {A B} (m : M A) (k : A -> M B) :
  random_only m -> (forall a, random_only (k a)) -> random_only (bind m k).
Proof.
  intros Hm Hk w1 w2 H. unfold bind. destruct (Hm w1 w2 H) as [Hv Hr].
  destruct (m w1) as [[a1| |] w1'], (m w2) as [[a2| |] w2']; cbn [fst snd] in *;
    try discriminate Hv; try (split; [reflexivity | exact Hr]).
  injection Hv as ->. apply Hk. exact Hr.
Qed.

Lemma random_only_coin {A} (a b : A) : random_only (Ai.coin a b).
Proof.
  unfold Ai.coin. apply random_only_bind; [apply random_only_random|].
  intros q. apply random_only_ret.
Qed.

Lemma random_only_sort_insert {A} (x : A) (l : list A) :
  random_only (Ai.sort_insert Ai.coin x l).
Proof.
  induction l as [|y l IH]; cbn [Ai.sort_insert]; [apply random_only_ret|].
  apply random_only_bind; [apply random_only_coin|]. intros c.
  destruct (negb (Qle_bool c 0)); [|apply random_only_ret].
  apply random_only_bind; [exact IH|]. intros r0. apply random_only_ret.
Qed.

Lemma random_only_sort_from {A} (p l : list A) :
  random_only (Ai.sort_from Ai.coin p l).
Proof.
  revert p. induction l as [|x l IH]; intros p; cbn [Ai.sort_from];
    [apply random_only_ret|].
  apply random_only_bind; [apply random_only_sort_insert|]. intros p'. apply IH.
Qed.

Lemma random_only_getFallbackTips context : random_only (Ai.getFallbackTips context).
Proof.
  unfold Ai.getFallbackTips. apply random_only_bind.
  - unfold Ai.array_sort.
    destruct (String.eqb context "todos"); [apply random_only_sort_from|].
    destruct (String.eqb context "goals"); apply random_only_sort_from.
  - intros tips. apply random_only_ret.
Qed.

Lemma coin_value {A} (a b : A) w :
  exists c w', Ai.coin a b w = (Ok c, w').
Proof.
  unfold Ai.coin, bind, random, ret. destruct (w_rand w); eexists _, _; reflexivity.
Qed.

Lemma sort_insert_Permutation {A} (x : A) (l : list A) w :
  exists r w', Ai.sort_insert Ai.coin x l w = (Ok r, w') /\ Permutation (x :: l) r.
Proof.
  revert w. induction l as [|y l IH]; intros w; cbn [Ai.sort_insert].
  - eexists _, _. split; [reflexivity | apply Permutation_refl].
  - unfold bind at 1. destruct (coin_value y x w) as (c & w1 & ->).
    destruct (negb (Qle_bool c 0)).
    + unfold bind. destruct (IH w1) as (r0 & w2 & -> & Hp).
      eexists _, _. split; [reflexivity|].
      apply Permutation_trans with (y :: x :: l); [apply perm_swap|].
      apply perm_skip. exact Hp.
    + eexists _, _. split; [reflexivity | apply Permutation_refl].
Qed.

Lemma sort_from_Permutation {A} (p l : list A) w :
  exists r w', Ai.sort_from Ai.coin p l w = (Ok r, w') /\ Permutation (p ++ l)%list r.
Proof.
  revert p w. induction l as [|x l IH]; intros p w; cbn [Ai.sort_from].
  - eexists _, _. split; [reflexivity|]. rewrite List.app_nil_r. apply Permutation_rev.
  - unfold bind. destruct (sort_insert_Permutation x p w) as (p' & w1 & -> & Hp).
    destruct (IH p' w1) as (r0 & w2 & -> & Hr).
    eexists _, _. split; [reflexivity|].
    apply Permutation_trans with (p' ++ l)%list; [|exact Hr].
    apply Permutation_trans with (x :: p ++ l)%list.
    + apply Permutation_sym, Permutation_middle.
    + change (Permutation ((x :: p) ++ l)%list (p' ++ l)%list).
      apply Permutation_app_tail. exact Hp.
Qed.

Lemma getFallbackTips_selection context w :
  exists tips,
    Permutation (tips_for context) tips
    /\ fst (Ai.getFallbackTips context w)
       = Ok (Ai.join (String.append Ai.newline Ai.newline) (firstn 3 tips)).
Proof.
  unfold Ai.getFallbackTips, tips_for, Ai.array_sort, bind.
  destruct (String.eqb context "todos"); [|destruct (String.eqb context "goals")];
    match goal with
    | |- context [Ai.sort_from Ai.coin [] ?l w] =>
        destruct (sort_from_Permutation [] l w) as (r0 & w' & -> & Hp)
    end; exists r0; split; try exact Hp; reflexivity.
Qed.

Lemma floor_index (x : Q) (n : Z) :
  (0 <= x)%Q -> (x < 1)%Q -> 0 < n ->
  0 <= Math_floor (x * inject_Z n)%Q < n.
Proof.
  intros H0 H1 Hn. unfold Math_floor.
  assert (0 <= x * inject_Z n)%Q as Hlo.
  { apply Qmult_le_0_compat; [exact H0|]. change 0%Q with (inject_Z 0).
    rewrite <- Zle_Qle. lia. }
  assert (x * inject_Z n < inject_Z n)%Q as Hhi.
  { rewrite <- (Qmult_1_l (inject_Z n)) at 2.
    apply Qmult_lt_compat_r; [|exact H1].
    change 0%Q with (inject_Z 0). rewrite <- Zlt_Qlt. lia. }
  split.
  - change 0 with (Qfloor (inject_Z 0)). apply Qfloor_resp_le. exact Hlo.
  - rewrite Zlt_Qlt. eapply Qle_lt_trans; [apply Qfloor_le | exact Hhi].
Qed.

Lemma getMotivationalQuote_member now w :
  unit_draws w ->
  exists q, fst (Quotes.getMotivationalQuote now w) = Ok (Some q) /\ In q Quotes.quotes.
Proof.
  intros Hw. unfold Quotes.getMotivationalQuote.
  set (category := if getHours now <? 12 then _ else _).
  set (pool := if 0 <? Z.of_nat (List.length category) then category else Quotes.quotes).
  assert (forall q, In q pool -> In q Quotes.quotes) as Hsub.
  { intros q Hq. subst pool. destruct (0 <? Z.of_nat (List.length category)); [|exact Hq].
    subst category.
    destruct (getHours now <? 12); [|destruct (getHours now <? 17)];
      apply filter_In in Hq; tauto. }
  assert (0 < Z.of_nat (List.length pool)) as Hlen.
  { subst pool. destruct (0 <? Z.of_nat (List.length category)) eqn:E.
    - apply Z.ltb_lt. exact E.
    - vm_compute. reflexivity. }
  assert (exists x w', random w = (Ok x, w') /\ (0 <= x)%Q /\ (x < 1)%Q) as (x & w' & Hr & H0 & H1).
  { unfold random. destruct (w_rand w) as [|x l] eqn:E.
    - eexists _, _. split; [reflexivity|]. split; [apply Qle_refl | reflexivity].
    - eexists _, _. split; [reflexivity|]. apply Hw. rewrite E. left. reflexivity. }
  unfold bind. rewrite Hr. unfold ret. cbn [fst].
  destruct (floor_index x _ H0 H1 Hlen) as [Hi0 Hi1].
  replace (Math_floor (x * inject_Z (Z.of_nat (List.length pool))) <? 0) with false
    by (symmetry; apply Z.ltb_ge; exact Hi0).
  destruct (nth_error pool (Z.to_nat (Math_floor (x * inject_Z (Z.of_nat (List.length pool))))))
    as [q|] eqn:Hq.
  - exists q. split; [reflexivity|]. apply Hsub. eapply nth_error_In. exact Hq.
  - apply nth_error_None in Hq. lia.
Qed.

End Fallback.

(** C8 as the claim has it fails: the same request, on two installations
    that differ only in what [Math.random()] returns, gets different
    tips and a different quote. *)
Lemma fallback_varies_with_random_draws :
  w_db Scenario.lucky = w_db Scenario.unlucky
  /\ fst (Ai.getFallbackTips "todos" Scenario.lucky)
     <> fst (Ai.getFallbackTips "todos" Scenario.unlucky)
  /\ fst (Ai.tips_without_key "todos" Scenario.lucky)
     <> fst (Ai.tips_without_key "todos" Scenario.unlucky)
  /\ fst (Quotes.getMotivationalQuote (Scenario.noon Scenario.D) Scenario.lucky)
     <> fst (Quotes.getMotivationalQuote (Scenario.noon Scenario.D) Scenario.unlucky).
Proof.
  split; [reflexivity|].
  repeat split; vm_compute; intros H; discriminate H.
Qed.

(** C8, amended.  The fallback needs no key and no network: its output
    is a function of the request and of the values [Math.random()]
    returns (for quotes, also of the hour of the day).  Two runs that see
    the same request and the same draws produce the same output; the tips
    are always the first three of a rearrangement of the five curated tips
    of the context, joined by blank lines and marked "curated"; the quote
    is always one of the quotes of the fixed list. *)
Theorem fallback_is_a_function_of_the_draws :
  (forall context w1 w2,
     w_rand w1 = w_rand w2 ->
     fst (Ai.getFallbackTips context w1) = fst (Ai.getFallbackTips context w2)
     /\ fst (Ai.tips_without_key context w1) = fst (Ai.tips_without_key context w2))
  /\ (forall context w,
        exists tips,
          Permutation (tips_for context) tips
          /\ fst (Ai.getFallbackTips context w)
             = Ok (Ai.join (String.append Ai.newline Ai.newline) (firstn 3 tips))
          /\ fst (Ai.tips_without_key context w)
             = Ok (json (PTips (Ai.join (String.append Ai.newline Ai.newline) (firstn 3 tips))
                           "curated")))
  /\ (forall now1 now2 w1 w2,
        getHours now1 = getHours now2 -> w_rand w1 = w_rand w2 ->
        fst (Quotes.getMotivationalQuote now1 w1) = fst (Quotes.getMotivationalQuote now2 w2))
  /\ (forall now w,
        unit_draws w ->
        exists q, fst (Quotes.getMotivationalQuote now w) = Ok (Some q)
                  /\ In q Quotes.quotes).
Proof.
  split; [|split; [|split]].
  - intros context w1 w2 H.
    destruct (random_only_getFallbackTips context w1 w2 H) as [Hv Hr].
    split; [exact Hv|].
    unfold Ai.tips_without_key, bind.
    destruct (Ai.getFallbackTips context w1) as [[a1| |] w1'],
             (Ai.getFallbackTips context w2) as [[a2| |] w2']; cbn [fst] in *;
      try discriminate Hv; try reflexivity.
    injection Hv as ->. reflexivity.
  - intros context w. destruct (getFallbackTips_selection context w) as (tips & Hp & Hv).
    exists tips. split; [exact Hp|]. split; [exact Hv|].
    unfold Ai.tips_without_key, bind.
    destruct (Ai.getFallbackTips context w) as [[a| |] w']; cbn [fst] in *;
      try discriminate Hv.
    injection Hv as ->. reflexivity.
  - intros now1 now2 w1 w2 Hh Hr. unfold Quotes.getMotivationalQuote. rewrite Hh.
    apply random_only_bind; [apply random_only_random | | exact Hr].
    intros x. apply random_only_ret.
  - apply getMotivationalQuote_member.
Qed.

Lemma fallback_witness :
  w_rand Scenario.lucky = w_rand (set_sent [] (set_db (w_db Scenario.three_days) Scenario.lucky))
  /\ fst (Ai.getFallbackTips "goals" Scenario.lucky)
     = fst (Ai.getFallbackTips "goals"
              (set_sent [] (set_db (w_db Scenario.three_days) Scenario.lucky)))
  /\ unit_draws Scenario.lucky
  /\ exists q, fst (Quotes.getMotivationalQuote (Scenario.noon Scenario.D) Scenario.lucky)
               = Ok (Some q)
               /\ In q Quotes.quotes.
Proof.
  assert (unit_draws Scenario.lucky) as Hd.
  { intros x Hx. vm_compute in Hx.
    repeat (destruct Hx as [<-|Hx]; [split; [discriminate | reflexivity]|]).
    destruct Hx. }
  split; [reflexivity|].
  split.
  - apply (fallback_is_a_function_of_the_draws). reflexivity.
  - split; [exact Hd|].
    apply (fallback_is_a_function_of_the_draws). exact Hd.
Defined.

(** * Further properties of the routes *)

(** ** Sorting *)

Section Sorting.

Context {A : Type} (before : A -> A -> bool).

Lemma insert_sorted_Permutation (x : A) (l : list A) :
  Permutation (x :: l) (insert_sorted before x l).
Proof.
  induction l as [|y l IH]; simpl; [apply Permutation_refl|].
  destruct (before x y); [apply Permutation_refl|].
  apply Permutation_trans with (y :: x :: l); [apply perm_swap|].
  apply perm_skip. exact IH.
Qed.

Lemma order_by_Permutation (l : list A) : Permutation l (order_by before l).
Proof.
  unfold order_by. induction l as [|x l IH]; simpl; [apply Permutation_refl|].
  apply Permutation_trans with (x :: fold_right (insert_sorted before) [] l).
  - apply perm_skip. exact IH.
  - apply insert_sorted_Permutation.
Qed.

Hypothesis order : total_order before.

Lemma insert_sorted_sorted (x : A) (l : list A) :
  sorted_by before l -> sorted_by before (insert_sorted before x l).
Proof.
  destruct order as [Htot Htrans].
  induction l as [|y l IH]; intros Hs.
  - simpl. split; [intros y []|exact I].
  - simpl in Hs. destruct Hs as [Hy Hs]. simpl.
    destruct (before x y) eqn:E.
    + simpl. split; [|split; assumption].
      intros z [<-|Hz]; [exact E|]. apply (Htrans x y z E). apply Hy. exact Hz.
    + simpl. split; [|apply IH; exact Hs].
      intros z Hz. apply In_insert_sorted in Hz as [->|Hz].
      * apply Htot. exact E.
      * apply Hy. exact Hz.
Qed.

Lemma order_by_sorted (l : list A) : sorted_by before (order_by before l).
Proof.
  unfold order_by. induction l as [|x l IH]; simpl; [exact I|].
  apply insert_sorted_sorted. exact IH.
Qed.

End Sorting.

Ltac bool_to_Z :=
  repeat match goal with
         | H : _ = false |- _ => apply not_true_iff_false in H
         end;
  repeat rewrite ?orb_true_iff, ?andb_true_iff, ?Z.ltb_lt, ?Z.leb_le, ?Z.eqb_eq in *.





(** ** The listings *)


(** A handler made of one [SELECT] answers with its rows or with the
    answer of its [catch]. *)
Lemma listing_cases {A} (q : DB -> A) (k : A -> answer) (e : answer) (w : World) :
  exists w',
    (try_catch (x <- query q ;; ret (k x)) (ret e) w = (Ok (k (q (w_db w))), w')
     \/ try_catch (x <- query q ;; ret (k x)) (ret e) w = (Ok e, w')).
Proof.
  unfold try_catch, bind, query, tick, ret.
  destruct (w_fault w) as [|[|n]|]; eexists; cbn; auto.
Qed.


Example week_listing :
  List.map t_title
    (todos_of (match fst (TodoLists.list_todos Scenario.alice Busy.everything Busy.week) with
               | Ok a => a
               | _ => send (LTodos [])
               end))
  = ["File taxes"; "Call bank"; "Tidy desk"; "Read mail"].
Proof. vm_compute. reflexivity. Qed.


(** ** What the listings show *)

Lemma with_milestones_rows (l : list (goal * Z * Z)) (w : World) :
  match GoalLists.with_milestones l w with
  | (Ok rows, w') =>
      w_db w' = w_db w
      /\ rows = List.map (fun g => (g, Goals.milestones_of (g_id (fst (fst g))) (w_db w))) l
  | (_, w') => w_db w' = w_db w
  end.
Proof.
  revert w. induction l as [|g l IH]; intros w; cbn [GoalLists.with_milestones].
  - cbn. auto.
  - unfold bind at 1. unfold query, tick.
    destruct (w_fault w) as [|[|n]|] eqn:E; cbn [fst snd]; try reflexivity.
    + unfold bind. specialize (IH w).
      destruct (GoalLists.with_milestones l w) as [[rows| |] w1]; cbn; [|exact IH..].
      destruct IH as [-> ->]. auto.
    + unfold bind. specialize (IH (set_fault (FailsAfter n) w)).
      destruct (GoalLists.with_milestones l (set_fault (FailsAfter n) w)) as [[rows| |] w1];
        cbn in *; [|exact IH..].
      destruct IH as [-> ->]. auto.
Qed.

Lemma milestones_of_goal (goalId : Z) (db : DB) (m : goal_milestone) :
  In m (Goals.milestones_of goalId db) -> In m (goal_milestones db) /\ gm_goal_id m = goalId.
Proof.
  unfold Goals.milestones_of, Sql.where_. intros H.
  apply In_order_by, filter_In in H as [H1 H2]. apply Z.eqb_eq in H2. auto.
Qed.

Lemma todo_matches_user userId f t :
  TodoLists.matches userId f t = true -> t_user_id t = userId.
Proof.
  unfold TodoLists.matches. rewrite !andb_true_iff.
  intros [[[[[H _] _] _] _] _]. apply Z.eqb_eq. exact H.
Qed.

Lemma journal_matches_user userId f j :
  Journal.matches userId f j = true -> je_user_id j = userId.
Proof.
  unfold Journal.matches. rewrite !andb_true_iff.
  intros [[[[H _] _] _] _]. apply Z.eqb_eq. exact H.
Qed.

Lemma goal_matches_user userId type status g :
  GoalLists.matches userId type status g = true -> g_user_id g = userId.
Proof.
  unfold GoalLists.matches. rewrite !andb_true_iff.
  intros [[H _] _]. apply Z.eqb_eq. exact H.
Qed.

Lemma todo_rows_of_listing (q : DB -> list todo) (e : string) (w : World) (userId : Z) :
  (forall t, In t (q (w_db w)) -> t_user_id t = userId) ->
  forall t,
    In t (todos_of (shown (try_catch (rows <- query q ;; ret (send (LTodos rows)))
                             (ret (send_status 500 (LError e))) w))) ->
    t_user_id t = userId.
Proof.
  intros Hq t.
  destruct (listing_cases q (fun rows => send (LTodos rows)) (send_status 500 (LError e)) w)
    as (w' & [-> | ->]); unfold shown; cbn; [apply Hq | tauto].
Qed.

Lemma export_cases (w : World) (userId now : Z) :
  exists w',
    StatsRoutes.export userId now w
    = (Ok (send (LExport now
                   (Sql.where_ (fun j => je_user_id j =? userId) (journal_entries (w_db w)))
                   (Sql.where_ (fun g => g_user_id g =? userId) (goals (w_db w)))
                   (flat_map (fun gm =>
                        List.map (fun _ => gm)
                          (Sql.where_ (fun g => (g_id g =? gm_goal_id gm)
                                                && (g_user_id g =? userId))
                             (goals (w_db w))))
                      (goal_milestones (w_db w)))
                   (Sql.where_ (fun t => t_user_id t =? userId) (todos (w_db w))))), w')
    \/ StatsRoutes.export userId now w
       = (Ok (send_status 500 (LError "Failed to export data")), w').
Proof.
  unfold StatsRoutes.export, try_catch, bind, query, tick, ret.
  destruct (w_fault w) as [|[|[|[|[|n]]]]|] eqn:E; repeat (cbn; rewrite ?E);
    eexists; auto.
Qed.

(** X2.  Whatever the state of the database and of its driver, the
    listings show rows of the signed-in user only: every journal entry of
    [GET /api/journal], every todo of the four todo listings, every goal of
    [GET /api/goals] (whose milestones all hang on that very goal) and
    every journal entry, goal, milestone and todo of [GET /api/stats/export]
    belongs to the user of the session. *)
Theorem listings_show_own_rows_only (w : World) (userId now : Z) :
  (forall f e, In e (entries_of (shown_response (Journal.list_entries userId f w))) ->
               je_user_id e = userId)
  /\ (forall f t, In t (todos_of (shown (TodoLists.list_todos userId f w))) ->
                  t_user_id t = userId)
  /\ (forall t, In t (todos_of (shown (TodoLists.today userId now w))) -> t_user_id t = userId)
  /\ (forall t, In t (todos_of (shown (TodoLists.overdue userId now w))) ->
                t_user_id t = userId)
  /\ (forall t, In t (todos_of (shown (TodoLists.upcoming userId now w))) ->
                t_user_id t = userId)
  /\ (forall type status,
        (forall g, In g (goals_of_answer (shown (GoalLists.list_goals userId type status w))) ->
                   g_user_id g = userId)
        /\ (forall m,
              In m (milestones_of_answer (shown (GoalLists.list_goals userId type status w))) ->
              milestone_of_user (w_db w) userId m))
  /\ (forall j, In j (journals_of_answer (shown (StatsRoutes.export userId now w))) ->
                je_user_id j = userId)
  /\ (forall g, In g (goals_of_answer (shown (StatsRoutes.export userId now w))) ->
                g_user_id g = userId)
  /\ (forall m, In m (milestones_of_answer (shown (StatsRoutes.export userId now w))) ->
                milestone_of_user (w_db w) userId m)
  /\ (forall t, In t (todos_of (shown (StatsRoutes.export userId now w))) ->
                t_user_id t = userId).
Proof.
  split; [|split; [|split; [|split; [|split; [|split]]]]].
  - intros f e. unfold Journal.list_entries, shown_response, try_catch, bind, query, tick, ret.
    destruct (w_fault w) as [|[|n]|]; cbn; try tauto;
      rewrite List.map_map, in_map_iff; intros (j & <- & Hj);
      apply In_order_by, filter_In in Hj as [_ Hj]; apply (journal_matches_user _ _ _ Hj).
  - intros f. apply todo_rows_of_listing. intros t Ht.
    apply In_order_by, filter_In in Ht as [_ Ht]. apply (todo_matches_user _ _ _ Ht).
  - apply todo_rows_of_listing. intros t Ht.
    apply In_order_by, filter_In in Ht as [_ Ht].
    apply andb_true_iff in Ht as [Ht _]. apply Z.eqb_eq. exact Ht.
  - apply todo_rows_of_listing. intros t Ht.
    apply In_order_by, filter_In in Ht as [_ Ht]. unfold TodoLists.is_overdue in Ht.
    rewrite !andb_true_iff in Ht. apply Z.eqb_eq. tauto.
  - apply todo_rows_of_listing. intros t Ht.
    apply In_order_by, filter_In in Ht as [_ Ht].
    rewrite !andb_true_iff in Ht. apply Z.eqb_eq. tauto.
  - intros type status.
    assert (forall w0, w_db w0 = w_db w ->
              forall rows w1,
                GoalLists.with_milestones (GoalLists.counted_goals userId type status (w_db w)) w0
                = (Ok rows, w1) ->
                (forall g, In g (List.map (fun r => fst (fst (fst r))) rows) -> g_user_id g = userId)
                /\ (forall m, In m (flat_map snd rows) -> milestone_of_user (w_db w) userId m))
      as Hrows.
    { intros w0 Hdb rows w1 Hrun.
      pose proof (with_milestones_rows (GoalLists.counted_goals userId type status (w_db w)) w0)
        as H. rewrite Hrun in H. destruct H as [_ ->]. rewrite Hdb.
      assert (forall c, In c (GoalLists.counted_goals userId type status (w_db w)) ->
                In (fst (fst c)) (goals (w_db w)) /\ g_user_id (fst (fst c)) = userId) as Hc.
      { intros c Hin. unfold GoalLists.counted_goals in Hin.
        apply in_map_iff in Hin as (g & <- & Hg). cbn [fst].
        apply In_order_by, filter_In in Hg as [Hg Hm].
        split; [exact Hg | apply (goal_matches_user _ _ _ _ Hm)]. }
      split.
      - intros g Hg. rewrite List.map_map in Hg. apply in_map_iff in Hg as (c & <- & Hin).
        cbn [fst]. apply Hc. exact Hin.
      - intros m Hm. apply in_flat_map in Hm as (r0 & Hr & Hm).
        apply in_map_iff in Hr as (c & <- & Hin). cbn [snd] in Hm.
        apply milestones_of_goal in Hm as [_ Hm].
        exists (fst (fst c)). destruct (Hc c Hin) as [H1 H2]. auto. }
    unfold GoalLists.list_goals, shown, try_catch, bind, query, tick.
    destruct (w_fault w) as [|[|n]|] eqn:E; cbn [fst snd];
      try (cbn; split; intros ? []).
    + destruct (GoalLists.with_milestones _ w) as [[rows| |] w1] eqn:Hrun; cbn;
        try (split; intros ? []).
      apply (Hrows w eq_refl rows w1 Hrun).
    + destruct (GoalLists.with_milestones _ (set_fault (FailsAfter n) w))
        as [[rows| |] w1] eqn:Hrun; cbn; try (split; intros ? []).
      apply (Hrows (set_fault (FailsAfter n) w) eq_refl rows w1 Hrun).
  - destruct (export_cases w userId now) as (w' & [H | H]); unfold shown; rewrite H; cbn;
      (split; [|split; [|split]]); try (intros ? []).
    + intros x Hx. apply filter_In in Hx as [_ Hx]. apply Z.eqb_eq. exact Hx.
    + intros x Hx. apply filter_In in Hx as [_ Hx]. apply Z.eqb_eq. exact Hx.
    + intros m Hm. apply in_flat_map in Hm as (gm & _ & Hm).
      apply in_map_iff in Hm as (g & <- & Hg). apply filter_In in Hg as [Hg Hc].
      apply andb_true_iff in Hc as [H1 H2]. apply Z.eqb_eq in H1, H2.
      exists g. auto.
    + intros x Hx. apply filter_In in Hx as [_ Hx]. apply Z.eqb_eq. exact Hx.
Qed.

Lemma listings_witness :
  exists t,
    In t (todos_of (shown (TodoLists.list_todos Scenario.alice Busy.everything Busy.week)))
    /\ t_user_id t = Scenario.alice.
Proof.
  assert (exists t,
            In t (todos_of (shown (TodoLists.list_todos Scenario.alice Busy.everything
                                     Busy.week)))) as [t Ht]
    by (vm_compute; eexists; left; reflexivity).
  exists t. split; [exact Ht|].
  destruct (listings_show_own_rows_only Busy.week Scenario.alice (Scenario.noon Scenario.D))
    as (_ & Htodos & _).
  exact (Htodos Busy.everything t Ht).
Defined.

(** ** Properties of the database that every request keeps *)

Section Keeps.

Context (P : DB -> Prop).

Lemma keeps_ret {A} (a : A) : keeps P (ret a).
Proof. intros w H. exact H. Qed.

Lemma keeps_query {A} (q : DB -> A) : keeps P (query q).
Proof.
  intros w H. unfold query, tick. destruct (w_fault w) as [|[|n]|]; exact H.
Qed.

Lemma keeps_random : keeps P random.
Proof. intros w H. unfold random. destruct (w_rand w); exact H. Qed.

Lemma keeps_run {A} (f : DB -> A * DB) :
  (forall d, P d -> P (snd (f d))) -> keeps P (run f).
Proof.
  intros Hf w H. unfold run, tick.
  destruct (w_fault w) as [|[|n]|]; cbn; try exact H;
    specialize (Hf (w_db w) H); destruct (f (w_db w)); exact Hf.
Qed.

Lemma keeps_bind {A B} (m : M A) (k : A -> M B) :
  keeps P m -> (forall a, keeps P (k a)) -> keeps P (bind m k).
Proof.
  intros Hm Hk w H. unfold bind. specialize (Hm w H).
  destruct (m w) as [[a| |] w']; cbn [snd] in *; [apply Hk; exact Hm | exact Hm..].
Qed.

(** The continuation of a [SELECT] may use that its argument is the
    result of the query on the current database. *)
Lemma keeps_query_bind {A B} (q : DB -> A) (k : A -> M B) :
  (forall w, P (w_db w) -> P (w_db (snd (k (q (w_db w)) w)))) ->
  keeps P (bind (query q) k).
Proof.
  intros Hk w H. unfold bind, query, tick.
  destruct (w_fault w) as [|[|n]|]; cbn [snd]; try exact H.
  - apply Hk. exact H.
  - apply (Hk (set_fault (FailsAfter n) w)). exact H.
Qed.

Lemma keeps_try_catch {A} (m h : M A) :
  keeps P m -> keeps P h -> keeps P (try_catch m h).
Proof.
  intros Hm Hh w H. unfold try_catch. specialize (Hm w H).
  destruct (m w) as [[a| |] w']; cbn [snd] in *; [exact Hm | apply Hh; exact Hm | exact Hm].
Qed.

Lemma keeps_forEach {A} (f : A -> M unit) (l : list A) :
  (forall x, keeps P (f x)) -> keeps P (forEach f l).
Proof.
  intros Hf. induction l as [|x l IH]; simpl.
  - apply keeps_ret.
  - apply keeps_bind; [apply Hf | intros _; exact IH].
Qed.

End Keeps.

Ltac keeps_step :=
  first
    [ apply keeps_ret | apply keeps_query | apply keeps_random
    | apply keeps_try_catch | apply keeps_forEach | apply keeps_bind
    | apply keeps_run
    | match goal with
      | |- forall _ : _, keeps _ _ => intro
      | |- keeps _ (match ?x with _ => _ end) => destruct x
      end ].

Section Keys.

Context {A : Type} (key : A -> Z).

Lemma keys_below_insert (seq : Z) (table : list A) (row : A) :
  keys_below key seq table ->
  key row = Sql.next_id seq (List.map key table) ->
  keys_below key (Sql.next_id seq (List.map key table)) (table ++ [row]).
Proof.
  intros [Hu Hb] Hrow.
  assert (forall r, In r table -> key r < Sql.next_id seq (List.map key table)) as Hlt.
  { intros r Hr. specialize (Hb r Hr). unfold Sql.next_id.
    assert (seq <= fold_right Z.max seq (List.map key table))
      by (clear; induction table; simpl; lia).
    lia. }
  split.
  - unfold unique_key in *. rewrite List.map_app. cbn [List.map].
    apply List.NoDup_app; [exact Hu | |].
    + apply List.NoDup_cons; [intros [] | apply List.NoDup_nil].
    + intros x Hx [<-|[]]. apply in_map_iff in Hx as (r & Hk & Hr).
      specialize (Hlt r Hr). lia.
  - intros r Hr. apply in_app_iff in Hr as [Hr|[<-|[]]].
    + specialize (Hlt r Hr). lia.
    + lia.
Qed.

Lemma keys_below_update (seq : Z) (table : list A) (p : A -> bool) (f : A -> A) :
  (forall r, key (f r) = key r) ->
  keys_below key seq table -> keys_below key seq (Sql.update p f table).
Proof.
  intros Hf [Hu Hb].
  assert (List.map key (Sql.update p f table) = List.map key table) as Hmap.
  { unfold Sql.update. rewrite List.map_map. apply List.map_ext.
    intros r. destruct (p r); [apply Hf | reflexivity]. }
  split.
  - unfold unique_key. rewrite Hmap. exact Hu.
  - intros r Hr. unfold Sql.update in Hr. apply in_map_iff in Hr as (r0 & <- & Hr0).
    destruct (p r0); [rewrite Hf|]; apply Hb; exact Hr0.
Qed.

Lemma keys_below_filter (seq : Z) (table : list A) (p : A -> bool) :
  keys_below key seq table -> keys_below key seq (List.filter p table).
Proof.
  intros [Hu Hb]. split.
  - unfold unique_key in *. clear Hb. induction table as [|x l IH]; [exact Hu|].
    cbn in *. apply NoDup_cons_iff in Hu as [Hx Hu].
    destruct (p x); [|apply IH; exact Hu]. cbn. apply List.NoDup_cons; [|apply IH; exact Hu].
    intros Hin. apply Hx. apply in_map_iff in Hin as (r & Hk & Hr).
    apply filter_In in Hr as [Hr _]. apply in_map_iff. eauto.
  - intros r Hr. apply filter_In in Hr as [Hr _]. apply Hb. exact Hr.
Qed.

End Keys.

Ltac keys_table :=
  first
    [ assumption
    | apply keys_below_insert; [assumption | reflexivity]
    | apply keys_below_update; [intros; reflexivity | assumption]
    | apply keys_below_filter; assumption ].

Ltac keys_solve :=
  let d := fresh "d" in
  let H := fresh "H" in
  intros d H;
  unfold insert_activity, Journal.insert_entry, Journal.insert_image, Journal.delete_entry,
    Goals.insert_goal, Goals.insert_milestone, Goals.delete_goal, Goals.delete_milestone_row,
    Todos.insert_todo, Todos.delete_todo, Sql.delete_where;
  cbn [fst snd];
  try match goal with
      | |- context [if ?c then _ else _] => destruct c; [exact H|]
      end;
  destruct H as (? & ? & ? & ? & ? & ?);
  unfold keys_ok;
  cbn [journal_entries journal_images goals goal_milestones todos activity_log
       seq_journal_entries seq_journal_images seq_goals seq_goal_milestones seq_todos
       seq_activity_log with_journal_entries with_journal_images with_goals
       with_goal_milestones with_todos with_activity_log];
  refine (conj _ (conj _ (conj _ (conj _ (conj _ _))))); keys_table.

Lemma app_keeps_keys (r : request) : keeps keys_ok (app r).
Proof.
  unfold app, requireAuth, dispatch, auth_status.
  destruct (target r); destruct (session_user r) as [userId|];
    try apply keeps_ret;
    unfold Journal.list_entries, Journal.get_entry, Journal.create, Journal.delete,
      Goals.get_goal, Goals.create, Goals.update, Goals.delete, Goals.add_milestone,
      Goals.toggle_milestone, Goals.delete_milestone, Todos.create, Todos.update,
      Todos.toggle, Todos.delete, Stats.heatmap, Ai.get_quote, Quotes.getMotivationalQuote;
    repeat keeps_step; keys_solve.
Qed.

Lemma bulk_routes_keep_keys (userId now : Z) (ids : option (list Z)) (newDate : option Z) :
  keeps keys_ok (TodoLists.bulk_complete userId now ids)
  /\ keeps keys_ok (TodoLists.reschedule_overdue userId now newDate).
Proof.
  unfold TodoLists.bulk_complete, TodoLists.reschedule_overdue.
  split; repeat keeps_step; keys_solve.
Qed.

Lemma next_id_above (seq : Z) (ids : list Z) : seq < Sql.next_id seq ids.
Proof.
  unfold Sql.next_id.
  assert (seq <= fold_right Z.max seq ids) by (induction ids; simpl; lia). lia.
Qed.

Ltac counters_solve :=
  let d := fresh "d" in
  let H := fresh "H" in
  intros d H;
  unfold insert_activity, Journal.insert_entry, Journal.insert_image, Journal.delete_entry,
    Goals.insert_goal, Goals.insert_milestone, Goals.delete_goal, Goals.delete_milestone_row,
    Todos.insert_todo, Todos.delete_todo, Sql.delete_where;
  cbn [fst snd];
  try match goal with
      | |- context [if ?c then _ else _] => destruct c; [exact H|]
      end;
  unfold counters_from in *;
  cbn [seq_journal_entries seq_journal_images seq_goals seq_goal_milestones seq_todos
       seq_activity_log with_journal_entries with_journal_images with_goals
       with_goal_milestones with_todos with_activity_log];
  repeat match goal with
         | |- context [Sql.next_id ?s ?ids] =>
             pose proof (next_id_above s ids); generalize dependent (Sql.next_id s ids); intros
         end;
  lia.

Lemma app_keeps_counters (s : DB) (r : request) : keeps (counters_from s) (app r).
Proof.
  unfold app, requireAuth, dispatch, auth_status.
  destruct (target r); destruct (session_user r) as [userId|];
    try apply keeps_ret;
    unfold Journal.list_entries, Journal.get_entry, Journal.create, Journal.delete,
      Goals.get_goal, Goals.create, Goals.update, Goals.delete, Goals.add_milestone,
      Goals.toggle_milestone, Goals.delete_milestone, Todos.create, Todos.update,
      Todos.toggle, Todos.delete, Stats.heatmap, Ai.get_quote, Quotes.getMotivationalQuote;
    repeat keeps_step; counters_solve.
Qed.

Lemma counters_from_refl (d : DB) : counters_from d d.
Proof. unfold counters_from. lia. Qed.

Lemma replay_keeps (P : DB -> Prop) (rs : list request) :
  (forall r, keeps P (app r)) -> forall w, P (w_db w) -> P (w_db (Scenario.replay rs w)).
Proof.
  intros Hk. unfold Scenario.replay.
  induction rs as [|r rs IH]; intros w H; [exact H|].
  cbn [fold_left]. apply IH. apply Hk. exact H.
Qed.

Lemma keys_ok_empty : keys_ok Scenario.empty.
Proof.
  unfold keys_ok, keys_below, unique_key. cbn.
  repeat split; try apply List.NoDup_nil; intros ? [].
Qed.

(** X3.  Every request keeps the keys of the six tables distinct and at
    most the sequence counter of their table, and lowers no sequence
    counter, whether the driver throws in the middle of the handler or
    not; so does every sequence of requests, and so do the bulk routes of
    the todos.  A key that a table has held is therefore never given to a
    later row. *)
Theorem requests_keep_keys_unique (w : World) :
  keys_ok (w_db w) ->
  (forall r, keys_ok (w_db (snd (app r w)))
             /\ counters_from (w_db w) (w_db (snd (app r w))))
  /\ (forall rs, keys_ok (w_db (Scenario.replay rs w))
                 /\ counters_from (w_db w) (w_db (Scenario.replay rs w)))
  /\ (forall userId now ids,
        keys_ok (w_db (snd (TodoLists.bulk_complete userId now ids w))))
  /\ (forall userId now newDate,
        keys_ok (w_db (snd (TodoLists.reschedule_overdue userId now newDate w)))).
Proof.
  intros H. split; [|split; [|split]].
  - intros r. split; [apply app_keeps_keys; exact H|].
    apply app_keeps_counters. apply counters_from_refl.
  - intros rs. split.
    + apply (replay_keeps keys_ok rs app_keeps_keys w H).
    + apply (replay_keeps (counters_from (w_db w)) rs (app_keeps_counters (w_db w)) w).
      apply counters_from_refl.
  - intros userId now ids.
    apply (proj1 (bulk_routes_keep_keys userId now ids None)). exact H.
  - intros userId now newDate.
    apply (proj2 (bulk_routes_keep_keys userId now None newDate)). exact H.
Qed.

Lemma requests_keep_keys_witness :
  keys_ok (w_db Scenario.fresh)
  /\ keys_ok (w_db Busy.week)
  /\ unique_key t_id (todos (w_db Busy.week)).
Proof.
  assert (keys_ok (w_db Busy.week)) as H.
  { apply (requests_keep_keys_unique Scenario.fresh keys_ok_empty). }
  split; [exact keys_ok_empty|]. split; [exact H|].
  apply H.
Defined.

(** ** The range of the progress *)

Lemma milestone_stats_range (goalId : Z) (db : DB) :
  0 <= snd (Goals.milestone_stats goalId db) <= fst (Goals.milestone_stats goalId db).
Proof.
  unfold Goals.milestone_stats, Sql.count. cbn [fst snd].
  induction (Sql.where_ (fun m => gm_goal_id m =? goalId) (goal_milestones db)) as [|m l IH].
  - simpl. lia.
  - cbn [List.map fold_right List.length]. destruct (gm_is_completed m); cbn [Z.b2z]; lia.
Qed.

Lemma progress_of_range (completed total : Z) :
  0 <= completed <= total -> 0 < total -> 0 <= Goals.progress_of completed total <= 100.
Proof.
  intros Hc Ht. unfold Goals.progress_of, Math_round.
  assert (0 < inject_Z total)%Q as Ht' by (change 0%Q with (inject_Z 0); rewrite <- Zlt_Qlt; lia).
  assert (0 <= inject_Z completed / inject_Z total)%Q as H0.
  { apply Qle_shift_div_l; [exact Ht'|]. rewrite Qmult_0_l.
    change 0%Q with (inject_Z 0). rewrite <- Zle_Qle. lia. }
  assert (inject_Z completed / inject_Z total <= 1)%Q as H1.
  { apply Qle_shift_div_r; [exact Ht'|]. rewrite Qmult_1_l. rewrite <- Zle_Qle. lia. }
  split.
  - change 0 with (Qfloor (inject_Z 0)). apply Qfloor_resp_le.
    change (inject_Z 0) with (0 * 100 + 0)%Q.
    apply Qplus_le_compat; [|discriminate].
    apply Qmult_le_compat_r; [exact H0 | discriminate].
  - change 100 with (Qfloor (1 * 100 + (1 # 2))). apply Qfloor_resp_le.
    apply Qplus_le_compat; [|apply Qle_refl].
    apply Qmult_le_compat_r; [exact H1 | discriminate].
Qed.

Ltac progress_solve :=
  let d := fresh "d" in
  let H := fresh "H" in
  let g := fresh "g" in
  let Hg := fresh "Hg" in
  intros d H;
  unfold insert_activity, Journal.insert_entry, Journal.insert_image, Journal.delete_entry,
    Goals.insert_goal, Goals.insert_milestone, Goals.delete_goal, Goals.delete_milestone_row,
    Todos.insert_todo, Todos.delete_todo, Sql.delete_where;
  cbn [fst snd];
  try match goal with
      | |- context [if ?c then _ else _] => destruct c; [exact H|]
      end;
  intros g Hg;
  cbn [goals with_journal_entries with_journal_images with_goals with_goal_milestones
       with_todos with_activity_log] in Hg;
  first
    [ exact (H g Hg)
    | apply filter_In in Hg as [Hg _]; exact (H g Hg)
    | apply in_app_iff in Hg as [Hg|[<-|[]]]; [exact (H g Hg) | cbn; lia] ].

Lemma goal_update_keeps_progress (userId now id : Z) (b : Goals.update_body) :
  keeps progress_ok (Goals.update userId now id b).
Proof.
  unfold Goals.update. destruct (Goals.validate_update b) eqn:Hv; [|apply keeps_ret].
  assert (optional_ok (Validator.isInt 0 100) (Goals.u_progress b) = true) as Hp.
  { unfold Goals.validate_update in Hv. apply app_eq_nil in Hv as [_ Hv].
    apply app_eq_nil in Hv as [Hv _]. apply optional_nil in Hv. exact Hv. }
  apply keeps_try_catch; [|apply keeps_ret].
  apply keeps_bind; [apply keeps_query|]. intros [g|]; [|apply keeps_ret].
  apply keeps_bind.
  - destruct (Goals.u_progress b) as [[n|raw]|]; repeat keeps_step; progress_solve.
  - intros _. apply keeps_bind; [|intros _; apply keeps_ret].
    apply keeps_run. intros d H g0 Hg. cbn [snd goals with_goals] in Hg.
    unfold Sql.update in Hg. apply in_map_iff in Hg as (r0 & <- & Hr).
    destruct (g_id r0 =? id); [|exact (H r0 Hr)].
    cbn [Goals.apply_update g_progress].
    destruct (Goals.u_progress b) as [[n|raw]|]; try exact (H r0 Hr).
    cbn in Hp. apply andb_true_iff in Hp as [H0 H1].
    apply Z.leb_le in H0, H1. lia.
Qed.

Lemma toggle_milestone_keeps_progress (userId now goalId milestoneId : Z) :
  keeps progress_ok (Goals.toggle_milestone userId now goalId milestoneId).
Proof.
  unfold Goals.toggle_milestone.
  apply keeps_try_catch; [|apply keeps_ret].
  apply keeps_bind; [apply keeps_query|]. intros [m|]; [|apply keeps_ret].
  apply keeps_bind; [apply keeps_run; progress_solve|]. intros _.
  apply keeps_query_bind. intros w Hw.
  pose proof (milestone_stats_range goalId (w_db w)) as Hr.
  destruct (Goals.milestone_stats goalId (w_db w)) as [total completed]. cbn [fst snd] in *.
  revert w Hw. change (keeps progress_ok
    ((if total >? 0
      then run (fun d => (tt, with_goals
                                (Sql.update (fun g => g_id g =? goalId)
                                   (Goals.set_progress (Goals.progress_of completed total) now)
                                   (goals d)) (seq_goals d) d))
      else ret tt) ;;;
     ret (json (PToggled "Milestone updated" (negb (gm_is_completed m)))))).
  apply keeps_bind; [|intros _; apply keeps_ret].
  destruct (total >? 0) eqn:E; [|apply keeps_ret].
  apply Z.gtb_lt in E. apply keeps_run. intros d H g Hg.
  cbn [snd goals with_goals] in Hg. unfold Sql.update in Hg.
  apply in_map_iff in Hg as (r0 & <- & Hr0).
  destruct (g_id r0 =? goalId); [|exact (H r0 Hr0)].
  cbn [Goals.set_progress g_progress]. apply progress_of_range; lia.
Qed.

Lemma app_keeps_progress (r : request) : keeps progress_ok (app r).
Proof.
  unfold app, requireAuth, dispatch, auth_status.
  destruct (target r); destruct (session_user r) as [userId|];
    try apply keeps_ret;
    try apply goal_update_keeps_progress;
    try apply toggle_milestone_keeps_progress;
    unfold Journal.list_entries, Journal.get_entry, Journal.create, Journal.delete,
      Goals.get_goal, Goals.create, Goals.delete, Goals.add_milestone,
      Goals.delete_milestone, Todos.create, Todos.update,
      Todos.toggle, Todos.delete, Stats.heatmap, Ai.get_quote, Quotes.getMotivationalQuote;
    repeat keeps_step; progress_solve.
Qed.

Lemma progress_ok_empty : progress_ok Scenario.empty.
Proof. intros g []. Qed.

(** X4.  Every request keeps the stored progress of every goal within
    0..100, the range of the CHECK constraint of the column: a new goal
    starts at 0, [PUT /api/goals/:id] admits only integers of that range,
    and the recomputation after a milestone toggle rounds a ratio between
    0 and 1 times 100.  So does every sequence of requests, whether the
    driver throws or not. *)
Theorem requests_keep_progress_in_range (w : World) :
  progress_ok (w_db w) ->
  (forall r, progress_ok (w_db (snd (app r w))))
  /\ (forall rs, progress_ok (w_db (Scenario.replay rs w))).
Proof.
  intros H. split.
  - intros r. apply app_keeps_progress. exact H.
  - intros rs. apply (replay_keeps progress_ok rs app_keeps_progress w H).
Qed.

Lemma requests_keep_progress_witness :
  progress_ok (w_db Scenario.fresh) /\ progress_ok (w_db Scenario.half_done).
Proof.
  split; [exact progress_ok_empty|].
  apply (requests_keep_progress_in_range Scenario.fresh progress_ok_empty).
Defined.

(** ** Completion flag and completion time *)

Ltac completion_solve :=
  let d := fresh "d" in
  let H := fresh "H" in
  let t := fresh "t" in
  let Ht := fresh "Ht" in
  let r0 := fresh "r0" in
  intros d H;
  unfold insert_activity, Journal.insert_entry, Journal.insert_image, Journal.delete_entry,
    Goals.insert_goal, Goals.insert_milestone, Goals.delete_goal, Goals.delete_milestone_row,
    Todos.insert_todo, Todos.delete_todo, Sql.delete_where;
  cbn [fst snd];
  try match goal with
      | |- context [if ?c then _ else _] => destruct c; [exact H|]
      end;
  intros t Ht;
  cbn [todos with_journal_entries with_journal_images with_goals with_goal_milestones
       with_todos with_activity_log] in Ht;
  first
    [ exact (H t Ht)
    | apply filter_In in Ht as [Ht _]; exact (H t Ht)
    | apply in_app_iff in Ht as [Ht|[<-|[]]]; [exact (H t Ht) | reflexivity]
    | unfold Sql.update in Ht; apply in_map_iff in Ht as (r0 & <- & Ht);
      match goal with
      | |- context [if ?c then _ else _] => destruct c
      end;
      [ first [ reflexivity
              | match goal with |- context [negb ?b] => destruct b; reflexivity end
              | exact (H r0 Ht) ]
      | exact (H r0 Ht) ] ].

Lemma app_keeps_completion (r : request) : keeps completion_ok (app r).
Proof.
  unfold app, requireAuth, dispatch, auth_status.
  destruct (target r); destruct (session_user r) as [userId|];
    try apply keeps_ret;
    unfold Journal.list_entries, Journal.get_entry, Journal.create, Journal.delete,
      Goals.get_goal, Goals.create, Goals.update, Goals.delete, Goals.add_milestone,
      Goals.toggle_milestone, Goals.delete_milestone, Todos.create, Todos.update,
      Todos.toggle, Todos.delete, Stats.heatmap, Ai.get_quote, Quotes.getMotivationalQuote;
    repeat keeps_step; completion_solve.
Qed.

Lemma bulk_routes_keep_completion (userId now : Z) (ids : option (list Z))
    (newDate : option Z) :
  keeps completion_ok (TodoLists.bulk_complete userId now ids)
  /\ keeps completion_ok (TodoLists.reschedule_overdue userId now newDate).
Proof.
  unfold TodoLists.bulk_complete, TodoLists.reschedule_overdue.
  split; repeat keeps_step; completion_solve.
Qed.

Lemma completion_ok_empty : completion_ok Scenario.empty.
Proof. intros t []. Qed.

(** X5.  Every request, and the two bulk routes of the todos, keep the
    completion flag and the completion time of every todo in step: a
    todo is completed exactly when [completed_at] is not NULL.  So does
    every sequence of requests, whether the driver throws or not. *)
Theorem requests_keep_completion_in_step (w : World) :
  completion_ok (w_db w) ->
  (forall r, completion_ok (w_db (snd (app r w))))
  /\ (forall rs, completion_ok (w_db (Scenario.replay rs w)))
  /\ (forall userId now ids,
        completion_ok (w_db (snd (TodoLists.bulk_complete userId now ids w))))
  /\ (forall userId now newDate,
        completion_ok (w_db (snd (TodoLists.reschedule_overdue userId now newDate w)))).
Proof.
  intros H. split; [|split; [|split]].
  - intros r. apply app_keeps_completion. exact H.
  - intros rs. apply (replay_keeps completion_ok rs app_keeps_completion w H).
  - intros userId now ids.
    apply (proj1 (bulk_routes_keep_completion userId now ids None)). exact H.
  - intros userId now newDate.
    apply (proj2 (bulk_routes_keep_completion userId now None newDate)). exact H.
Qed.

Lemma requests_keep_completion_witness :
  completion_ok (w_db Scenario.fresh) /\ completion_ok (w_db Scenario.three_days).
Proof.
  split; [exact completion_ok_empty|].
  apply (requests_keep_completion_in_step Scenario.fresh completion_ok_empty).
Defined.

(** ** The longest streak *)















Lemma streak_ending_run (db : DB) (userId last n : Z) :
  streak_ending db userId last n -> 0 <= n /\ active_run db userId (last - n + 1) n.
Proof.
  intros (Hn & Hall & _). split; [exact Hn|].
  intros i Hi. replace (last - n + 1 + i) with (last - (n - 1 - i)) by lia.
  apply Hall. lia.
Qed.

(** With a driver that does not throw, [calculateStreak] returns the
    length of a run of active days. *)
Lemma calculateStreak_run (w : World) (userId now : Z) :
  w_fault w = Healthy ->
  exists n first,
    0 <= n /\ active_run (w_db w) userId first n
    /\ forall fuel, (streak_fuel (w_db w) (dateOf now) <= fuel)%nat ->
         Stats.calculateStreak fuel userId now w = (Ok n, w).
Proof.
  intros Hf. set (today := dateOf now). set (db := w_db w).
  set (k := Z.to_nat (today - before_all today (recorded_dates db))).
  pose proof (before_all_today today (recorded_dates db)) as Hlo.
  destruct (active_on_dec db userId today) as [Hact | Hin].
  - destruct (streak_loop_below db userId w today k eq_refl Hf (today - 1)) with (streak := 1)
      as (n1 & Hrun1 & Hloop1); [lia | subst k; lia |].
    apply (streak_ending_extend db userId today n1 Hact) in Hrun1.
    apply streak_ending_run in Hrun1 as [Hn Hrun].
    exists (1 + n1), (today - (n1 + 1) + 1). rewrite (Z.add_comm 1 n1).
    split; [exact Hn|]. split; [exact Hrun|].
    intros fuel Hfuel. unfold streak_fuel in Hfuel. fold today db k in Hfuel.
    unfold Stats.calculateStreak. fold today.
    destruct fuel as [|fuel]; [lia|]. simpl.
    unfold bind. rewrite (query_no_fault _ _ Hf). fold db.
    destruct (streak_query_Some db userId today Hact) as [x ->].
    rewrite Hloop1 by lia. f_equal. f_equal. lia.
  - destruct (streak_loop_below db userId w today k eq_refl Hf (today - 1)) with (streak := 0)
      as (n0 & Hrun0 & Hloop0); [lia | subst k; lia |].
    apply streak_ending_run in Hrun0 as [Hn Hrun].
    exists n0, (today - 1 - n0 + 1).
    split; [exact Hn|]. split; [exact Hrun|].
    intros fuel Hfuel. unfold streak_fuel in Hfuel. fold today db k in Hfuel.
    unfold Stats.calculateStreak. fold today.
    destruct fuel as [|fuel]; [lia|]. simpl.
    unfold bind. rewrite (query_no_fault _ _ Hf). fold db.
    rewrite (streak_query_None db userId today Hin), Z.eqb_refl.
    rewrite Hloop0 by lia. reflexivity.
Qed.


Example three_days_longest :
  StatsRoutes.calculateLongestStreak Scenario.alice Scenario.three_days
  = (Ok 3, Scenario.three_days).
Proof. vm_compute. reflexivity. Qed.




(** ** The bulk operations on todos *)

Lemma update_then_none {A} (p : A -> bool) (f : A -> A) (l : list A) :
  (forall r, p r = true -> p (f r) = false) ->
  Sql.where_ p (Sql.update p f l) = [].
Proof.
  intros H. unfold Sql.where_, Sql.update.
  induction l as [|r l IH]; [reflexivity|]. cbn [List.map List.filter].
  destruct (p r) eqn:E; [rewrite (H r E)|rewrite E]; exact IH.
Qed.

Lemma update_then_all {A} (p : A -> bool) (f : A -> A) (l : list A) :
  (forall r, p r = true -> p (f r) = true) ->
  Sql.where_ p (Sql.update p f l) = List.map f (Sql.where_ p l).
Proof.
  intros H. unfold Sql.where_, Sql.update.
  induction l as [|r l IH]; [reflexivity|]. cbn [List.map List.filter].
  destruct (p r) eqn:E; [rewrite (H r E)|rewrite E]; cbn [List.map]; rewrite IH; reflexivity.
Qed.

Lemma update_keeps_others {A} (p : A -> bool) (f : A -> A) (l : list A) (r : A) :
  In r l -> p r = false -> In r (Sql.update p f l).
Proof.
  intros Hin Hp. unfold Sql.update. apply in_map_iff. exists r. rewrite Hp. auto.
Qed.

Lemma update_In {A} (p : A -> bool) (f : A -> A) (l : list A) (r : A) :
  In r (Sql.update p f l) ->
  (In r l /\ p r = false) \/ (exists r0, In r0 l /\ p r0 = true /\ r = f r0).
Proof.
  unfold Sql.update. intros H. apply in_map_iff in H as (r0 & <- & Hin).
  destruct (p r0) eqn:E; [right; exists r0|left]; auto.
Qed.

Lemma order_by_length {A} (before : A -> A -> bool) (l : list A) :
  List.length (order_by before l) = List.length l.
Proof. symmetry. apply Permutation_length, order_by_Permutation. Qed.

Lemma overdue_no_fault (w : World) (userId now : Z) :
  w_fault w = Healthy ->
  TodoLists.overdue userId now w
  = (Ok (send (LTodos (order_by TodoLists.by_date
                         (Sql.where_ (TodoLists.is_overdue userId (dateOf now))
                            (todos (w_db w)))))), w).
Proof.
  intros Hf. unfold TodoLists.overdue, try_catch, bind.
  rewrite (query_no_fault _ _ Hf). reflexivity.
Qed.

(** X8.  With a driver that does not throw, [POST
    /api/todos/reschedule-overdue] answers 400 without a new date and
    changes nothing; with one it answers 200 with the number of todos
    that [GET /api/todos/overdue] listed before it, and the todos that
    were not overdue stay as they are.  When the new date is not before
    today, the overdue listing is empty afterwards; the route accepts a
    new date before today as well, and then the listing is as long as
    before. *)
Theorem reschedule_overdue_moves_the_overdue (w : World) (userId now : Z)
    (newDate : option Z) :
  w_fault w = Healthy ->
  match newDate with
  | None =>
      TodoLists.reschedule_overdue userId now newDate w
      = (Ok (send_status 400 (LError "New date is required")), w)
  | Some day =>
      exists w',
        TodoLists.reschedule_overdue userId now newDate w
        = (Ok (send (LChanged "Overdue todos rescheduled"
                       (Some (Z.of_nat (List.length
                                (todos_of (shown (TodoLists.overdue userId now w)))))))),
           w')
        /\ (forall t, In t (todos (w_db w)) ->
                      TodoLists.is_overdue userId (dateOf now) t = false ->
                      In t (todos (w_db w')))
        /\ (dateOf now <= day ->
            todos_of (shown (TodoLists.overdue userId now w')) = [])
        /\ (day < dateOf now ->
            List.length (todos_of (shown (TodoLists.overdue userId now w')))
            = List.length (todos_of (shown (TodoLists.overdue userId now w))))
  end.
Proof.
  intros Hf. destruct newDate as [day|]; [|reflexivity].
  eexists. split; [|split; [|split]].
  - unfold TodoLists.reschedule_overdue, try_catch, bind.
    rewrite (run_no_fault _ _ Hf). cbn [fst snd ret].
    rewrite (overdue_no_fault w userId now Hf).
    unfold shown, todos_of, send. cbn [fst content]. rewrite order_by_length.
    reflexivity.
  - intros t Hin Hno. cbn [w_db set_db todos with_todos].
    apply update_keeps_others; assumption.
  - intros Hle. rewrite overdue_no_fault by exact Hf.
    unfold shown, todos_of, send. cbn [fst content w_db set_db todos with_todos].
    rewrite update_then_none; [reflexivity|].
    intros r _. unfold TodoLists.is_overdue, TodoLists.move. cbn.
    replace (day <? dateOf now) with false by (symmetry; apply Z.ltb_ge; exact Hle).
    rewrite andb_false_r. reflexivity.
  - intros Hlt. rewrite !overdue_no_fault by exact Hf.
    unfold shown, todos_of, send. cbn [fst content w_db set_db todos with_todos].
    rewrite !order_by_length, update_then_all; [apply List.length_map|].
    intros r. unfold TodoLists.is_overdue, TodoLists.move. cbn.
    intros H. apply andb_true_iff in H as [H Hc]. apply andb_true_iff in H as [Hu _].
    rewrite Hu, Hc. replace (day <? dateOf now) with true
      by (symmetry; apply Z.ltb_lt; exact Hlt).
    reflexivity.
Qed.

Example week_rescheduled :
  todos_of (shown (TodoLists.overdue Scenario.alice (Scenario.noon Scenario.D) Busy.week))
  <> []
  /\ fst (TodoLists.reschedule_overdue Scenario.alice (Scenario.noon Scenario.D)
            (Some Scenario.D) Busy.week)
     = Ok (send (LChanged "Overdue todos rescheduled" (Some 2))).
Proof. split; [vm_compute; discriminate | vm_compute; reflexivity]. Qed.

Lemma reschedule_overdue_witness :
  w_fault Busy.week = Healthy
  /\ exists w',
       TodoLists.reschedule_overdue Scenario.alice (Scenario.noon Scenario.D)
         (Some Scenario.D) Busy.week
       = (Ok (send (LChanged "Overdue todos rescheduled"
                      (Some (Z.of_nat (List.length
                               (todos_of (shown (TodoLists.overdue Scenario.alice
                                                   (Scenario.noon Scenario.D)
                                                   Busy.week)))))))),
          w')
       /\ (forall t, In t (todos (w_db Busy.week)) ->
                     TodoLists.is_overdue Scenario.alice
                       (dateOf (Scenario.noon Scenario.D)) t = false ->
                     In t (todos (w_db w')))
       /\ (dateOf (Scenario.noon Scenario.D) <= Scenario.D ->
           todos_of (shown (TodoLists.overdue Scenario.alice (Scenario.noon Scenario.D) w'))
           = [])
       /\ (Scenario.D < dateOf (Scenario.noon Scenario.D) ->
           List.length
             (todos_of (shown (TodoLists.overdue Scenario.alice (Scenario.noon Scenario.D) w')))
           = List.length
               (todos_of (shown (TodoLists.overdue Scenario.alice (Scenario.noon Scenario.D)
                                   Busy.week)))).
Proof.
  split; [reflexivity|].
  apply (reschedule_overdue_moves_the_overdue Busy.week Scenario.alice
           (Scenario.noon Scenario.D) (Some Scenario.D)).
  reflexivity.
Defined.

Lemma listed_iff (ids : list Z) (id : Z) : existsb (Z.eqb id) ids = true <-> In id ids.
Proof.
  rewrite existsb_exists. split.
  - intros (x & Hx & E). apply Z.eqb_eq in E. subst x. exact Hx.
  - intros H. exists id. split; [exact H | apply Z.eqb_refl].
Qed.

(** X9.  With a driver that does not throw, [POST
    /api/todos/bulk-complete] answers 400 when [ids] is no array or an
    empty one and changes nothing; otherwise it answers 200, every todo
    of the user whose id is listed is completed afterwards with the time
    of the request as its completion time (also one that was completed
    before), the todos of other users and the todos not listed stay as
    they are, and, unlike the toggle, no row is written to the activity
    log. *)
Theorem bulk_complete_completes_the_listed (w : World) (userId now : Z)
    (ids : option (list Z)) :
  w_fault w = Healthy ->
  match ids with
  | None | Some [] =>
      TodoLists.bulk_complete userId now ids w
      = (Ok (send_status 400 (LError "Invalid todo IDs")), w)
  | Some listed =>
      exists w',
        TodoLists.bulk_complete userId now ids w
        = (Ok (send (LChanged "Todos completed" None)), w')
        /\ (forall t, In t (todos (w_db w)) -> t_user_id t = userId -> In (t_id t) listed ->
              exists t', In t' (todos (w_db w'))
                         /\ t_id t' = t_id t /\ t_user_id t' = userId
                         /\ t_title t' = t_title t
                         /\ t_scheduled_date t' = t_scheduled_date t
                         /\ t_is_completed t' = true
                         /\ t_completed_at t' = Some (CURRENT_TIMESTAMP now))
        /\ (forall t, In t (todos (w_db w)) ->
              t_user_id t <> userId \/ ~ In (t_id t) listed ->
              In t (todos (w_db w')))
        /\ List.map t_id (todos (w_db w')) = List.map t_id (todos (w_db w))
        /\ activity_log (w_db w') = activity_log (w_db w)
  end.
Proof.
  intros Hf. destruct ids as [[|id ids]|]; [reflexivity| |reflexivity].
  eexists. split; [|split; [|split; [|split]]].
  - unfold TodoLists.bulk_complete, try_catch, bind.
    rewrite (run_no_fault _ _ Hf). reflexivity.
  - intros t Hin Hu Hid. exists (TodoLists.complete now t).
    cbn [w_db set_db snd todos with_todos]. split.
    + unfold Sql.update. apply in_map_iff. exists t.
      rewrite (proj2 (listed_iff (id :: ids) (t_id t)) Hid), Hu, Z.eqb_refl. auto.
    + cbn. repeat split; try reflexivity. exact Hu.
  - intros t Hin Hno. cbn [w_db set_db snd todos with_todos].
    apply update_keeps_others; [exact Hin|].
    apply not_true_iff_false. intros H. apply andb_true_iff in H as [Hl Hu].
    apply listed_iff in Hl. apply Z.eqb_eq in Hu. tauto.
  - cbn [w_db set_db snd todos with_todos]. unfold Sql.update.
    rewrite List.map_map. apply List.map_ext. intros t.
    match goal with |- context [if ?c then _ else _] => destruct c end; reflexivity.
  - reflexivity.
Qed.

Example week_bulk_complete :
  List.map (fun t => (t_id t, t_is_completed t))
    (todos (w_db (snd (TodoLists.bulk_complete Scenario.alice (Scenario.noon Scenario.D)
                         (Some [1; 3; 4]) Busy.week))))
  = [(1, true); (2, false); (3, false); (4, true); (5, false)].
Proof. vm_compute. reflexivity. Qed.

Lemma bulk_complete_witness :
  w_fault Busy.week = Healthy
  /\ exists w',
       TodoLists.bulk_complete Scenario.alice (Scenario.noon Scenario.D) (Some [1; 3; 4])
         Busy.week
       = (Ok (send (LChanged "Todos completed" None)), w')
       /\ (forall t, In t (todos (w_db Busy.week)) -> t_user_id t = Scenario.alice ->
             In (t_id t) [1; 3; 4] ->
             exists t', In t' (todos (w_db w'))
                        /\ t_id t' = t_id t /\ t_user_id t' = Scenario.alice
                        /\ t_title t' = t_title t
                        /\ t_scheduled_date t' = t_scheduled_date t
                        /\ t_is_completed t' = true
                        /\ t_completed_at t'
                           = Some (CURRENT_TIMESTAMP (Scenario.noon Scenario.D)))
       /\ (forall t, In t (todos (w_db Busy.week)) ->
             t_user_id t <> Scenario.alice \/ ~ In (t_id t) [1; 3; 4] ->
             In t (todos (w_db w')))
       /\ List.map t_id (todos (w_db w')) = List.map t_id (todos (w_db Busy.week))
       /\ activity_log (w_db w') = activity_log (w_db Busy.week).
Proof.
  split; [reflexivity|].
  apply (bulk_complete_completes_the_listed Busy.week Scenario.alice
           (Scenario.noon Scenario.D) (Some [1; 3; 4])).
  reflexivity.
Defined.

(** ** Deleting a journal entry *)

Lemma where_after_delete {A} (p : A -> bool) (l : list A) :
  Sql.where_ p (List.filter (fun r => negb (p r)) l) = [].
Proof.
  unfold Sql.where_. induction l as [|r l IH]; [reflexivity|]. cbn [List.filter].
  destruct (p r) eqn:E; cbn [negb List.filter]; [exact IH|]. rewrite E. exact IH.
Qed.

Lemma count_pos {A} (p : A -> bool) (l : list A) (x : A) :
  In x l -> p x = true -> (Z.of_nat (List.length (List.filter p l)) =? 0) = false.
Proof.
  intros Hin Hp. apply Z.eqb_neq.
  assert (In x (List.filter p l)) as H by (apply filter_In; auto).
  destruct (List.filter p l); [destruct H|]. cbn [List.length]. lia.
Qed.

Lemma journal_delete_found (w : World) (userId id : Z) (e : journal_entry) :
  w_fault w = Healthy ->
  In e (journal_entries (w_db w)) -> je_id e = id -> je_user_id e = userId ->
  Journal.delete userId id w
  = (Ok (json (PMessage "Journal entry deleted")),
     set_db (with_journal_images
               (List.filter (fun i => negb (ji_journal_id i =? id)) (journal_images (w_db w)))
               (seq_journal_images (w_db w))
               (with_journal_entries
                  (List.filter (fun j => negb ((je_id j =? id) && (je_user_id j =? userId)))
                     (journal_entries (w_db w)))
                  (seq_journal_entries (w_db w)) (w_db w))) w).
Proof.
  intros Hf Hin Hid Hu. unfold Journal.delete, try_catch, bind.
  rewrite (query_no_fault _ _ Hf), (run_no_fault _ _ Hf).
  unfold Journal.delete_entry, Sql.delete_where. cbn [fst snd].
  rewrite (count_pos _ _ e Hin) by (rewrite Hid, Hu, !Z.eqb_refl; reflexivity).
  reflexivity.
Qed.

(** X10.  With a driver that does not throw, [DELETE /api/journal/:id]
    on an entry of the user answers 200 and removes the entry together
    with its images; the other entries and the images of other entries
    stay.  Afterwards [GET /api/journal/:id] and a second [DELETE] of
    the same id answer 404. *)
Theorem journal_delete_removes_entry_and_images (w : World) (userId id : Z)
    (e : journal_entry) :
  w_fault w = Healthy ->
  In e (journal_entries (w_db w)) -> je_id e = id -> je_user_id e = userId ->
  exists w',
    Journal.delete userId id w = (Ok (json (PMessage "Journal entry deleted")), w')
    /\ (forall j, In j (journal_entries (w_db w'))
                  <-> In j (journal_entries (w_db w))
                      /\ ~ (je_id j = id /\ je_user_id j = userId))
    /\ (forall i, In i (journal_images (w_db w'))
                  <-> In i (journal_images (w_db w)) /\ ji_journal_id i <> id)
    /\ fst (Journal.get_entry userId id w')
       = Ok (status_json 404 (PError "Entry not found"))
    /\ fst (Journal.delete userId id w')
       = Ok (status_json 404 (PError "Entry not found"))
    /\ w_db (snd (Journal.delete userId id w')) = w_db w'.
Proof.
  intros Hf Hin Hid Hu. eexists.
  split; [apply (journal_delete_found w userId id e Hf Hin Hid Hu)|].
  assert (forall d, Journal.select_owned userId id
            (with_journal_images d (seq_journal_images (w_db w))
               (with_journal_entries
                  (List.filter (fun j => negb ((je_id j =? id) && (je_user_id j =? userId)))
                     (journal_entries (w_db w)))
                  (seq_journal_entries (w_db w)) (w_db w))) = None) as Hgone.
  { intros d. unfold Journal.select_owned. cbn [journal_entries with_journal_images
      with_journal_entries].
    rewrite (where_after_delete (fun j => (je_id j =? id) && (je_user_id j =? userId))).
    reflexivity. }
  split; [|split; [|split; [|split]]].
  - intros j. cbn [w_db set_db journal_entries with_journal_images with_journal_entries].
    rewrite filter_In, negb_true_iff, andb_false_iff, !Z.eqb_neq. intuition lia.
  - intros i. cbn [w_db set_db journal_images with_journal_images].
    rewrite filter_In, negb_true_iff, Z.eqb_neq. reflexivity.
  - rewrite journal_get_missing; [reflexivity | exact Hf | apply Hgone].
  - rewrite journal_delete_missing; [reflexivity | exact Hf | apply Hgone].
  - rewrite journal_delete_missing; [reflexivity | exact Hf | apply Hgone].
Qed.

Example album_after_delete :
  let w' := snd (Journal.delete Scenario.alice 1 Busy.album) in
  List.map je_id (journal_entries (w_db Busy.album)) = [1; 2]
  /\ List.map ji_filename (journal_images (w_db Busy.album)) = ["a1.jpg"; "a2.jpg"; "b1.png"]
  /\ List.map je_id (journal_entries (w_db w')) = [2]
  /\ List.map ji_filename (journal_images (w_db w')) = ["b1.png"].
Proof. vm_compute. repeat split; reflexivity. Qed.

Lemma journal_delete_witness :
  w_fault Busy.album = Healthy
  /\ In (created_entry Scenario.alice (Scenario.noon Scenario.D) Busy.photo_entry
           Scenario.empty)
        (journal_entries (w_db Busy.album))
  /\ exists w',
       Journal.delete Scenario.alice 1 Busy.album
       = (Ok (json (PMessage "Journal entry deleted")), w')
       /\ (forall j, In j (journal_entries (w_db w'))
                     <-> In j (journal_entries (w_db Busy.album))
                         /\ ~ (je_id j = 1 /\ je_user_id j = Scenario.alice))
       /\ (forall i, In i (journal_images (w_db w'))
                     <-> In i (journal_images (w_db Busy.album)) /\ ji_journal_id i <> 1)
       /\ fst (Journal.get_entry Scenario.alice 1 w')
          = Ok (status_json 404 (PError "Entry not found"))
       /\ fst (Journal.delete Scenario.alice 1 w')
          = Ok (status_json 404 (PError "Entry not found"))
       /\ w_db (snd (Journal.delete Scenario.alice 1 w')) = w_db w'.
Proof.
  assert (In (created_entry Scenario.alice (Scenario.noon Scenario.D) Busy.photo_entry
                Scenario.empty)
             (journal_entries (w_db Busy.album))) as Hin
    by (vm_compute; left; reflexivity).
  split; [reflexivity|]. split; [exact Hin|].
  apply (journal_delete_removes_entry_and_images Busy.album Scenario.alice 1
           (created_entry Scenario.alice (Scenario.noon Scenario.D) Busy.photo_entry
              Scenario.empty)
           eq_refl Hin eq_refl eq_refl).
Defined.

(** ** Reading back a journal entry *)






(** ** A milestone toggle and the goal it belongs to *)

Lemma sum_flags_count {A} (p : A -> bool) (l : list A) :
  fold_right Z.add 0 (List.map (fun x => Z.b2z (p x)) l) = Sql.count (Sql.where_ p l).
Proof.
  unfold Sql.count, Sql.where_. induction l as [|x l IH]; [reflexivity|].
  cbn [List.map fold_right List.filter]. rewrite IH.
  destruct (p x); cbn [Z.b2z List.length]; lia.
Qed.

Lemma sum_flags_Permutation {A} (p : A -> bool) (l l' : list A) :
  Permutation l l' ->
  fold_right Z.add 0 (List.map (fun x => Z.b2z (p x)) l)
  = fold_right Z.add 0 (List.map (fun x => Z.b2z (p x)) l').
Proof.
  induction 1; cbn [List.map fold_right]; lia.
Qed.



Example half_done_progress :
  fst (Goals.get_goal Scenario.alice 1 Scenario.half_done)
  = Ok (json (PGoal
                {| g_id := 1; g_user_id := Scenario.alice; g_title := "Run 10k";
                   g_description := None; g_goal_type := "short-term";
                   g_target_date := None; g_progress := 50; g_status := "active";
                   g_created_at := CURRENT_TIMESTAMP (Scenario.noon Scenario.D);
                   g_updated_at := CURRENT_TIMESTAMP (Scenario.noon Scenario.D + 1000);
                   g_completed_at := None |}
                (Goals.milestones_of 1 (w_db Scenario.half_done)))).
Proof. vm_compute. reflexivity. Qed.


(** ** Reading back a goal *)





Example run_10k_created :
  kept_titles (Scenario.project "Run 10k" [" Buy shoes "; "  "; "Train"]) = ["Buy shoes"; "Train"].
Proof. vm_compute. reflexivity. Qed.


(** ** The heatmap and the active days *)






(** ** Rows of another user, by key *)

Lemma foreign_milestone_not_selected (db : DB) (userId milestoneId : Z) (m : goal_milestone) :
  unique_key gm_id (goal_milestones db) ->
  In m (goal_milestones db) -> gm_id m = milestoneId ->
  ~ milestone_of_user db userId m ->
  Goals.select_owned_milestone userId milestoneId db = None.
Proof.
  intros Hkey Hin Hid Hno. unfold Goals.select_owned_milestone, Sql.get, Sql.where_.
  destruct (List.filter _ (goal_milestones db)) as [|x l] eqn:E; [reflexivity|]. exfalso.
  assert (In x (List.filter (Goals.owned_milestone userId milestoneId db) (goal_milestones db)))
    as Hx by (rewrite E; left; reflexivity).
  apply filter_In in Hx as [Hx Hc]. unfold Goals.owned_milestone in Hc.
  apply andb_true_iff in Hc as [Hk Hg]. apply Z.eqb_eq in Hk.
  assert (x = m) as -> by (apply (unique_key_same gm_id (goal_milestones db)); auto; congruence).
  apply existsb_exists in Hg as (g & Hg & Hc). apply andb_true_iff in Hc as [H1 H2].
  apply Z.eqb_eq in H1, H2. apply Hno. exists g. auto.
Qed.

Lemma foreign_row_is_missing (db : DB) (userId : Z) (t : route) :
  keys_ok db -> names_foreign_row userId t db -> missing_target userId t db = true.
Proof.
  intros (Hj & _ & Hg & Hm & Ht & _) H.
  destruct Hj as [Hj _], Hg as [Hg _], Hm as [Hm _], Ht as [Ht _].
  destruct t; cbn [names_foreign_row missing_target] in *; try contradiction;
    try (destruct H as (j & Hin & Hid & Hown);
         unfold Journal.select_owned;
         rewrite (foreign_row_not_selected je_id je_user_id _ j userId _ Hj Hin Hid Hown);
         reflexivity);
    try (destruct H as (g & Hin & Hid & Hown);
         unfold Goals.select_owned;
         rewrite (foreign_row_not_selected g_id g_user_id _ g userId _ Hg Hin Hid Hown);
         reflexivity);
    try (destruct H as (m & Hin & Hid & Hown);
         rewrite (foreign_milestone_not_selected db userId _ m Hm Hin Hid Hown);
         reflexivity);
    try (destruct H as (x & Hin & Hid & Hown);
         unfold Todos.select_owned;
         rewrite (foreign_row_not_selected t_id t_user_id _ x userId _ Ht Hin Hid Hown);
         reflexivity).
Qed.

(** X15.  With a driver that does not throw and the keys of the tables
    distinct, a valid request that names by its key an entry, a goal or
    a todo of another user, or a milestone that hangs on no goal of the
    user (whatever goal id the path carries), is answered 404 and leaves
    every table as it was.  (The toggle of a milestone of the user's own
    is no such request, whatever goal its path names.) *)
Theorem foreign_rows_answer_404 (w : World) (r : request) (userId : Z) :
  w_fault w = Healthy ->
  keys_ok (w_db w) ->
  session_user r = Some userId ->
  validation_errors (target r) = [] ->
  names_foreign_row userId (target r) (w_db w) ->
  exists msg w',
    app r w = (Ok (status_json 404 (PError msg)), w') /\ w_db w' = w_db w.
Proof.
  intros Hf Hkeys Hs Hv Hrow.
  apply (app_missing w userId Hf r Hs Hv).
  apply foreign_row_is_missing; assumption.
Qed.

Lemma foreign_rows_witness :
  w_fault Scenario.two_users = Healthy
  /\ keys_ok (w_db Scenario.two_users)
  /\ names_foreign_row Scenario.alice (MilestoneToggle 1 2) (w_db Scenario.two_users)
  /\ exists msg w',
       app (Scenario.as_user Scenario.alice (Scenario.noon Scenario.D + 3000)
              (MilestoneToggle 1 2)) Scenario.two_users
       = (Ok (status_json 404 (PError msg)), w')
       /\ w_db w' = w_db Scenario.two_users.
Proof.
  assert (keys_ok (w_db Scenario.two_users)) as Hkeys
    by (apply (replay_keeps keys_ok _ app_keeps_keys Scenario.fresh keys_ok_empty)).
  assert (names_foreign_row Scenario.alice (MilestoneToggle 1 2) (w_db Scenario.two_users))
    as Hrow.
  { cbn [names_foreign_row]. eexists. split; [vm_compute; right; left; reflexivity|].
    split; [reflexivity|].
    intros (g & Hin & Hid & Hu). vm_compute in Hin.
    destruct Hin as [<-|[<-|[]]]; vm_compute in Hid, Hu; discriminate. }
  split; [reflexivity|]. split; [exact Hkeys|]. split; [exact Hrow|].
  apply (foreign_rows_answer_404 Scenario.two_users
           (Scenario.as_user Scenario.alice (Scenario.noon Scenario.D + 3000)
              (MilestoneToggle 1 2))
           Scenario.alice eq_refl Hkeys eq_refl eq_refl Hrow).
Defined.

(** ** The goal listing and its counts *)

Lemma with_milestones_no_fault (l : list (goal * Z * Z)) (w : World) :
  w_fault w = Healthy ->
  GoalLists.with_milestones l w
  = (Ok (List.map (fun g => (g, Goals.milestones_of (g_id (fst (fst g))) (w_db w))) l), w).
Proof.
  intros Hf. induction l as [|g l IH]; [reflexivity|].
  cbn [GoalLists.with_milestones List.map]. unfold bind.
  rewrite (query_no_fault _ _ Hf), IH. reflexivity.
Qed.

Lemma count_where_order_by {A} (p : A -> bool) (before : A -> A -> bool) (l : list A) :
  Sql.count (Sql.where_ p (order_by before l)) = Sql.count (Sql.where_ p l).
Proof.
  rewrite <- !sum_flags_count. symmetry.
  apply sum_flags_Permutation, order_by_Permutation.
Qed.

Lemma where_and {A} (p q : A -> bool) (l : list A) :
  Sql.where_ (fun x => p x && q x) l = Sql.where_ q (Sql.where_ p l).
Proof.
  unfold Sql.where_. induction l as [|x l IH]; [reflexivity|]. cbn [List.filter].
  destruct (p x); cbn [andb List.filter]; [destruct (q x)|]; rewrite IH; reflexivity.
Qed.

Lemma newest_first_total : total_order GoalLists.newest_first.
Proof.
  split; unfold GoalLists.newest_first.
  - intros a b H. bool_to_Z. lia.
  - intros a b c H1 H2. bool_to_Z. lia.
Qed.

(** X16.  With a driver that does not throw, [GET /api/goals] answers
    200 with exactly the goals of the user that pass the [type] and
    [status] filters (an empty parameter filters nothing), each once, the
    newest first; each goal comes with its milestones, and its
    [total_milestones] and [completed_milestones] are the number of
    these milestones and the number of the completed ones among
    them. *)
Theorem goal_listing_counts_its_milestones (w : World) (userId : Z)
    (type status : option string) :
  w_fault w = Healthy ->
  exists rows,
    GoalLists.list_goals userId type status w = (Ok (send (LGoals rows)), w)
    /\ Permutation (List.map (fun r => fst (fst (fst r))) rows)
         (Sql.where_ (GoalLists.matches userId type status) (goals (w_db w)))
    /\ sorted_by GoalLists.newest_first (List.map (fun r => fst (fst (fst r))) rows)
    /\ forall g total completed ms,
         In (g, total, completed, ms) rows ->
         total = Sql.count ms
         /\ completed = Sql.count (Sql.where_ gm_is_completed ms)
         /\ forall m, In m ms <-> In m (goal_milestones (w_db w)) /\ gm_goal_id m = g_id g.
Proof.
  intros Hf. eexists. split; [|split; [|split]].
  - unfold GoalLists.list_goals, try_catch, bind.
    rewrite (query_no_fault _ _ Hf), (with_milestones_no_fault _ _ Hf). reflexivity.
  - unfold GoalLists.counted_goals. rewrite !List.map_map. cbn [fst].
    rewrite List.map_id. apply Permutation_sym, order_by_Permutation.
  - unfold GoalLists.counted_goals. rewrite !List.map_map. cbn [fst].
    rewrite List.map_id. apply order_by_sorted, newest_first_total.
  - intros g total completed ms Hin.
    unfold GoalLists.counted_goals in Hin. rewrite List.map_map in Hin.
    apply in_map_iff in Hin as (g0 & E & _). cbn [fst] in E.
    injection E as <- <- <- <-.
    unfold Goals.milestones_of. split; [|split].
    + unfold Sql.count. rewrite order_by_length. reflexivity.
    + rewrite count_where_order_by, where_and. reflexivity.
    + intros m. rewrite In_order_by. unfold Sql.where_. rewrite filter_In, Z.eqb_eq.
      reflexivity.
Qed.

Example half_done_listing :
  List.map (fun r => (g_title (fst (fst (fst r))), snd (fst (fst r)), snd (fst r),
                      List.map gm_title (snd r)))
    match content (shown (GoalLists.list_goals Scenario.alice None None Scenario.half_done)) with
    | LGoals rows => rows
    | _ => []
    end
  = [("Run 10k", 2, 1, ["Buy shoes"; "Train"])].
Proof. vm_compute. reflexivity. Qed.

Lemma goal_listing_witness :
  w_fault Scenario.half_done = Healthy
  /\ exists rows,
       GoalLists.list_goals Scenario.alice None None Scenario.half_done
       = (Ok (send (LGoals rows)), Scenario.half_done)
       /\ Permutation (List.map (fun r => fst (fst (fst r))) rows)
            (Sql.where_ (GoalLists.matches Scenario.alice None None)
               (goals (w_db Scenario.half_done)))
       /\ sorted_by GoalLists.newest_first (List.map (fun r => fst (fst (fst r))) rows)
       /\ forall g total completed ms,
            In (g, total, completed, ms) rows ->
            total = Sql.count ms
            /\ completed = Sql.count (Sql.where_ gm_is_completed ms)
            /\ forall m, In m ms
                         <-> In m (goal_milestones (w_db Scenario.half_done))
                             /\ gm_goal_id m = g_id g.
Proof.
  split; [reflexivity|].
  apply (goal_listing_counts_its_milestones Scenario.half_done Scenario.alice None None).
  reflexivity.
Defined.

(** ** A new todo and the listings *)





(** ** The reminders of the poller *)

Lemma set_sent_twice (s1 s2 : list notification) (w : World) :
  set_sent s2 (set_sent s1 w) = set_sent s2 w.
Proof. reflexivity. Qed.




Example overdue_reminder :
  List.map n_message
    (w_sent (snd (Notifications.checkAndNotify (Scenario.noon (Scenario.D + 1))
                    Scenario.overdue)))
  = ["You have 1 overdue tasks. Consider rescheduling them."].
Proof. vm_compute. reflexivity. Qed.


(** ** The quote of the hour *)

Lemma quote_pools_not_empty :
  List.filter (Quotes.mentions ["start"; "begin"; "today"]) Quotes.quotes <> []
  /\ List.filter (Quotes.mentions ["keep"; "continu"; "work"]) Quotes.quotes <> []
  /\ List.filter (Quotes.mentions ["success"; "great"; "achieve"]) Quotes.quotes <> [].
Proof. repeat split; vm_compute; discriminate. Qed.

(** X19.  With draws of [Math.random()] in [0, 1), [getMotivationalQuote]
    returns a quote of the fixed list whose text, in lower case, holds
    one of the words of the time of day: start, begin or today before
    12 o'clock, keep, continu or work before 17 o'clock, success, great
    or achieve after; the fallback to the whole list is never taken,
    each of the three selections having a quote. *)
Theorem quote_fits_the_time_of_day (now : Z) (w : World) :
  unit_draws w ->
  exists q,
    fst (Quotes.getMotivationalQuote now w) = Ok (Some q)
    /\ In q Quotes.quotes
    /\ Quotes.mentions (words_of_hour (getHours now)) q = true.
Proof.
  intros Hw. unfold Quotes.getMotivationalQuote.
  destruct quote_pools_not_empty as (Hm & Ha & He).
  set (category := if getHours now <? 12 then _ else _).
  assert (category
          = List.filter (Quotes.mentions (words_of_hour (getHours now))) Quotes.quotes) as Hcat
    by (subst category; unfold words_of_hour;
        destruct (getHours now <? 12); [|destruct (getHours now <? 17)]; reflexivity).
  assert (category <> []) as Hne
    by (subst category; destruct (getHours now <? 12); [|destruct (getHours now <? 17)];
        assumption).
  assert (0 < Z.of_nat (List.length category)) as Hlen
    by (destruct category; [contradiction | cbn [List.length]; lia]).
  replace (0 <? Z.of_nat (List.length category)) with true
    by (symmetry; apply Z.ltb_lt; exact Hlen).
  assert (exists x w', random w = (Ok x, w') /\ (0 <= x)%Q /\ (x < 1)%Q)
    as (x & w' & Hr & H0 & H1).
  { unfold random. destruct (w_rand w) as [|x l] eqn:E.
    - eexists _, _. split; [reflexivity|]. split; [apply Qle_refl | reflexivity].
    - eexists _, _. split; [reflexivity|]. apply Hw. rewrite E. left. reflexivity. }
  unfold bind. rewrite Hr. unfold ret. cbn [fst].
  destruct (floor_index x _ H0 H1 Hlen) as [Hi0 Hi1].
  replace (Math_floor (x * inject_Z (Z.of_nat (List.length category))) <? 0) with false
    by (symmetry; apply Z.ltb_ge; exact Hi0).
  destruct (nth_error category
              (Z.to_nat (Math_floor (x * inject_Z (Z.of_nat (List.length category))))))
    as [q|] eqn:Hq.
  - exists q. split; [reflexivity|]. apply nth_error_In in Hq. rewrite Hcat in Hq.
    apply filter_In in Hq. exact Hq.
  - apply nth_error_None in Hq. lia.
Qed.

Lemma quote_fits_witness :
  unit_draws Scenario.lucky
  /\ exists q,
       fst (Quotes.getMotivationalQuote (Scenario.noon Scenario.D) Scenario.lucky)
       = Ok (Some q)
       /\ In q Quotes.quotes
       /\ Quotes.mentions (words_of_hour (getHours (Scenario.noon Scenario.D))) q = true.
Proof.
  assert (unit_draws Scenario.lucky) as Hd.
  { intros x Hx. vm_compute in Hx.
    repeat (destruct Hx as [<-|Hx]; [split; [discriminate | reflexivity]|]).
    destruct Hx. }
  split; [exact Hd|].
  apply (quote_fits_the_time_of_day (Scenario.noon Scenario.D) Scenario.lucky Hd).
Defined.

(** ** A failure in the middle of a handler *)





Example photo_entry_half_stored :
  let w' := snd (Journal.create Scenario.alice (Scenario.noon Scenario.D) Busy.photo_entry
                   (set_fault (FailsAfter 3) Scenario.fresh)) in
  List.map je_id (journal_entries (w_db w')) = [1]
  /\ List.map ji_filename (journal_images (w_db w')) = ["a1.jpg"; "a2.jpg"]
  /\ activity_log (w_db w') = [].
Proof. vm_compute. repeat split; reflexivity. Qed.


(** ** The journal listing *)



Example three_days_listing :
  List.map (fun e => (je_content e, je_entry_date e))
    (entries_of (shown_response (Journal.list_entries Scenario.alice no_filter
                                   Scenario.three_days)))
  = [("Wednesday", Some Scenario.D); ("Monday", Some (Scenario.D - 2))]
  /\ List.map (fun e => (je_content e, je_entry_date e))
       (entries_of (shown_response (Journal.list_entries Scenario.alice
                                      (Busy.since (Scenario.D - 1)) Scenario.three_days)))
     = [("Wednesday", Some Scenario.D)].
Proof. vm_compute. split; reflexivity. Qed.


(** ** The dashboard and the pending items *)

Lemma today_no_fault (w : World) (userId now : Z) :
  w_fault w = Healthy ->
  todos_of (shown (TodoLists.today userId now w))
  = order_by TodoLists.by_rank_created
      (Sql.where_ (fun t => (t_user_id t =? userId) && (t_scheduled_date t =? dateOf now))
         (todos (w_db w))).
Proof.
  intros Hf. unfold TodoLists.today, try_catch, bind.
  rewrite (query_no_fault _ _ Hf). reflexivity.
Qed.

Lemma overdue_rows_no_fault (w : World) (userId now : Z) :
  w_fault w = Healthy ->
  todos_of (shown (TodoLists.overdue userId now w))
  = order_by TodoLists.by_date
      (Sql.where_ (TodoLists.is_overdue userId (dateOf now)) (todos (w_db w))).
Proof.
  intros Hf. unfold TodoLists.overdue, try_catch, bind.
  rewrite (query_no_fault _ _ Hf). reflexivity.
Qed.

Lemma order_by_nil_iff {A} (before : A -> A -> bool) (l : list A) :
  order_by before l = [] <-> l = [].
Proof.
  split; [|intros ->; reflexivity].
  intros H. apply length_zero_iff_nil. rewrite <- (order_by_length before), H. reflexivity.
Qed.

Lemma sum_range (l : list goal) :
  (forall g, In g l -> 0 <= g_progress g <= 100) ->
  0 <= fold_right Z.add 0 (List.map g_progress l) <= 100 * Sql.count l.
Proof.
  unfold Sql.count. induction l as [|g l IH]; intros H; [cbn; lia|].
  cbn [List.map fold_right List.length].
  specialize (H g (or_introl eq_refl)) as Hg.
  assert (forall g, In g l -> 0 <= g_progress g <= 100) as H' by (intros x Hx; apply H; right; exact Hx).
  specialize (IH H'). lia.
Qed.

Lemma average_range (sum n : Z) :
  1 <= n -> 0 <= sum <= 100 * n ->
  (0 <= inject_Z sum / inject_Z n /\ inject_Z sum / inject_Z n <= 100)%Q.
Proof.
  intros Hn Hs.
  assert (0 < inject_Z n)%Q as Hpos by (change 0%Q with (inject_Z 0); rewrite <- Zlt_Qlt; lia).
  split.
  - apply Qle_shift_div_l; [exact Hpos|]. rewrite Qmult_0_l.
    change 0%Q with (inject_Z 0). rewrite <- Zle_Qle. lia.
  - apply Qle_shift_div_r; [exact Hpos|]. change 100%Q with (inject_Z 100).
    rewrite <- inject_Z_mult, <- Zle_Qle. lia.
Qed.

Lemma active_goals_groups (userId : Z) (db : DB) (ty : string) (n : Z) (avg : Q) :
  In (ty, n, avg) (StatsRoutes.active_goals userId db) ->
  1 <= n /\ (progress_ok db -> (0 <= avg /\ avg <= 100)%Q).
Proof.
  unfold StatsRoutes.active_goals. intros H.
  apply in_map_iff in H as (ty' & E & Hty). injection E as -> <- <-.
  apply nodup_In, in_map_iff in Hty as (g & Hg & Hin).
  set (rows := Sql.where_ _ (goals db)) in *.
  set (group := Sql.where_ (fun g => String.eqb (g_goal_type g) ty) rows).
  assert (In g group) as Hgroup
    by (apply filter_In; split; [exact Hin | apply String.eqb_eq; exact Hg]).
  assert (1 <= Sql.count group) as Hn
    by (unfold Sql.count; destruct group; [destruct Hgroup | cbn [List.length]; lia]).
  split; [exact Hn|].
  intros Hok. apply average_range; [exact Hn|].
  apply sum_range. intros x Hx. apply Hok.
  apply filter_In in Hx as [Hx _]. apply filter_In in Hx as [Hx _]. exact Hx.
Qed.

(** X22.  With a driver that does not throw, [GET /api/stats/dashboard]
    agrees with the listings of the todos: [todayTodos.total] is the
    number of todos of [GET /api/todos/today], [todayTodos.completed] the
    number of completed ones among them, but NULL instead of 0 when
    there is no todo for today, and [overdueTodos] is the number of todos
    of [GET /api/todos/overdue].  Every row of [activeGoals] stands for at
    least one goal, and its average progress lies between 0 and 100 when
    every stored progress does; the streak is not negative. *)
Theorem dashboard_agrees_with_the_listings (w : World) (userId now : Z) :
  w_fault w = Healthy ->
  exists completed activeGoals recentJournals streak,
    (forall fuel, (streak_fuel (w_db w) (dateOf now) <= fuel)%nat ->
       StatsRoutes.dashboard fuel userId now w
       = (Ok (send (LDashboard
                      (Sql.count (todos_of (shown (TodoLists.today userId now w))))
                      completed
                      (Sql.count (todos_of (shown (TodoLists.overdue userId now w))))
                      activeGoals recentJournals streak)), w))
    /\ completed
       = match todos_of (shown (TodoLists.today userId now w)) with
         | [] => None
         | rows => Some (Sql.count (Sql.where_ t_is_completed rows))
         end
    /\ (forall ty n avg, In (ty, n, avg) activeGoals ->
          1 <= n /\ (progress_ok (w_db w) -> (0 <= avg /\ avg <= 100)%Q))
    /\ 0 <= streak.
Proof.
  intros Hf.
  destruct (calculateStreak_run w userId now Hf) as (n & first & Hn & _ & Hloop).
  rewrite (today_no_fault w userId now Hf), (overdue_rows_no_fault w userId now Hf).
  set (rows := Sql.where_ (fun t => (t_user_id t =? userId)
                                    && (t_scheduled_date t =? dateOf now)) (todos (w_db w))).
  exists (snd (StatsRoutes.today_todos userId (dateOf now) (w_db w))),
    (StatsRoutes.active_goals userId (w_db w)),
    (StatsRoutes.recent_journals userId (dateOf now) (w_db w)), n.
  split; [|split; [|split; [|exact Hn]]].
  - intros fuel Hfuel. unfold StatsRoutes.dashboard, try_catch, bind.
    rewrite !(query_no_fault _ _ Hf), (Hloop fuel Hfuel).
    unfold StatsRoutes.today_todos at 1. cbn [fst]. fold rows.
    unfold Sql.count at 3 4. rewrite !order_by_length. reflexivity.
  - unfold StatsRoutes.today_todos. cbn [snd]. fold rows.
    destruct rows as [|t rows'] eqn:E; [reflexivity|].
    destruct (order_by TodoLists.by_rank_created (t :: rows')) as [|t' sorted] eqn:Es.
    { apply order_by_nil_iff in Es. discriminate Es. }
    rewrite <- Es, count_where_order_by, sum_flags_count. reflexivity.
  - intros ty k avg. apply active_goals_groups.
Qed.



Example week_dashboard :
  fst (StatsRoutes.dashboard 10 Scenario.alice (Scenario.noon Scenario.D) Busy.week)
  = Ok (send (LDashboard 1 (Some 0) 2 [] 0 0))
  /\ fst (StatsRoutes.dashboard 10 Scenario.bob (Scenario.noon Scenario.D) Busy.week)
     = Ok (send (LDashboard 0 None 1 [] 0 0)).
Proof. split; vm_compute; reflexivity. Qed.

Lemma dashboard_witness :
  w_fault Busy.week = Healthy
  /\ exists completed activeGoals recentJournals streak,
       (forall fuel,
          (streak_fuel (w_db Busy.week) (dateOf (Scenario.noon Scenario.D)) <= fuel)%nat ->
          StatsRoutes.dashboard fuel Scenario.alice (Scenario.noon Scenario.D) Busy.week
          = (Ok (send (LDashboard
                         (Sql.count (todos_of (shown (TodoLists.today Scenario.alice
                                                        (Scenario.noon Scenario.D) Busy.week))))
                         completed
                         (Sql.count (todos_of (shown (TodoLists.overdue Scenario.alice
                                                        (Scenario.noon Scenario.D) Busy.week))))
                         activeGoals recentJournals streak)), Busy.week))
       /\ completed
          = match todos_of (shown (TodoLists.today Scenario.alice (Scenario.noon Scenario.D)
                                     Busy.week)) with
            | [] => None
            | rows => Some (Sql.count (Sql.where_ t_is_completed rows))
            end
       /\ (forall ty n avg, In (ty, n, avg) activeGoals ->
             1 <= n /\ (progress_ok (w_db Busy.week) -> (0 <= avg /\ avg <= 100)%Q))
       /\ 0 <= streak.
Proof.
  split; [reflexivity|].
  apply (dashboard_agrees_with_the_listings Busy.week Scenario.alice
           (Scenario.noon Scenario.D)).
  reflexivity.
Defined.

